(** * mukh: the Gradio application (app.py)

    A shallow embedding of [GradioApp.detect_faces], [GradioApp.reenact_face]
    and [GradioApp.detect_deepfakes], and the properties of the deepfake
    ensemble orchestration and of the output artifact discovery.

    Python floats are the kernel's binary64 floats, strings are byte strings
    holding the UTF-8 encoding of the source's literals, dictionaries are
    association lists in insertion order.  The file system and the three
    collaborators ([FaceDetector], [FaceReenactor],
    [PipelineDeepfakeDetection]) are an arbitrary [World]; the operations are
    programs over it whose runs record every query and call they make. *)

From Stdlib Require Import String Ascii List ZArith Bool Floats Lia.
From Stdlib Require DecimalString.
Import ListNotations.

Set Warnings "-inexact-float".
Set Implicit Arguments.

Local Open Scope string_scope.

(** ** The pieces of the Python runtime the application uses *)

Module Py.

(** An exception: the name of its class and the text [str(e)] gives.  An
    [Exn] is of a class derived from [Exception]; a [BaseExn] is of a class
    derived from [BaseException] and not from [Exception], such as
    [KeyboardInterrupt], [SystemExit] and [GeneratorExit]. *)
Inductive exn : Type :=
| Exn (class str : string)
| BaseExn (class str : string).

Definition exn_class (e : exn) : string :=
  match e with
  | Exn class _ | BaseExn class _ => class
  end.

Definition exn_str (e : exn) : string :=
  match e with
  | Exn _ str | BaseExn _ str => str
  end.

(** [isinstance(e, Exception)]: whether [except Exception] handles [e]. *)
Definition is_Exception (e : exn) : bool :=
  match e with
  | Exn _ _ => true
  | BaseExn _ _ => false
  end.

(** The result of evaluating an expression that may raise. *)
Inductive outcome (A : Type) : Type :=
| Ok (a : A)
| Raise (e : exn).
Arguments Ok {A} a.
Arguments Raise {A} e.

Definition obind {A B} (x : outcome A) (f : A -> outcome B) : outcome B :=
  match x with
  | Ok a => f a
  | Raise e => Raise e
  end.

Definition nl : string := String (ascii_of_nat 10) EmptyString.

(** Truthiness of a [str] and of an [Optional[str]]. *)
Definition truthy (s : string) : bool :=
  match s with
  | EmptyString => false
  | String _ _ => true
  end.

Definition truthy_opt (o : option string) : bool :=
  match o with
  | Some s => truthy s
  | None => false
  end.

(** [x in l] for a list of strings. *)
Definition contains (x : string) (l : list string) : bool :=
  existsb (String.eqb x) l.

(** [sep.join(l)]. *)
Definition join (sep : string) (l : list string) : string :=
  String.concat sep l.

(** [n] copies of [s]. *)
Fixpoint repeat_nat (s : string) (n : nat) : string :=
  match n with
  | O => EmptyString
  | S n' => s ++ repeat_nat s n'
  end.

(** [sys.maxsize], the largest index, and the smallest one. *)
Definition ssize_max : Z := 9223372036854775807.
Definition ssize_min : Z := -9223372036854775808.

(** [s * n] for a [str] of one character: a count that does not fit an
    index raises, whatever its sign; otherwise there is no copy when
    [n <= 0] and [n] copies when it is positive.  Memory is not bounded
    here: the allocation of a count that fits an index succeeds. *)
Definition str_mul (s : string) (n : Z) : outcome string :=
  if ((ssize_min <=? n) && (n <=? ssize_max))%Z
  then Ok (repeat_nat s (Z.to_nat n))
  else Raise (Exn "OverflowError"
                "cannot fit 'int' into an index-sized integer").

(** [str(n)] for an [int]. *)
Definition str_of_int (n : Z) : string :=
  DecimalString.NilZero.string_of_int (Z.to_int n).

(** [s.title()] on the two media type names is capitalisation of the
    first letter; the media type is one of two values. *)
Inductive media_type : Type := image | video.

Definition title (t : media_type) : string :=
  match t with
  | image => "Image"
  | video => "Video"
  end.

Definition media_type_eqb (a b : media_type) : bool :=
  match a, b with
  | image, image | video, video => true
  | _, _ => false
  end.

(** *** posixpath *)

Definition is_slash (c : ascii) : bool := Ascii.eqb c "/"%char.
Definition is_dot (c : ascii) : bool := Ascii.eqb c "."%char.

Fixpoint has_slash (s : string) : bool :=
  match s with
  | EmptyString => false
  | String c r => is_slash c || has_slash r
  end.

Fixpoint all_chars (f : ascii -> bool) (s : string) : bool :=
  match s with
  | EmptyString => true
  | String c r => f c && all_chars f r
  end.

Fixpoint last_is_slash (s : string) : bool :=
  match s with
  | EmptyString => false
  | String c EmptyString => is_slash c
  | String _ r => last_is_slash r
  end.

Definition starts_with_slash (s : string) : bool :=
  match s with
  | String c _ => is_slash c
  | EmptyString => false
  end.

(** [os.path.join(a, b)]. *)
Definition path_join2 (a b : string) : string :=
  if starts_with_slash b then b
  else if negb (truthy a) || last_is_slash a then a ++ b
  else a ++ "/" ++ b.

(** [os.path.join(a, *p)]. *)
Definition path_join (a : string) (p : list string) : string :=
  fold_left path_join2 p a.

(** [p[i:]] for [i = p.rfind('/') + 1]. *)
Fixpoint basename (p : string) : string :=
  match p with
  | EmptyString => EmptyString
  | String c r =>
      if has_slash r then basename r
      else if is_slash c then r
      else p
  end.

(** [p[:i]] for [i = p.rfind('/') + 1]. *)
Fixpoint head_part (p : string) : string :=
  match p with
  | EmptyString => EmptyString
  | String c r =>
      if has_slash r then String c (head_part r)
      else if is_slash c then String c EmptyString
      else EmptyString
  end.

Fixpoint rstrip_slash (s : string) : string :=
  match s with
  | EmptyString => EmptyString
  | String c r =>
      let r' := rstrip_slash r in
      if is_slash c && negb (truthy r') then EmptyString else String c r'
  end.

(** [os.path.dirname(p)]. *)
Definition dirname (p : string) : string :=
  let head := head_part p in
  if truthy head && negb (all_chars is_slash head)
  then rstrip_slash head
  else head.

(** The split of a file name at its last dot, when it has one. *)
Fixpoint split_last_dot (s : string) : option (string * string) :=
  match s with
  | EmptyString => None
  | String c r =>
      match split_last_dot r with
      | Some (a, b) => Some (String c a, b)
      | None => if is_dot c then Some (EmptyString, s) else None
      end
  end.

(** [os.path.splitext(p)]: the extension starts at the last dot of the
    last component, unless only dots precede it there. *)
Definition splitext (p : string) : string * string :=
  match split_last_dot (basename p) with
  | Some (a, b) =>
      if all_chars is_dot a then (p, EmptyString)
      else (head_part p ++ a, b)
  | None => (p, EmptyString)
  end.

(** *** float *)

Local Open Scope float_scope.

(** [a / b] on floats raises on a zero divisor. *)
Definition truediv (a b : float) : outcome float :=
  if b =? 0 then Raise (Exn "ZeroDivisionError" "float division by zero")
  else Ok (a / b).

(** [sum(l)]: the running total starts at zero, the values are added from
    left to right.  On the base weights every addition is exact. *)
Definition sum (l : list float) : float :=
  fold_left PrimFloat.add l 0.

(** The integer nearest to [m * 2^e], ties to even. *)
Definition round_half_even (m : Z) (e : Z) : Z :=
  if (0 <=? e)%Z then (m * 2 ^ e)%Z
  else
    let den := (2 ^ (- e))%Z in
    let q := (m / den)%Z in
    let r := (m mod den)%Z in
    if (den <? 2 * r)%Z then (q + 1)%Z
    else if (2 * r =? den)%Z && Z.odd q then (q + 1)%Z
    else q.

(** [m * 2^e] without its fractional part. *)
Definition truncate (m : Z) (e : Z) : Z :=
  if (0 <=? e)%Z then (m * 2 ^ e)%Z else (m / 2 ^ (- e))%Z.

(** [int(x)]. *)
Definition int_of_float (x : float) : outcome Z :=
  match Prim2SF x with
  | S754_nan =>
      Raise (Exn "ValueError" "cannot convert float NaN to integer")
  | S754_infinity _ =>
      Raise (Exn "OverflowError" "cannot convert float infinity to integer")
  | S754_zero _ => Ok 0%Z
  | S754_finite s m e =>
      let n := truncate (Zpos m) e in
      Ok (if s then (- n)%Z else n)
  end.

(** The decimal digits of [n], padded with zeros on the left to [width]. *)
Definition zero_pad (width : nat) (n : Z) : string :=
  let d := str_of_int n in
  repeat_nat "0" (width - String.length d) ++ d.

(** [format(x, '.<digits>f')], for [digits >= 1]: the exact value of [x]
    rounded to [digits] decimals, ties to even. *)
Definition format_fixed (digits : nat) (x : float) : string :=
  match Prim2SF x with
  | S754_nan => "nan"
  | S754_infinity s => if s then "-inf" else "inf"
  | S754_zero s =>
      (if s then "-" else "") ++ "0." ++ repeat_nat "0" digits
  | S754_finite s m e =>
      let scale := (10 ^ Z.of_nat digits)%Z in
      let n := round_half_even (Zpos m * scale) e in
      (if s then "-" else "")
        ++ str_of_int (n / scale) ++ "." ++ zero_pad digits (n mod scale)
  end.

(** [format(x, '.1%')]: the value times 100, one decimal, a percent sign. *)
Definition format_percent1 (x : float) : string :=
  format_fixed 1 (x * 100) ++ "%".

(** A dictionary with string keys, in insertion order. *)
Definition dict (V : Type) : Type := list (string * V).

(** [d[k] = v]. *)
Fixpoint dict_set {V} (d : dict V) (k : string) (v : V) : dict V :=
  match d with
  | [] => [(k, v)]
  | (k', v') :: r =>
      if String.eqb k' k then (k', v) :: r else (k', v') :: dict_set r k v
  end.

Definition keys {V} (d : dict V) : list string := map fst d.
Definition values {V} (d : dict V) : list V := map snd d.

(** [not d]. *)
Definition dict_is_empty {V} (d : dict V) : bool :=
  match d with
  | [] => true
  | _ :: _ => false
  end.

(** [repr(d)] for a dictionary of floats whose keys hold no quote;
    [float_repr] is the interpreter's [repr] on floats. *)
Definition dict_repr (float_repr : float -> string) (d : dict float) : string :=
  "{" ++ join ", " (map (fun kv => "'" ++ fst kv ++ "': " ++ float_repr (snd kv)) d)
      ++ "}".

End Py.

(** ** Programs over the file system and the collaborators *)

Module Eff.
Import Py.

(** A collaborator object: a detector, a reenactor or a pipeline. *)
Definition handle : Type := nat.

(** [detection.bbox], with the confidence the detector stores in it. *)
Record BoundingBox : Type := {
  x1 : Z; y1 : Z; x2 : Z; y2 : Z;
  confidence : float
}.

Record Detection : Type := { bbox : BoundingBox }.

(** The calls that leave the application, with their keyword arguments. *)
Inductive call : Type :=
| os_makedirs (path : string)
| FaceDetector_create (model : string)
| detector_detect (detector : handle) (image_path : string)
    (save_json : bool) (json_path : string) (save_annotated : bool)
    (output_folder : string)
| FaceReenactor_create (model : string)
| reenact_from_video (reenactor : handle)
    (source_path driving_video_path output_path : string)
    (save_comparison resize_to_image_resolution : bool)
| PipelineDeepfakeDetection (model_configs : dict float)
    (device : option string) (confidence_threshold : float)
| pipeline_detect (pipeline : handle) (media_path output_folder : string)
    (save_csv : bool) (num_frames : Z).

(** What each call returns when it does not raise. *)
Definition resp (c : call) : Type :=
  match c with
  | os_makedirs _ => unit
  | FaceDetector_create _ => handle
  | detector_detect _ _ _ _ _ _ => list Detection
  | FaceReenactor_create _ => handle
  | reenact_from_video _ _ _ _ _ _ => string
  | PipelineDeepfakeDetection _ _ _ => handle
  | pipeline_detect _ _ _ _ _ => bool
  end.

(** A program: it returns, raises, asks the file system, or calls out and
    continues with what the call returned or raised. *)
Inductive prog (A : Type) : Type :=
| Ret (a : A)
| Throw (e : exn)
| Exists (path : string) (k : bool -> prog A)
| Glob (pattern : string) (k : list string -> prog A)
| Do (c : call) (k : outcome (resp c) -> prog A).
Arguments Ret {A} a.
Arguments Throw {A} e.
Arguments Exists {A} path k.
Arguments Glob {A} pattern k.
Arguments Do {A} c k.

Fixpoint bind {A B} (p : prog A) (f : A -> prog B) : prog B :=
  match p with
  | Ret a => f a
  | Throw e => Throw e
  | Exists path k => Exists path (fun b => bind (k b) f)
  | Glob pattern k => Glob pattern (fun l => bind (k l) f)
  | Do c k => Do c (fun r => bind (k r) f)
  end.

(** [try: p  except Exception as e: h e]: an exception of a class outside
    [Exception] is not handled and goes on to the caller. *)
Fixpoint try_except {A} (p : prog A) (h : exn -> prog A) : prog A :=
  match p with
  | Ret a => Ret a
  | Throw e => if is_Exception e then h e else Throw e
  | Exists path k => Exists path (fun b => try_except (k b) h)
  | Glob pattern k => Glob pattern (fun l => try_except (k l) h)
  | Do c k => Do c (fun r => try_except (k r) h)
  end.

Definition lift {A} (x : outcome A) : prog A :=
  match x with
  | Ok a => Ret a
  | Raise e => Throw e
  end.

(** What [except Exception as e: return h e] makes of an exception raised
    in its [try]: the response [h e], or the exception itself when its
    class is outside [Exception]. *)
Definition caught {A} (h : exn -> A) (e : exn) : outcome A :=
  if is_Exception e then Ok (h e) else Raise e.

(** [os.path.exists(path)]. *)
Definition os_path_exists (path : string) : prog bool :=
  Exists path Ret.

(** [glob.glob(pattern)]. *)
Definition glob_glob (pattern : string) : prog (list string) :=
  Glob pattern Ret.

(** A call whose exception propagates. *)
Definition perform (c : call) : prog (resp c) :=
  Do c lift.

(** The collaborators' methods, at their result types. *)
Definition makedirs (path : string) : prog unit :=
  perform (os_makedirs path).

Definition detect (detector : handle) (image_path : string)
    (save_json : bool) (json_path : string) (save_annotated : bool)
    (output_folder : string) : prog (list Detection) :=
  perform (detector_detect detector image_path save_json json_path
             save_annotated output_folder).

Definition create_reenactor (model : string) : prog handle :=
  perform (FaceReenactor_create model).

Definition reenact (reenactor : handle)
    (source_path driving_video_path output_path : string)
    (save_comparison resize_to_image_resolution : bool) : prog string :=
  perform (reenact_from_video reenactor source_path driving_video_path
             output_path save_comparison resize_to_image_resolution).

Definition create_pipeline (model_configs : dict float)
    (device : option string) (confidence_threshold : float) : prog handle :=
  perform (PipelineDeepfakeDetection model_configs device
             confidence_threshold).

Definition detect_media (pipeline : handle) (media_path output_folder : string)
    (save_csv : bool) (num_frames : Z) : prog bool :=
  perform (pipeline_detect pipeline media_path output_folder save_csv
             num_frames).

Declare Scope prog_scope.
Delimit Scope prog_scope with prog.
Notation "x <- p ;; q" := (bind p (fun x => q))
  (at level 61, p at next level, right associativity) : prog_scope.

(** The world a program runs in: the file system as the queries see it,
    and the calls, which may raise and may change it. *)
Record World : Type := {
  state : Type;
  path_exists : state -> string -> bool;
  glob_matches : state -> string -> list string;
  answer : forall c : call, state -> outcome (resp c) * state
}.

(** What a call returned, for the record of a run. *)
Inductive returned : Type :=
| RNone
| RHandle (h : handle)
| RDetections (l : list Detection)
| RPath (p : string)
| RBool (b : bool)
| RRaised (e : exn).

Definition returned_of (c : call) : outcome (resp c) -> returned :=
  match c with
  | os_makedirs _ =>
      fun r => match r with Ok _ => RNone | Raise e => RRaised e end
  | FaceDetector_create _ =>
      fun r => match r with Ok h => RHandle h | Raise e => RRaised e end
  | detector_detect _ _ _ _ _ _ =>
      fun r => match r with Ok l => RDetections l | Raise e => RRaised e end
  | FaceReenactor_create _ =>
      fun r => match r with Ok h => RHandle h | Raise e => RRaised e end
  | reenact_from_video _ _ _ _ _ _ =>
      fun r => match r with Ok p => RPath p | Raise e => RRaised e end
  | PipelineDeepfakeDetection _ _ _ =>
      fun r => match r with Ok h => RHandle h | Raise e => RRaised e end
  | pipeline_detect _ _ _ _ _ =>
      fun r => match r with Ok b => RBool b | Raise e => RRaised e end
  end.

(** One step of a run, as an observer sees it. *)
Inductive event : Type :=
| EvExists (path : string) (found : bool)
| EvGlob (pattern : string) (files : list string)
| EvCall (c : call) (r : returned).

(** The run of a program from a state: its result, the final state and
    the events in the order they happened. *)
Fixpoint run {A} (W : World) (p : prog A) (s : state W)
  : outcome A * state W * list event :=
  match p with
  | Ret a => (Ok a, s, [])
  | Throw e => (Raise e, s, [])
  | Exists path k =>
      let b := path_exists W s path in
      let '(r, s', tr) := run W (k b) s in
      (r, s', EvExists path b :: tr)
  | Glob pattern k =>
      let l := glob_matches W s pattern in
      let '(r, s', tr) := run W (k l) s in
      (r, s', EvGlob pattern l :: tr)
  | Do c k =>
      let '(x, s1) := answer W c s in
      let '(r, s', tr) := run W (k x) s1 in
      (r, s', EvCall c (returned_of c x) :: tr)
  end.

Definition result {A} (W : World) (p : prog A) (s : state W) : outcome A :=
  fst (fst (run W p s)).

Definition trace {A} (W : World) (p : prog A) (s : state W) : list event :=
  snd (run W p s).

End Eff.

(** ** class GradioApp *)

Module GradioApp.
Import Py Eff.
Local Open Scope prog_scope.

(** [self.output_dir], set by [__init__]. *)
Definition output_dir : string := "gradio_output".

(** *** detect_faces *)

Definition possible_names (name ext : string) : list string :=
  [ name ++ "_annotated" ++ ext;
    name ++ "_detected" ++ ext;
    name ++ "_detection" ++ ext ].

(** The loop over [possible_names]: the first one that exists under
    [output_folder], the search stopping there. *)
Fixpoint find_annotated (output_folder : string) (names : list string)
  : prog (option string) :=
  match names with
  | [] => Ret None
  | possible_name :: rest =>
      let potential_path := path_join output_folder [possible_name] in
      found <- os_path_exists potential_path ;;
      if found then Ret (Some potential_path)
      else find_annotated output_folder rest
  end.

(** The lines of [results_text] for the faces from number [i] on;
    [fmt3] is [format(x, '.3f')]. *)
Fixpoint face_lines (i : Z) (detections : list Detection) : string :=
  match detections with
  | [] => ""
  | detection :: rest =>
      let b := bbox detection in
      "Face " ++ str_of_int (i + 1) ++ ":" ++ nl
      ++ "  Confidence: " ++ format_fixed 3 (confidence b) ++ nl
      ++ "  Bounding Box: (" ++ str_of_int (x1 b) ++ ", " ++ str_of_int (y1 b)
      ++ ", " ++ str_of_int (x2 b) ++ ", " ++ str_of_int (y2 b) ++ ")"
      ++ nl ++ nl
      ++ face_lines (i + 1) rest
  end.

Definition faces_text (detections : list Detection) : string :=
  "Found " ++ str_of_int (Z.of_nat (List.length detections)) ++ " face(s)"
  ++ nl ++ nl ++ face_lines 0 detections.

Definition faces_response : Type := option string * option string * string.

(** The body of the [try] of [detect_faces]; what it prints is left out.
    The inner [try] around [FaceDetector.create] answers its exception on
    the spot when [except Exception] handles it, and lets it through
    otherwise. *)
Definition detect_faces_body (image_path detection_model : string)
  : prog faces_response :=
  if negb (truthy image_path) then
    Ret (None, None, "Error: No image provided")
  else
    present <- os_path_exists image_path ;;
    if negb present then
      Ret (None, None, "Error: Image file not found: " ++ image_path)
    else
      Do (FaceDetector_create detection_model) (fun created =>
        match created with
        | Raise e =>
            if is_Exception e then
              Ret (None, None,
                   "Error creating detector '" ++ detection_model ++ "': "
                   ++ exn_str e)
            else Throw e
        | Ok detector =>
            let output_folder :=
              path_join output_dir ["face_detection"; detection_model] in
            let json_path := path_join output_folder ["detections.json"] in
            detections <-
              detect detector image_path true json_path true output_folder ;;
            let image_name := basename image_path in
            let '(name, ext) := splitext image_name in
            annotated_image_path <-
              find_annotated output_folder (possible_names name ext) ;;
            let results_text := faces_text detections in
            annotated <-
              match annotated_image_path with
              | Some p =>
                  if truthy p then
                    still <- os_path_exists p ;;
                    Ret (if still then Some p else None)
                  else Ret None
              | None => Ret None
              end ;;
            json_present <- os_path_exists json_path ;;
            Ret (annotated,
                 if json_present then Some json_path else None,
                 results_text)
        end).

Definition detect_faces (image_path detection_model : string)
  : prog faces_response :=
  try_except (detect_faces_body image_path detection_model)
    (fun e => Ret (None, None, "Error: " ++ exn_str e)).

(** *** reenact_face *)

Definition comparison_patterns (source_name driving_name : string)
  : list string :=
  [ "comparison_" ++ source_name ++ "_by_" ++ driving_name ++ ".mp4";
    "comparison_" ++ source_name ++ "_by_*.mp4";
    "comparison_*.mp4" ].

(** The loop over [comparison_patterns] in one directory: the first file
    of the first pattern that matches any, the search stopping there. *)
Fixpoint find_comparison (dir : string) (patterns : list string)
  : prog (option string) :=
  match patterns with
  | [] => Ret None
  | pattern :: rest =>
      comparison_files <- glob_glob (path_join dir [pattern]) ;;
      match comparison_files with
      | first :: _ => Ret (Some first)
      | [] => find_comparison dir rest
      end
  end.

(** "Find comparison video if it was created": the patterns in
    [search_dir] and, when that found nothing, the same patterns in the
    directory of [result_path]. *)
Definition locate_comparison (search_dir result_path : string)
    (patterns : list string) : prog (option string) :=
  comparison_path <- find_comparison search_dir patterns ;;
  if negb (truthy_opt comparison_path) then
    let result_dir := dirname result_path in
    again <- find_comparison result_dir patterns ;;
    Ret (match again with
         | Some p => Some p
         | None => comparison_path
         end)
  else Ret comparison_path.

Definition reenact_response : Type := option string * option string.

Definition reenact_face_body (source_image driving_video reenactor_model : string)
    (resize_to_image_resolution : bool) : prog reenact_response :=
  reenactor <- create_reenactor reenactor_model ;;
  let output_folder :=
    path_join output_dir ["face_reenactment"; reenactor_model] in
  _ <- makedirs output_folder ;;
  let source_name := fst (splitext (basename source_image)) in
  let output_path := path_join output_folder [source_name ++ "_reenacted"] in
  result_path <-
    reenact reenactor source_image driving_video output_path true
      resize_to_image_resolution ;;
  let driving_name := fst (splitext (basename driving_video)) in
  let search_dir := output_path in
  let patterns := comparison_patterns source_name driving_name in
  comparison_path <- locate_comparison search_dir result_path patterns ;;
  Ret (Some result_path, comparison_path).

Definition reenact_face (source_image driving_video reenactor_model : string)
    (resize_to_image_resolution : bool) : prog reenact_response :=
  try_except
    (reenact_face_body source_image driving_video reenactor_model
       resize_to_image_resolution)
    (fun _ => Ret (None, None)).

(** *** detect_deepfakes *)

Local Open Scope float_scope.

(** [f and os.path.exists(f)]: the path when both hold. *)
Definition supplied (f : option string) : prog (option string) :=
  match f with
  | Some path =>
      if truthy path then
        present <- os_path_exists path ;;
        Ret (if present then Some path else None)
      else Ret None
  | None => Ret None
  end.

(** "Determine which media file to use": the image first, the video
    otherwise. *)
Definition select_media (image_file video_file : option string)
  : prog (option (string * media_type)) :=
  img <- supplied image_file ;;
  match img with
  | Some media_file => Ret (Some (media_file, image))
  | None =>
      vid <- supplied video_file ;;
      match vid with
      | Some media_file => Ret (Some (media_file, video))
      | None => Ret None
      end
  end.

(** "Configure models based on selection with weights". *)
Definition configure_models (models_to_use : list string) : dict float :=
  let model_configs := [] in
  let model_configs :=
    if contains "resnet_inception" models_to_use
    then dict_set model_configs "resnet_inception" 0.5
    else model_configs in
  let model_configs :=
    if contains "efficientnet" models_to_use
    then dict_set model_configs "efficientnet" 0.5
    else model_configs in
  model_configs.

(** [{k: v / total_weight for k, v in model_configs.items()}]. *)
Fixpoint divide_all (items : dict float) (total_weight : float)
    (built : dict float) : outcome (dict float) :=
  match items with
  | [] => Ok built
  | (k, v) :: rest =>
      obind (truediv v total_weight) (fun w =>
      divide_all rest total_weight (dict_set built k w))
  end.

(** "Normalize weights to sum to 1.0". *)
Definition normalize_weights (model_configs : dict float)
  : outcome (dict float) :=
  let total_weight := sum (values model_configs) in
  if 0 <? total_weight then divide_all model_configs total_weight []
  else Ok model_configs.

(** [get_confidence_bar(confidence)], at its default [width=20]. *)
Definition get_confidence_bar (confidence : float) : outcome string :=
  let width := 20%Z in
  obind (int_of_float (confidence * 20)) (fun filled =>
  obind (str_mul "█" filled) (fun full =>
  obind (str_mul "░" (width - filled)) (fun empty =>
  let bar := full ++ empty in
  Ok ("[" ++ bar ++ "] " ++ format_percent1 confidence)))).

Definition get_risk_level (confidence : float) (is_deepfake : bool) : string :=
  if is_deepfake then
    if 0.8 <=? confidence then "🔴 **HIGH RISK**"
    else if 0.6 <=? confidence then "🟡 **MEDIUM RISK**"
    else "🟠 **LOW RISK**"
  else
    if 0.8 <=? confidence then "🟢 **VERY CONFIDENT**"
    else if 0.6 <=? confidence then "🟡 **CONFIDENT**"
    else "🟠 **UNCERTAIN**".

(** The confidence the report shows, synthesized from the threshold. *)
Definition avg_confidence (confidence_threshold : float)
    (overall_is_deepfake : bool) : float :=
  if overall_is_deepfake then confidence_threshold
  else 1.0 - confidence_threshold.

Definition error_no_media : string :=
  "❌ **Error**: Please upload either an image or video file".

Definition error_no_models : string :=
  "❌ **Error**: Please select at least one model to use for deepfake detection".

Definition error_text (e : exn) : string :=
  "❌ **Error**: " ++ exn_str e.

Definition recommendation (overall_is_deepfake : bool) : string :=
  if overall_is_deepfake then
    "⚠️ **This media shows strong indicators of being a deepfake.** Exercise caution when sharing or believing its content."
  else
    "✅ **This media appears to be authentic.** However, always verify content from multiple sources.".

Section Report.

(** The interpreter's [repr] on floats, which prints the weights. *)
Variable float_repr : float -> string.

(** [results_text]: every part of the report, in the order the source
    appends them.  The confidence bar is the one part that can raise. *)
Definition results_text (media_file : string) (media_type : media_type)
    (models_to_use : list string) (model_configs : dict float)
    (confidence_threshold : float) (num_frames : Z) (result : bool)
  : outcome string :=
  let overall_is_deepfake := result in
  let overall_status :=
    if overall_is_deepfake then "DEEPFAKE" else "AUTHENTIC" in
  let overall_icon := if overall_is_deepfake then "🚨" else "✅" in
  let avg_confidence :=
    avg_confidence confidence_threshold overall_is_deepfake in
  obind (get_confidence_bar avg_confidence) (fun confidence_bar =>
  let results_text :=
    "# 🎬 **" ++ title media_type ++ " Analysis Results**" ++ nl
    ++ nl
    ++ "## 📊 **Summary**" ++ nl
    ++ "- **File**: `" ++ basename media_file ++ "`" ++ nl
    ++ "- **Media Type**: " ++ title media_type ++ nl
    ++ "- **Models Used**: " ++ join ", " models_to_use ++ nl
    ++ "- **Confidence Threshold**: "
    ++ format_percent1 confidence_threshold ++ nl
    ++ nl
    ++ "---" ++ nl
    ++ nl
    ++ "## 🎯 **Overall Verdict**" ++ nl
    ++ "### " ++ overall_icon ++ " **" ++ overall_status ++ "**" ++ nl
    ++ nl
    ++ "**Pipeline Result**: " ++ confidence_bar ++ nl
    ++ nl
    ++ "---" ++ nl
    ++ nl
    ++ "## 🔍 **Technical Details**" ++ nl
    ++ "- **Pipeline Models**: " ++ join ", " (keys model_configs) ++ nl
    ++ "- **Model Weights**: " ++ dict_repr float_repr model_configs ++ nl
    ++ "- **Detection Algorithm**: Weighted Ensemble Pipeline" ++ nl in
  let results_text :=
    if media_type_eqb media_type video
    then results_text ++ "- **Frames Analyzed**: "
                      ++ str_of_int num_frames ++ nl
    else results_text in
  let results_text :=
    results_text ++ nl
    ++ nl
    ++ "---" ++ nl
    ++ nl
    ++ "## 💡 **Recommendation**" ++ nl in
  let results_text := results_text ++ recommendation overall_is_deepfake in
  let results_text :=
    results_text ++ nl
    ++ nl
    ++ "---" ++ nl
    ++ nl
    ++ "## ℹ️ **About This Analysis**" ++ nl
    ++ "This analysis uses multiple state-of-the-art AI models in an ensemble pipeline to detect potential deepfakes. The pipeline combines predictions from "
    ++ str_of_int (Z.of_nat (List.length model_configs))
    ++ " models with weighted averaging for improved accuracy. While highly accurate, no detection system is 100% perfect. Always use critical thinking and verify important content through multiple sources."
    ++ nl in
  Ok results_text).

Definition deepfakes_response : Type := option string * string.

Definition detect_deepfakes_body (image_file video_file : option string)
    (models_to_use : list string) (confidence_threshold : float)
    (num_frames : Z) : prog deepfakes_response :=
  media <- select_media image_file video_file ;;
  match media with
  | None => Ret (None, error_no_media)
  | Some (media_file, media_type) =>
      let model_configs := configure_models models_to_use in
      if dict_is_empty model_configs then Ret (None, error_no_models)
      else
        model_configs <- lift (normalize_weights model_configs) ;;
        pipeline <- create_pipeline model_configs None confidence_threshold ;;
        let output_folder := path_join output_dir ["deepfake_detection"] in
        result <- detect_media pipeline media_file output_folder true
                    num_frames ;;
        let annotated_media_path : option string := None in
        results_text <-
          lift (results_text media_file media_type models_to_use
                  model_configs confidence_threshold num_frames result) ;;
        Ret (annotated_media_path, results_text)
  end.

Definition detect_deepfakes (image_file video_file : option string)
    (models_to_use : list string) (confidence_threshold : float)
    (num_frames : Z) : prog deepfakes_response :=
  try_except
    (detect_deepfakes_body image_file video_file models_to_use
       confidence_threshold num_frames)
    (fun e => Ret (None, error_text e)).

End Report.

(** *** __init__ and the interface's callback *)

(** [__init__]: the three model slots start empty and the output directory
    is created; nothing guards the call. *)
Definition init : prog unit :=
  makedirs output_dir.

(** [on_model_change(model)], without what it prints. *)
Definition on_model_change (model : string) : string :=
  "Selected model: " ++ model.

End GradioApp.

(** ** Worlds to run the operations in *)

Module Worlds.
Import Py Eff.

(** What a collaborator that never fails returns: no detection, the given
    result path and the given verdict. *)
Definition succeed (result_path : string) (verdict : bool)
  : forall c : call, outcome (resp c) :=
  fun c =>
    match c return outcome (resp c) with
    | os_makedirs _ => Ok tt
    | FaceDetector_create _ => Ok 1%nat
    | detector_detect _ _ _ _ _ _ => Ok []
    | FaceReenactor_create _ => Ok 2%nat
    | reenact_from_video _ _ _ _ _ _ => Ok result_path
    | PipelineDeepfakeDetection _ _ _ => Ok 3%nat
    | pipeline_detect _ _ _ _ _ => Ok verdict
    end.

(** Collaborators that raise [e] whatever they are asked. *)
Definition fail (e : exn) : forall c : call, outcome (resp c) :=
  fun _ => Raise e.

(** A world that the calls leave as it is: the files of [files] exist,
    a pattern matches what [matches] lists for it. *)
Definition fixed (files : list string) (matches : string -> list string)
    (collaborators : forall c : call, outcome (resp c)) : World :=
  {| state := unit;
     path_exists := fun _ p => contains p files;
     glob_matches := fun _ pattern => matches pattern;
     answer := fun c s => (collaborators c, s) |}.

Definition no_match (pattern : string) : list string := [].

(** A pattern matches [files] if it is [pattern], nothing otherwise. *)
Definition only (pattern : string) (files : list string) (asked : string)
  : list string :=
  if String.eqb asked pattern then files else [].

(** Both media files exist and the pipeline finds the media authentic. *)
Definition both_media : World :=
  fixed ["face.jpg"; "clip.mp4"] no_match (succeed "" false).

(** Only the image exists; the pipeline finds a deepfake. *)
Definition image_only : World :=
  fixed ["face.jpg"] no_match (succeed "" true).

(** Only the image exists; the pipeline finds the media authentic. *)
Definition image_authentic : World :=
  fixed ["face.jpg"] (fun _ => ["face.jpg"]) (succeed "out.mp4" false).

(** No file exists. *)
Definition nothing_uploaded : World :=
  fixed [] no_match (succeed "" false).

(** Every collaborator call fails. *)
Definition failing (message : string) : World :=
  fixed ["face.jpg"; "drive.mp4"] no_match (fail (Exn "RuntimeError" message)).

(** Every collaborator call is interrupted from the keyboard. *)
Definition interrupted : World :=
  fixed ["face.jpg"; "drive.mp4"] no_match
    (fail (BaseExn "KeyboardInterrupt" "")).

(** The detector wrote its annotated image under a name of its own, which
    every glob pattern would match. *)
Definition renamed_annotation : World :=
  fixed ["face.jpg"; "gradio_output/face_detection/blazeface/face_boxes.jpg"]
    (fun _ => ["gradio_output/face_detection/blazeface/face_boxes.jpg"])
    (succeed "" false).

(** The detector wrote two of the three expected names. *)
Definition two_annotations : World :=
  fixed ["face.jpg";
         "gradio_output/face_detection/blazeface/face_detection.jpg";
         "gradio_output/face_detection/blazeface/face_detected.jpg"]
    no_match (succeed "" false).

(** The reenactor wrote the result inside the output path, and the
    comparison video one directory above it. *)
Definition comparison_above : World :=
  fixed ["face.jpg"; "drive.mp4"]
    (only "gradio_output/face_reenactment/tps/comparison_face_by_drive.mp4"
       ["gradio_output/face_reenactment/tps/comparison_face_by_drive.mp4"])
    (succeed "gradio_output/face_reenactment/tps/face_reenacted/result.mp4"
       false).

(** The reenactor wrote the result and the comparison video next to the
    output path, not inside it. *)
Definition comparison_beside : World :=
  fixed ["face.jpg"; "drive.mp4"]
    (only "gradio_output/face_reenactment/tps/comparison_face_by_drive.mp4"
       ["gradio_output/face_reenactment/tps/comparison_face_by_drive.mp4"])
    (succeed "gradio_output/face_reenactment/tps/face_reenacted.mp4" false).

(** [repr] on the floats with one decimal, among them the weights 0.5
    and 1.0. *)
Definition repr_one_decimal (x : float) : string := format_fixed 1 x.

End Worlds.

(** ** Notions the properties are stated with *)

Module Spec.
Import Py Eff GradioApp.

(** Whether [needle] occurs somewhere in [hay]. *)
Fixpoint occurs (needle hay : string) : bool :=
  String.prefix needle hay ||
  match hay with
  | EmptyString => false
  | String _ rest => occurs needle rest
  end.

(** [f and os.path.exists(f)] in a given state of the file system. *)
Definition present (W : World) (s : state W) (f : option string)
  : option string :=
  match f with
  | Some path =>
      if truthy path && path_exists W s path then Some path else None
  | None => None
  end.

(** The first file of the first list that has one. *)
Fixpoint first_file (lists : list (list string)) : option string :=
  match lists with
  | [] => None
  | (f :: _) :: _ => Some f
  | [] :: rest => first_file rest
  end.

Definition is_call (ev : event) : Prop :=
  match ev with
  | EvCall _ _ => True
  | _ => False
  end.

Definition is_query_of (paths : list (option string)) (ev : event) : Prop :=
  match ev with
  | EvExists p _ => In (Some p) paths
  | _ => False
  end.

(** The six labels [get_risk_level] can return. *)
Definition risk_labels : list string :=
  [ "🔴 **HIGH RISK**"; "🟡 **MEDIUM RISK**"; "🟠 **LOW RISK**";
    "🟢 **VERY CONFIDENT**"; "🟡 **CONFIDENT**"; "🟠 **UNCERTAIN**" ].

(** The query [f and os.path.exists(f)] makes, if any. *)
Definition query_of (W : World) (s : state W) (f : option string)
  : list event :=
  match f with
  | Some path =>
      if truthy path then [EvExists path (path_exists W s path)] else []
  | None => []
  end.

(** The media file and type a request resolves to in a given state. *)
Definition selected (W : World) (s : state W)
    (image_file video_file : option string) : option (string * media_type) :=
  match present W s image_file with
  | Some media_file => Some (media_file, image)
  | None =>
      match present W s video_file with
      | Some media_file => Some (media_file, video)
      | None => None
      end
  end.

Definition media_queries (W : World) (s : state W)
    (image_file video_file : option string) : list event :=
  (query_of W s image_file
   ++ match present W s image_file with
      | Some _ => []
      | None => query_of W s video_file
      end)%list.

(** The response once the pipeline has given its verdict: the report, or
    the message of what rendering it raised. *)
Definition rendered (float_repr : float -> string) (media_file : string)
    (media_type : media_type) (models_to_use : list string)
    (weights : dict float) (confidence_threshold : float) (num_frames : Z)
    (verdict : bool) : deepfakes_response :=
  match results_text float_repr media_file media_type models_to_use weights
          confidence_threshold num_frames verdict with
  | Ok text => (None, text)
  | Raise e => (None, error_text e)
  end.

(** What [detect_deepfakes] makes of an exception raised in its [try]. *)
Definition job_error (e : exn) : outcome deepfakes_response :=
  caught (fun e => (None, error_text e)) e.

(** The five ways a deepfake detection job goes, each with its response,
    final state and events. *)
Inductive job (float_repr : float -> string) (W : World) (s : state W)
    (image_file video_file : option string) (models_to_use : list string)
    (confidence_threshold : float) (num_frames : Z)
  : outcome deepfakes_response * state W * list event -> Prop :=
| job_no_media :
    selected W s image_file video_file = None ->
    job float_repr W s image_file video_file models_to_use
      confidence_threshold num_frames
      (Ok (None, error_no_media), s,
       media_queries W s image_file video_file)
| job_no_models media_file media_type :
    selected W s image_file video_file = Some (media_file, media_type) ->
    dict_is_empty (configure_models models_to_use) = true ->
    job float_repr W s image_file video_file models_to_use
      confidence_threshold num_frames
      (Ok (None, error_no_models), s,
       media_queries W s image_file video_file)
| job_no_pipeline media_file media_type weights e s1 :
    selected W s image_file video_file = Some (media_file, media_type) ->
    dict_is_empty (configure_models models_to_use) = false ->
    normalize_weights (configure_models models_to_use) = Ok weights ->
    answer W (PipelineDeepfakeDetection weights None confidence_threshold) s
      = (Raise e, s1) ->
    job float_repr W s image_file video_file models_to_use
      confidence_threshold num_frames
      (job_error e, s1,
       (media_queries W s image_file video_file
        ++ [EvCall (PipelineDeepfakeDetection weights None
                      confidence_threshold) (RRaised e)])%list)
| job_pipeline_failure media_file media_type weights pipeline e s1 s2 :
    selected W s image_file video_file = Some (media_file, media_type) ->
    dict_is_empty (configure_models models_to_use) = false ->
    normalize_weights (configure_models models_to_use) = Ok weights ->
    answer W (PipelineDeepfakeDetection weights None confidence_threshold) s
      = (Ok pipeline, s1) ->
    answer W (pipeline_detect pipeline media_file
                (path_join output_dir ["deepfake_detection"]) true num_frames)
      s1 = (Raise e, s2) ->
    job float_repr W s image_file video_file models_to_use
      confidence_threshold num_frames
      (job_error e, s2,
       (media_queries W s image_file video_file
        ++ [EvCall (PipelineDeepfakeDetection weights None
                      confidence_threshold) (RHandle pipeline);
            EvCall (pipeline_detect pipeline media_file
                      (path_join output_dir ["deepfake_detection"]) true
                      num_frames) (RRaised e)])%list)
| job_verdict media_file media_type weights pipeline verdict s1 s2 :
    selected W s image_file video_file = Some (media_file, media_type) ->
    dict_is_empty (configure_models models_to_use) = false ->
    normalize_weights (configure_models models_to_use) = Ok weights ->
    answer W (PipelineDeepfakeDetection weights None confidence_threshold) s
      = (Ok pipeline, s1) ->
    answer W (pipeline_detect pipeline media_file
                (path_join output_dir ["deepfake_detection"]) true num_frames)
      s1 = (Ok verdict, s2) ->
    job float_repr W s image_file video_file models_to_use
      confidence_threshold num_frames
      (Ok (rendered float_repr media_file media_type models_to_use weights
             confidence_threshold num_frames verdict), s2,
       (media_queries W s image_file video_file
        ++ [EvCall (PipelineDeepfakeDetection weights None
                      confidence_threshold) (RHandle pipeline);
            EvCall (pipeline_detect pipeline media_file
                      (path_join output_dir ["deepfake_detection"]) true
                      num_frames) (RBool verdict)])%list).

(** [piece] is a part of [text]. *)
Definition within (piece text : string) : Prop :=
  exists before after, text = before ++ piece ++ after.

(** The existence queries of a search through [paths] that stops at the
    first one that exists. *)
Fixpoint asked_until_found (W : World) (s : state W) (paths : list string)
  : list event :=
  match paths with
  | [] => []
  | p :: rest =>
      EvExists p (path_exists W s p)
      :: (if path_exists W s p then [] else asked_until_found W s rest)
  end.

(** The glob queries of a search through [patterns] that stops at the first
    one that matches a file. *)
Fixpoint globbed_until_found (W : World) (s : state W) (patterns : list string)
  : list event :=
  match patterns with
  | [] => []
  | p :: rest =>
      EvGlob p (glob_matches W s p)
      :: match glob_matches W s p with
         | _ :: _ => []
         | [] => globbed_until_found W s rest
         end
  end.

(** The candidates of a search: each name or pattern joined to a directory. *)
Definition under (dir : string) (names : list string) : list string :=
  map (fun name => path_join dir [name]) names.

(** The first file a list of glob patterns matches. *)
Definition first_match (W : World) (s : state W) (patterns : list string)
  : option string :=
  first_file (map (glob_matches W s) patterns).

(** The folder, the JSON path and the candidates for the annotated image
    of a face detection. *)
Definition detection_folder (detection_model : string) : string :=
  path_join output_dir ["face_detection"; detection_model].

Definition detection_json (detection_model : string) : string :=
  path_join (detection_folder detection_model) ["detections.json"].

Definition annotated_candidates (image_path detection_model : string)
  : list string :=
  under (detection_folder detection_model)
    (possible_names (fst (splitext (basename image_path)))
       (snd (splitext (basename image_path)))).

(** What [detect_faces] makes of an exception raised by the creation of
    the detector, and of one raised later in its [try]. *)
Definition detector_error (detection_model : string) (e : exn)
  : outcome faces_response :=
  caught (fun e => (None, None,
                    "Error creating detector '" ++ detection_model ++ "': "
                    ++ exn_str e)) e.

Definition faces_error (e : exn) : outcome faces_response :=
  caught (fun e => (None, None, "Error: " ++ exn_str e)) e.

(** The five ways a face detection goes, each with its response, final
    state and events. *)
Inductive faces_run (W : World) (s : state W)
    (image_path detection_model : string)
  : outcome faces_response * state W * list event -> Prop :=
| faces_no_image :
    truthy image_path = false ->
    faces_run W s image_path detection_model
      (Ok (None, None, "Error: No image provided"), s, [])
| faces_not_found :
    truthy image_path = true ->
    path_exists W s image_path = false ->
    faces_run W s image_path detection_model
      (Ok (None, None, "Error: Image file not found: " ++ image_path), s,
       [EvExists image_path false])
| faces_no_detector e s1 :
    truthy image_path = true ->
    path_exists W s image_path = true ->
    answer W (FaceDetector_create detection_model) s = (Raise e, s1) ->
    faces_run W s image_path detection_model
      (detector_error detection_model e, s1,
       [EvExists image_path true;
        EvCall (FaceDetector_create detection_model) (RRaised e)])
| faces_detect_failure detector e s1 s2 :
    truthy image_path = true ->
    path_exists W s image_path = true ->
    answer W (FaceDetector_create detection_model) s = (Ok detector, s1) ->
    answer W (detector_detect detector image_path true
                (detection_json detection_model) true
                (detection_folder detection_model)) s1 = (Raise e, s2) ->
    faces_run W s image_path detection_model
      (faces_error e, s2,
       [EvExists image_path true;
        EvCall (FaceDetector_create detection_model) (RHandle detector);
        EvCall (detector_detect detector image_path true
                  (detection_json detection_model) true
                  (detection_folder detection_model)) (RRaised e)])
| faces_detected detector detections s1 s2 :
    truthy image_path = true ->
    path_exists W s image_path = true ->
    answer W (FaceDetector_create detection_model) s = (Ok detector, s1) ->
    answer W (detector_detect detector image_path true
                (detection_json detection_model) true
                (detection_folder detection_model)) s1
      = (Ok detections, s2) ->
    faces_run W s image_path detection_model
      (Ok (find (path_exists W s2)
             (annotated_candidates image_path detection_model),
           if path_exists W s2 (detection_json detection_model)
           then Some (detection_json detection_model) else None,
           faces_text detections), s2,
       (EvExists image_path true
        :: EvCall (FaceDetector_create detection_model) (RHandle detector)
        :: EvCall (detector_detect detector image_path true
                     (detection_json detection_model) true
                     (detection_folder detection_model))
             (RDetections detections)
        :: asked_until_found W s2
             (annotated_candidates image_path detection_model)
        ++ match find (path_exists W s2)
                   (annotated_candidates image_path detection_model) with
           | Some p => [EvExists p true]
           | None => []
           end
        ++ [EvExists (detection_json detection_model)
              (path_exists W s2 (detection_json detection_model))])%list).

(** What [reenact_face] makes of an exception raised in its [try]. *)
Definition reenact_error (e : exn) : outcome reenact_response :=
  caught (fun _ => (None, None)) e.

(** The folder, the output path and the patterns of a reenactment. *)
Definition reenactment_folder (reenactor_model : string) : string :=
  path_join output_dir ["face_reenactment"; reenactor_model].

Definition reenactment_output (source_image reenactor_model : string) : string :=
  path_join (reenactment_folder reenactor_model)
    [fst (splitext (basename source_image)) ++ "_reenacted"].

Definition reenactment_patterns (source_image driving_video : string)
  : list string :=
  comparison_patterns (fst (splitext (basename source_image)))
    (fst (splitext (basename driving_video))).

(** The patterns a reenactment may glob, in the output path and in the
    directory of the result. *)
Definition comparison_globs (source_image driving_video reenactor_model
    result_path : string) : list string :=
  (under (reenactment_output source_image reenactor_model)
     (reenactment_patterns source_image driving_video)
   ++ under (dirname result_path)
        (reenactment_patterns source_image driving_video))%list.

(** The block of [results_text] for one face, under its number. *)
Definition face_block (number : Z) (d : Detection) : string :=
  "Face " ++ str_of_int number ++ ":" ++ nl
  ++ "  Confidence: " ++ format_fixed 3 (confidence (bbox d)) ++ nl
  ++ "  Bounding Box: (" ++ str_of_int (x1 (bbox d)) ++ ", "
  ++ str_of_int (y1 (bbox d)) ++ ", " ++ str_of_int (x2 (bbox d)) ++ ", "
  ++ str_of_int (y2 (bbox d)) ++ ")" ++ nl ++ nl.

Definition is_glob (ev : event) : Prop :=
  match ev with
  | EvGlob _ _ => True
  | _ => False
  end.

(** What a shift record keeps of the mantissa [M] it was shifted from by
    [j] places: its mantissa is at most the quotient, and one of its two
    flags is on only when something was lost. *)
Definition keeps (M j : Z) (r : shr_record) : Prop :=
  (0 <= shr_m r)%Z
  /\ (shr_m r * 2 ^ j <= M)%Z
  /\ (shr_r r || shr_s r = true -> (shr_m r * 2 ^ j < M)%Z).

(** A float that is zero, or positive and at most the integer [B]. *)
Definition at_most (B : Z) (x : spec_float) : Prop :=
  match x with
  | S754_zero _ => True
  | S754_finite s m e =>
      s = false /\ (e <= 0)%Z /\ (Zpos m <= B * 2 ^ (- e))%Z
  | _ => False
  end.

End Spec.

Import Py Eff GradioApp Spec.
Local Open Scope prog_scope.

Arguments path_join : simpl never.
Arguments results_text : simpl never.
Arguments media_queries : simpl never.

(** ** The weight normalization *)

Section Weights.
Local Open Scope float_scope.

(** The configuration holds the selected registered models, each at the
    base weight 0.5, the ResNet one first. *)
Lemma configure_models_cases (models_to_use : list string) :
  configure_models models_to_use =
    ((if contains "resnet_inception" models_to_use
      then [("resnet_inception", 0.5)] else [])
     ++ (if contains "efficientnet" models_to_use
         then [("efficientnet", 0.5)] else []))%list.
Proof.
  unfold configure_models.
  destruct (contains "resnet_inception" models_to_use),
           (contains "efficientnet" models_to_use); reflexivity.
Qed.

Lemma configure_models_empty (models_to_use : list string) :
  dict_is_empty (configure_models models_to_use) =
    negb (contains "resnet_inception" models_to_use
          || contains "efficientnet" models_to_use).
Proof.
  rewrite configure_models_cases.
  destruct (contains "resnet_inception" models_to_use),
           (contains "efficientnet" models_to_use); reflexivity.
Qed.

(** No selection makes the normalization raise: the division is never by
    zero. *)
Lemma normalize_weights_total (models_to_use : list string) :
  exists weights,
    normalize_weights (configure_models models_to_use) = Ok weights.
Proof.
  rewrite configure_models_cases.
  destruct (contains "resnet_inception" models_to_use),
           (contains "efficientnet" models_to_use);
    eexists; vm_compute; reflexivity.
Qed.

(** C1.  For every selection that holds at least one registered model,
    the normalization keeps the selected registered models, gives each the
    base weight 0.5 divided by the sum of the base weights, and the
    resulting weights sum to 1.0, exactly and so within 1e-9. *)
Theorem normalized_weights_sum_to_one (models_to_use : list string) :
  (contains "resnet_inception" models_to_use
   || contains "efficientnet" models_to_use) = true ->
  let model_configs := configure_models models_to_use in
  let total_weight := sum (values model_configs) in
  exists weights,
    normalize_weights model_configs = Ok weights
    /\ Forall (fun kv => snd kv = 0.5) model_configs
    /\ keys model_configs =
         filter (fun k => contains k models_to_use)
                ["resnet_inception"; "efficientnet"]
    /\ weights = map (fun kv => (fst kv, snd kv / total_weight)) model_configs
    /\ sum (values weights) = 1.0
    /\ (abs (sum (values weights) - 1.0) <=? 1e-9) = true.
Proof.
  intros selected model_configs total_weight.
  subst total_weight model_configs.
  rewrite configure_models_cases.
  simpl filter.
  destruct (contains "resnet_inception" models_to_use),
           (contains "efficientnet" models_to_use);
    try discriminate selected;
    eexists; (split; [vm_compute; reflexivity |]);
    repeat split; repeat constructor.
Qed.

Lemma normalized_weights_sum_to_one_witness :
  exists weights,
    normalize_weights (configure_models ["efficientnet"; "xception"])
      = Ok weights
    /\ weights = [("efficientnet", 1.0)].
Proof.
  destruct (normalized_weights_sum_to_one ["efficientnet"; "xception"])
    as [weights [normalized [_ [_ [shape _]]]]].
  - reflexivity.
  - exists weights. split; [exact normalized | exact shape].
Defined.

End Weights.

(** ** Runs of composed programs *)

Section Runs.
Variable W : World.

Lemma run_bind {A B} (p : prog A) (f : A -> prog B) (s : state W) :
  run W (bind p f) s =
    match run W p s with
    | (Ok a, s1, t1) =>
        let '(r, s2, t2) := run W (f a) s1 in (r, s2, (t1 ++ t2)%list)
    | (Raise e, s1, t1) => (Raise e, s1, t1)
    end.
Proof.
  revert s. induction p as [a | e | path k IH | pattern k IH | c k IH];
    intro s; simpl.
  - destruct (run W (f a) s) as [[r s2] t2]. reflexivity.
  - reflexivity.
  - rewrite IH.
    destruct (run W (k (path_exists W s path)) s) as [[[a | e] s1] t1];
      [destruct (run W (f a) s1) as [[r s2] t2] |]; reflexivity.
  - rewrite IH.
    destruct (run W (k (glob_matches W s pattern)) s) as [[[a | e] s1] t1];
      [destruct (run W (f a) s1) as [[r s2] t2] |]; reflexivity.
  - destruct (answer W c s) as [x s0]. rewrite IH.
    destruct (run W (k x) s0) as [[[a | e] s1] t1];
      [destruct (run W (f a) s1) as [[r s2] t2] |]; reflexivity.
Qed.

Lemma run_try_except {A} (p : prog A) (h : exn -> prog A) (s : state W) :
  run W (try_except p h) s =
    match run W p s with
    | (Ok a, s1, t1) => (Ok a, s1, t1)
    | (Raise e, s1, t1) =>
        if is_Exception e then
          let '(r, s2, t2) := run W (h e) s1 in (r, s2, (t1 ++ t2)%list)
        else (Raise e, s1, t1)
    end.
Proof.
  revert s. induction p as [a | e | path k IH | pattern k IH | c k IH];
    intro s; simpl.
  - reflexivity.
  - destruct (is_Exception e); [| reflexivity].
    destruct (run W (h e) s) as [[r s2] t2]. reflexivity.
  - rewrite IH.
    destruct (run W (k (path_exists W s path)) s) as [[[a | e] s1] t1];
      [| destruct (is_Exception e);
         [destruct (run W (h e) s1) as [[r s2] t2] |]]; reflexivity.
  - rewrite IH.
    destruct (run W (k (glob_matches W s pattern)) s) as [[[a | e] s1] t1];
      [| destruct (is_Exception e);
         [destruct (run W (h e) s1) as [[r s2] t2] |]]; reflexivity.
  - destruct (answer W c s) as [x s0]. rewrite IH.
    destruct (run W (k x) s0) as [[[a | e] s1] t1];
      [| destruct (is_Exception e);
         [destruct (run W (h e) s1) as [[r s2] t2] |]]; reflexivity.
Qed.

Lemma run_os_path_exists (path : string) (s : state W) :
  run W (os_path_exists path) s =
    (Ok (path_exists W s path), s, [EvExists path (path_exists W s path)]).
Proof. reflexivity. Qed.

Lemma run_perform (c : call) (s : state W) :
  run W (perform c) s =
    (fst (answer W c s), snd (answer W c s),
     [EvCall c (returned_of c (fst (answer W c s)))]).
Proof.
  unfold perform. simpl.
  destruct (answer W c s) as [[x | e] s1]; reflexivity.
Qed.

Lemma run_detect (detector : handle) (image_path : string) (save_json : bool)
    (json_path : string) (save_annotated : bool) (output_folder : string)
    (s : state W) :
  let c := detector_detect detector image_path save_json json_path
             save_annotated output_folder in
  run W (detect detector image_path save_json json_path save_annotated
           output_folder) s =
    (fst (answer W c s), snd (answer W c s),
     [EvCall c (returned_of c (fst (answer W c s)))]).
Proof. intro c. exact (run_perform c s). Qed.

Lemma run_create_reenactor (model : string) (s : state W) :
  let c := FaceReenactor_create model in
  run W (create_reenactor model) s =
    (fst (answer W c s), snd (answer W c s),
     [EvCall c (returned_of c (fst (answer W c s)))]).
Proof. intro c. exact (run_perform c s). Qed.

Lemma run_makedirs (path : string) (s : state W) :
  let c := os_makedirs path in
  run W (makedirs path) s =
    (fst (answer W c s), snd (answer W c s),
     [EvCall c (returned_of c (fst (answer W c s)))]).
Proof. intro c. exact (run_perform c s). Qed.

Lemma run_reenact (reenactor : handle)
    (source_path driving_video_path output_path : string)
    (save_comparison resize_to_image_resolution : bool) (s : state W) :
  let c := reenact_from_video reenactor source_path driving_video_path
             output_path save_comparison resize_to_image_resolution in
  run W (reenact reenactor source_path driving_video_path output_path
           save_comparison resize_to_image_resolution) s =
    (fst (answer W c s), snd (answer W c s),
     [EvCall c (returned_of c (fst (answer W c s)))]).
Proof. intro c. exact (run_perform c s). Qed.

(** A handler that returns a value turns the exceptions it handles into
    that value, and makes no event of its own. *)
Lemma run_try_except_ret {A} (p : prog A) (h : exn -> A) (s : state W) :
  run W (try_except p (fun e => Ret (h e))) s =
    match run W p s with
    | (Ok a, s1, t1) => (Ok a, s1, t1)
    | (Raise e, s1, t1) => (caught h e, s1, t1)
    end.
Proof.
  rewrite run_try_except. unfold caught.
  destruct (run W p s) as [[[a | e] s1] t1]; [reflexivity |].
  destruct (is_Exception e); simpl; [rewrite app_nil_r |]; reflexivity.
Qed.

Lemma result_try_except_ret {A} (p : prog A) (h : exn -> A) (s : state W) :
  result W (try_except p (fun e => Ret (h e))) s =
    match result W p s with
    | Ok a => Ok a
    | Raise e => caught h e
    end.
Proof.
  unfold result. rewrite run_try_except_ret.
  destruct (run W p s) as [[[a | e] s1] t1]; reflexivity.
Qed.

End Runs.


(** ** Every run of detect_deepfakes *)

Section Jobs.
Variable float_repr : float -> string.
Variable W : World.

Lemma run_supplied (f : option string) (s : state W) :
  run W (supplied f) s = (Ok (present W s f), s, query_of W s f).
Proof.
  destruct f as [path |]; simpl; [| reflexivity].
  destruct (truthy path); simpl; [| reflexivity].
  destruct (path_exists W s path); reflexivity.
Qed.

Lemma run_select_media (image_file video_file : option string) (s : state W) :
  run W (select_media image_file video_file) s =
    (Ok (selected W s image_file video_file), s,
     media_queries W s image_file video_file).
Proof.
  unfold select_media, selected, media_queries.
  rewrite run_bind, run_supplied.
  destruct (present W s image_file) as [media_file |]; simpl.
  - reflexivity.
  - rewrite run_bind, run_supplied.
    destruct (present W s video_file) as [media_file |]; simpl;
      rewrite app_nil_r; reflexivity.
Qed.

(** Drawing the bar raises nothing but what [except Exception] handles. *)
Lemma get_confidence_bar_raises (confidence : float) (e : exn) :
  get_confidence_bar confidence = Raise e -> is_Exception e = true.
Proof.
  unfold get_confidence_bar, int_of_float, str_mul.
  destruct (Prim2SF (confidence * 20)) as [sign | sign | | sign m ex];
    cbn [obind];
    repeat match goal with
           | |- context [if ?b then _ else _] => destruct b; cbn [obind]
           end;
    intro raised; try discriminate raised;
    injection raised as <-; reflexivity.
Qed.

Lemma results_text_raises (media_file : string) (media_type : media_type)
    (models_to_use : list string) (weights : dict float)
    (confidence_threshold : float) (num_frames : Z) (verdict : bool)
    (e : exn) :
  results_text float_repr media_file media_type models_to_use weights
    confidence_threshold num_frames verdict = Raise e ->
  is_Exception e = true.
Proof.
  unfold results_text. cbv zeta.
  destruct (get_confidence_bar
              (avg_confidence confidence_threshold verdict))
    as [bar | raised] eqn:drawn; cbn [obind]; intro same;
    [discriminate same |].
  injection same as <-. exact (get_confidence_bar_raises _ drawn).
Qed.

(** Every run is one of the five jobs. *)
Lemma detect_deepfakes_job (image_file video_file : option string)
    (models_to_use : list string) (confidence_threshold : float)
    (num_frames : Z) (s : state W) :
  job float_repr W s image_file video_file models_to_use confidence_threshold
    num_frames
    (run W (detect_deepfakes float_repr image_file video_file models_to_use
              confidence_threshold num_frames) s).
Proof.
  unfold detect_deepfakes, detect_deepfakes_body.
  rewrite run_try_except_ret, run_bind, run_select_media.
  destruct (selected W s image_file video_file) as [[media_file media_type] |]
    eqn:media.
  2:{ simpl. rewrite app_nil_r. now apply job_no_media. }
  destruct (dict_is_empty (configure_models models_to_use)) eqn:empty.
  { simpl. rewrite app_nil_r. now apply job_no_models with media_file media_type. }
  destruct (normalize_weights_total models_to_use) as [weights normalized].
  rewrite normalized. simpl.
  destruct (answer W (PipelineDeepfakeDetection weights None
                        confidence_threshold) s) as [[pipeline | e] s1]
    eqn:created; simpl.
  2:{ eapply job_no_pipeline; eassumption. }
  destruct (answer W (pipeline_detect pipeline media_file
                        (path_join output_dir ["deepfake_detection"]) true
                        num_frames) s1) as [[verdict | e] s2] eqn:detected;
    simpl.
  2:{ eapply job_pipeline_failure; eassumption. }
  pose proof (@job_verdict float_repr W s image_file video_file models_to_use
                confidence_threshold num_frames media_file media_type weights
                pipeline verdict s1 s2 media empty normalized created detected)
    as done.
  revert done. unfold rendered.
  destruct (results_text float_repr media_file media_type models_to_use
              weights confidence_threshold num_frames verdict)
    as [text | e] eqn:written; simpl; intro done; [exact done |].
  unfold caught. now rewrite (results_text_raises _ _ _ _ _ _ _ written).
Qed.

End Jobs.

(** ** What a run of detect_deepfakes shows *)

Section JobFacts.
Variable float_repr : float -> string.
Variable W : World.

Lemma query_of_inputs (s : state W) (f : option string) (inputs : list (option string)) :
  In f inputs -> Forall (is_query_of inputs) (query_of W s f).
Proof.
  intro listed. destruct f as [path |]; simpl; [| constructor].
  destruct (truthy path); repeat constructor. exact listed.
Qed.

(** The media selection asks only whether the two inputs exist. *)
Lemma media_queries_inputs (s : state W) (image_file video_file : option string) :
  Forall (is_query_of [image_file; video_file])
    (media_queries W s image_file video_file).
Proof.
  unfold media_queries. apply Forall_app. split.
  - apply query_of_inputs. now left.
  - destruct (present W s image_file); [constructor |].
    apply query_of_inputs. right. now left.
Qed.

Lemma media_queries_no_call (s : state W) (image_file video_file : option string)
    (c : call) (r : returned) :
  ~ In (EvCall c r) (media_queries W s image_file video_file).
Proof.
  intro inside.
  pose proof (media_queries_inputs s image_file video_file) as queries.
  rewrite Forall_forall in queries. exact (queries _ inside).
Qed.

Lemma in_after_media_queries (s : state W) (image_file video_file : option string)
    (c : call) (r : returned) (rest : list event) :
  In (EvCall c r) (media_queries W s image_file video_file ++ rest) ->
  In (EvCall c r) rest.
Proof.
  intro inside. apply in_app_or in inside. destruct inside as [inside | inside].
  - now apply media_queries_no_call in inside.
  - exact inside.
Qed.

(** Where a call of the record of a job can be: not among the queries of
    the media selection, so among the one or two calls that follow. *)
Ltac call_among inside :=
  first
    [ now apply media_queries_no_call in inside
    | apply in_after_media_queries in inside; simpl in inside;
      repeat (destruct inside as [inside | inside];
              try discriminate inside);
      try contradiction ].

(** A run in which the pipeline gave a verdict: the media it was given is
    the selected one, and the response is the rendering of that verdict. *)
Lemma job_with_verdict (s : state W) (image_file video_file : option string)
    (models_to_use : list string) (confidence_threshold : float)
    (num_frames : Z) (pipeline : handle) (media_path output_folder : string)
    (save_csv : bool) (frames : Z) (verdict : bool) :
  In (EvCall (pipeline_detect pipeline media_path output_folder save_csv frames)
        (RBool verdict))
     (trace W (detect_deepfakes float_repr image_file video_file models_to_use
                 confidence_threshold num_frames) s) ->
  exists media_type weights,
    selected W s image_file video_file = Some (media_path, media_type)
    /\ normalize_weights (configure_models models_to_use) = Ok weights
    /\ frames = num_frames
    /\ result W (detect_deepfakes float_repr image_file video_file
                   models_to_use confidence_threshold num_frames) s
        = Ok (rendered float_repr media_path media_type models_to_use weights
                confidence_threshold num_frames verdict).
Proof.
  unfold trace, result.
  destruct (detect_deepfakes_job float_repr W image_file video_file
              models_to_use confidence_threshold num_frames s)
    as [none | media_file media_type media empty
        | media_file media_type weights e s1 media empty normalized created
        | media_file media_type weights p e s1 s2 media empty normalized
            created detected
        | media_file media_type weights p v s1 s2 media empty normalized
            created detected];
    simpl; intro inside; call_among inside.
  injection inside as same_pipeline same_media same_folder same_csv
    same_frames same_verdict.
  subst. exists media_type, weights. repeat split; assumption.
Qed.

(** A run in which the pipeline was given a media file at all. *)
Lemma job_with_detection (s : state W) (image_file video_file : option string)
    (models_to_use : list string) (confidence_threshold : float)
    (num_frames : Z) (pipeline : handle) (media_path output_folder : string)
    (save_csv : bool) (frames : Z) (r : returned) :
  In (EvCall (pipeline_detect pipeline media_path output_folder save_csv frames) r)
     (trace W (detect_deepfakes float_repr image_file video_file models_to_use
                 confidence_threshold num_frames) s) ->
  exists media_type,
    selected W s image_file video_file = Some (media_path, media_type).
Proof.
  unfold trace.
  destruct (detect_deepfakes_job float_repr W image_file video_file
              models_to_use confidence_threshold num_frames s)
    as [none | media_file media_type media empty
        | media_file media_type weights e s1 media empty normalized created
        | media_file media_type weights p e s1 s2 media empty normalized
            created detected
        | media_file media_type weights p v s1 s2 media empty normalized
            created detected];
    simpl; intro inside; call_among inside;
    injection inside as same_pipeline same_media same_folder same_csv
      same_frames same_result;
    subst; exists media_type; assumption.
Qed.

End JobFacts.

(** ** The deepfake detection request *)

Section Requests.
Variable float_repr : float -> string.
Variable W : World.
Local Open Scope float_scope.

Lemma result_select_media (s : state W) (image_file video_file : option string) :
  result W (select_media image_file video_file) s =
    Ok (selected W s image_file video_file).
Proof. unfold result. now rewrite run_select_media. Qed.

(** C10.  Whatever the request and the world, a response of
    detect_deepfakes has no annotated media path: the job answers with an
    absent path and a text, unless a collaborator raised an exception that
    [except Exception] does not handle, which then reaches the caller.  The
    only questions the job asks the file system are whether its two inputs
    exist, before any call to the pipeline: nothing is searched for once
    the pipeline ran. *)
Theorem annotated_media_path_is_never_returned (s : state W)
    (image_file video_file : option string) (models_to_use : list string)
    (confidence_threshold : float) (num_frames : Z) :
  exists queries calls,
    trace W (detect_deepfakes float_repr image_file video_file
               models_to_use confidence_threshold num_frames) s
    = (queries ++ calls)%list
    /\ Forall (is_query_of [image_file; video_file]) queries
    /\ Forall is_call calls
    /\ ((exists text,
           result W (detect_deepfakes float_repr image_file video_file
                       models_to_use confidence_threshold num_frames) s
           = Ok (None, text))
        \/ (exists e c,
              result W (detect_deepfakes float_repr image_file video_file
                          models_to_use confidence_threshold num_frames) s
              = Raise e
              /\ is_Exception e = false
              /\ In (EvCall c (RRaised e)) calls)).
Proof.
  unfold result, trace.
  pose proof (media_queries_inputs W s image_file video_file) as asked.
  destruct (detect_deepfakes_job float_repr W image_file video_file
              models_to_use confidence_threshold num_frames s)
    as [none | media_file media_type media empty
        | media_file media_type weights e s1 media empty normalized created
        | media_file media_type weights p e s1 s2 media empty normalized
            created detected
        | media_file media_type weights p v s1 s2 media empty normalized
            created detected];
    cbn [fst snd].
  - exists (media_queries W s image_file video_file), [].
    rewrite app_nil_r. repeat split; trivial. left. now eexists.
  - exists (media_queries W s image_file video_file), [].
    rewrite app_nil_r. repeat split; trivial. left. now eexists.
  - eexists _, _.
    split; [reflexivity | split; [exact asked | split; [repeat constructor |]]].
    unfold job_error, caught. destruct (is_Exception e) eqn:handled.
    + left. now eexists.
    + right. eexists e, _. repeat split; trivial. now left.
  - eexists _, _.
    split; [reflexivity | split; [exact asked | split; [repeat constructor |]]].
    unfold job_error, caught. destruct (is_Exception e) eqn:handled.
    + left. now eexists.
    + right. eexists e, _. repeat split; trivial. right. now left.
  - eexists _, _.
    split; [reflexivity | split; [exact asked | split; [repeat constructor |]]].
    left. unfold rendered.
    destruct (results_text float_repr media_file media_type models_to_use
                weights confidence_threshold num_frames v) as [text | e];
      now eexists.
Qed.

(** C2, as the code has it.  When the media input resolves to an existing
    file and the selection holds no registered model, the job answers with
    the message asking for a model, leaves the world as it was and calls no
    collaborator; the base weights then sum to zero, and the normalization,
    which is not reached, raises for no selection at all. *)
Theorem no_model_selected_is_reported_before_division (s : state W)
    (image_file video_file : option string) (models_to_use : list string)
    (confidence_threshold : float) (num_frames : Z)
    (media_file : string) (media_type : media_type) :
  contains "resnet_inception" models_to_use = false ->
  contains "efficientnet" models_to_use = false ->
  result W (select_media image_file video_file) s
    = Ok (Some (media_file, media_type)) ->
  run W (detect_deepfakes float_repr image_file video_file models_to_use
           confidence_threshold num_frames) s
    = (Ok (None, error_no_models), s,
       trace W (select_media image_file video_file) s)
  /\ sum (values (configure_models models_to_use)) = 0
  /\ (forall base_weight,
        truediv base_weight (sum (values (configure_models models_to_use)))
        = Raise (Exn "ZeroDivisionError" "float division by zero"))
  /\ (forall any_models, exists weights,
        normalize_weights (configure_models any_models) = Ok weights).
Proof.
  intros no_resnet no_efficientnet resolved.
  rewrite result_select_media in resolved. injection resolved as resolved.
  assert (empty : dict_is_empty (configure_models models_to_use) = true).
  { rewrite configure_models_empty, no_resnet, no_efficientnet. reflexivity. }
  assert (nothing : configure_models models_to_use = []).
  { rewrite configure_models_cases, no_resnet, no_efficientnet. reflexivity. }
  split; [| split; [| split]].
  - unfold trace. rewrite run_select_media. simpl.
    destruct (detect_deepfakes_job float_repr W image_file video_file
                models_to_use confidence_threshold num_frames s)
      as [none | mf mt media _
          | mf mt weights e s1 media filled normalized created
          | mf mt weights p e s1 s2 media filled normalized created detected
          | mf mt weights p v s1 s2 media filled normalized created detected];
      try congruence.
  - rewrite nothing. reflexivity.
  - intro base_weight. rewrite nothing. reflexivity.
  - apply normalize_weights_total.
Qed.

(** C4, as the code has it.  A request whose inputs resolve to no existing
    file, in particular one that supplies neither, is rejected with the
    message asking for an upload, and no collaborator is called.  A request
    whose inputs resolve to a file, also when both are supplied, is not
    rejected for its media: with a registered model selected, the pipeline
    is constructed and, once it is, run on that file. *)
Theorem media_is_validated_for_presence_only (s : state W)
    (image_file video_file : option string) (models_to_use : list string)
    (confidence_threshold : float) (num_frames : Z) :
  (result W (select_media image_file video_file) s = Ok None ->
   run W (detect_deepfakes float_repr image_file video_file models_to_use
            confidence_threshold num_frames) s
     = (Ok (None, error_no_media), s,
        trace W (select_media image_file video_file) s))
  /\ run W (detect_deepfakes float_repr None None models_to_use
              confidence_threshold num_frames) s
      = (Ok (None, error_no_media), s, [])
  /\ (forall media_file media_type,
        result W (select_media image_file video_file) s
          = Ok (Some (media_file, media_type)) ->
        (contains "resnet_inception" models_to_use
         || contains "efficientnet" models_to_use) = true ->
        exists weights r,
          In (EvCall (PipelineDeepfakeDetection weights None
                        confidence_threshold) r)
             (trace W (detect_deepfakes float_repr image_file video_file
                         models_to_use confidence_threshold num_frames) s)
          /\ forall pipeline,
               r = RHandle pipeline ->
               exists answered,
                 In (EvCall (pipeline_detect pipeline media_file
                               "gradio_output/deepfake_detection" true
                               num_frames) answered)
                    (trace W (detect_deepfakes float_repr image_file
                                video_file models_to_use
                                confidence_threshold num_frames) s)).
Proof.
  split; [| split].
  - rewrite result_select_media. intro unresolved.
    injection unresolved as unresolved.
    unfold trace. rewrite run_select_media. simpl.
    destruct (detect_deepfakes_job float_repr W image_file video_file
                models_to_use confidence_threshold num_frames s)
      as [none | mf mt media _
          | mf mt weights e s1 media filled normalized created
          | mf mt weights p e s1 s2 media filled normalized created detected
          | mf mt weights p v s1 s2 media filled normalized created detected];
      congruence.
  - reflexivity.
  - intros media_file media_type resolved chosen.
    rewrite result_select_media in resolved. injection resolved as resolved.
    assert (filled : dict_is_empty (configure_models models_to_use) = false).
    { rewrite configure_models_empty, chosen. reflexivity. }
    unfold trace.
    destruct (detect_deepfakes_job float_repr W image_file video_file
                models_to_use confidence_threshold num_frames s)
      as [none | mf mt media empty
          | mf mt weights e s1 media _ normalized created
          | mf mt weights p e s1 s2 media _ normalized created detected
          | mf mt weights p v s1 s2 media _ normalized created detected];
      try congruence; cbn [snd];
      assert (mf = media_file) as -> by congruence;
      eexists _, _;
      (split; [apply in_or_app; right; left; reflexivity |]);
      intros pipeline same; try discriminate same;
      injection same as <-; eexists;
      apply in_or_app; right; right; left; reflexivity.
Qed.

End Requests.

(** ** The report *)

Lemma append_assoc (a b c : string) : (a ++ b) ++ c = a ++ b ++ c.
Proof. induction a as [| ch a IH]; simpl; [| rewrite IH]; reflexivity. Qed.

Lemma within_here (piece rest : string) : within piece (piece ++ rest).
Proof. exists "", rest. reflexivity. Qed.

Lemma within_after (front piece text : string) :
  within piece text -> within piece (front ++ text).
Proof.
  intros [before [after ->]]. exists (front ++ before), after.
  now rewrite append_assoc.
Qed.

Lemma within_before (back piece text : string) :
  within piece text -> within piece (text ++ back).
Proof.
  intros [before [after ->]]. exists before, (after ++ back).
  now rewrite !append_assoc.
Qed.

Lemma within_here3 (a b c rest : string) :
  within (a ++ b ++ c) (a ++ b ++ c ++ rest).
Proof. exists "", rest. simpl. now rewrite !append_assoc. Qed.

(** Finds [piece] in a text put together with [++]: it is the front of the
    text, or in what follows the front, or in what the text was extended
    from. *)
Ltac find_within :=
  first
    [ apply within_here
    | apply within_here3
    | apply within_after; find_within
    | apply within_before; find_within ].

Section Reports.
Variable float_repr : float -> string.
Local Open Scope float_scope.

(** The report shows the confidence bar of the synthesized confidence, and
    is an error only if drawing that bar is. *)
Lemma rendered_shows_confidence (media_file : string) (media_type : media_type)
    (models_to_use : list string) (weights : dict float)
    (confidence_threshold : float) (num_frames : Z) (verdict : bool) :
  match get_confidence_bar
          (if verdict then confidence_threshold
           else 1.0 - confidence_threshold) with
  | Ok bar =>
      exists text,
        rendered float_repr media_file media_type models_to_use weights
          confidence_threshold num_frames verdict = (None, text)
        /\ within ("**Pipeline Result**: " ++ bar ++ nl) text
  | Raise e =>
      rendered float_repr media_file media_type models_to_use weights
        confidence_threshold num_frames verdict = (None, error_text e)
  end.
Proof.
  unfold rendered, results_text, avg_confidence.
  destruct (get_confidence_bar
              (if verdict then confidence_threshold
               else 1.0 - confidence_threshold)) as [bar | e];
    unfold obind; cbv beta iota zeta; [| reflexivity].
  eexists. split; [reflexivity |].
  destruct media_type; unfold media_type_eqb; cbv beta iota zeta;
    find_within.
Qed.

(** C3.  In every job in which the pipeline gave its verdict, the report
    shows the confidence bar of the threshold when the verdict is deepfake
    and of 1.0 minus the threshold when it is authentic (the job ends in an
    error message only when that bar cannot be drawn); at threshold 0.5 both
    verdicts give 0.5, at threshold 0.8 a deepfake verdict gives 0.8. *)
Theorem confidence_is_synthesized_from_threshold (W : World) (s : state W)
    (image_file video_file : option string) (models_to_use : list string)
    (confidence_threshold : float) (num_frames : Z) :
  (forall pipeline media_path output_folder save_csv frames verdict,
     In (EvCall (pipeline_detect pipeline media_path output_folder save_csv
                   frames) (RBool verdict))
        (trace W (detect_deepfakes float_repr image_file video_file
                    models_to_use confidence_threshold num_frames) s) ->
     match get_confidence_bar
             (if verdict then confidence_threshold
              else 1.0 - confidence_threshold) with
     | Ok bar =>
         exists text,
           result W (detect_deepfakes float_repr image_file video_file
                       models_to_use confidence_threshold num_frames) s
             = Ok (None, text)
           /\ within ("**Pipeline Result**: " ++ bar ++ nl) text
     | Raise e =>
         result W (detect_deepfakes float_repr image_file video_file
                     models_to_use confidence_threshold num_frames) s
           = Ok (None, error_text e)
     end)
  /\ avg_confidence confidence_threshold true = confidence_threshold
  /\ avg_confidence confidence_threshold false = 1.0 - confidence_threshold
  /\ avg_confidence 0.5 true = 0.5
  /\ avg_confidence 0.5 false = 0.5
  /\ avg_confidence 0.8 true = 0.8.
Proof.
  split; [| repeat split].
  intros pipeline media_path output_folder save_csv frames verdict given.
  apply job_with_verdict in given.
  destruct given as [media_type [weights [_ [_ [_ ->]]]]].
  pose proof (rendered_shows_confidence media_path media_type models_to_use
                weights confidence_threshold num_frames verdict) as shown.
  destruct (get_confidence_bar
              (if verdict then confidence_threshold
               else 1.0 - confidence_threshold)) as [bar | e].
  - destruct shown as [text [-> inside]]. now exists text.
  - now rewrite shown.
Qed.

(** C8.  Two jobs, in any two worlds, that have the same model selection,
    threshold and frame count, that selected the same media file of the
    same type, and whose pipelines gave the same verdict, answer with the
    same text. *)
Theorem report_is_deterministic (W1 W2 : World) (s1 : state W1) (s2 : state W2)
    (image1 video1 image2 video2 : option string) (models_to_use : list string)
    (confidence_threshold : float) (num_frames : Z)
    (media_file : string) (media_type : media_type) (verdict : bool)
    (pipeline1 pipeline2 : handle) (folder1 folder2 : string)
    (csv1 csv2 : bool) (frames1 frames2 : Z) :
  result W1 (select_media image1 video1) s1
    = Ok (Some (media_file, media_type)) ->
  result W2 (select_media image2 video2) s2
    = Ok (Some (media_file, media_type)) ->
  In (EvCall (pipeline_detect pipeline1 media_file folder1 csv1 frames1)
        (RBool verdict))
     (trace W1 (detect_deepfakes float_repr image1 video1 models_to_use
                  confidence_threshold num_frames) s1) ->
  In (EvCall (pipeline_detect pipeline2 media_file folder2 csv2 frames2)
        (RBool verdict))
     (trace W2 (detect_deepfakes float_repr image2 video2 models_to_use
                  confidence_threshold num_frames) s2) ->
  exists text,
    result W1 (detect_deepfakes float_repr image1 video1 models_to_use
                 confidence_threshold num_frames) s1 = Ok (None, text)
    /\ result W2 (detect_deepfakes float_repr image2 video2 models_to_use
                    confidence_threshold num_frames) s2 = Ok (None, text).
Proof.
  intros media1 media2 given1 given2.
  rewrite result_select_media in media1, media2.
  injection media1 as media1. injection media2 as media2.
  apply job_with_verdict in given1, given2.
  destruct given1 as [type1 [weights1 [chosen1 [normalized1 [_ ->]]]]].
  destruct given2 as [type2 [weights2 [chosen2 [normalized2 [_ ->]]]]].
  assert (type1 = media_type) as -> by congruence.
  assert (type2 = media_type) as -> by congruence.
  assert (weights2 = weights1) as -> by congruence.
  unfold rendered.
  destruct (results_text float_repr media_file media_type models_to_use
              weights1 confidence_threshold num_frames verdict) as [text | e];
    eexists; split; reflexivity.
Qed.

End Reports.

(** ** The searches for output artifacts *)

Section Locators.
Variable W : World.

Lemma run_find_annotated (output_folder : string) (names : list string)
    (s : state W) :
  run W (find_annotated output_folder names) s =
    (Ok (find (path_exists W s) (under output_folder names)), s,
     asked_until_found W s (under output_folder names)).
Proof.
  induction names as [| name rest IH]; simpl; [reflexivity |].
  destruct (path_exists W s (path_join output_folder [name])); simpl.
  - reflexivity.
  - rewrite IH. reflexivity.
Qed.

Lemma run_find_comparison (dir : string) (patterns : list string)
    (s : state W) :
  run W (find_comparison dir patterns) s =
    (Ok (first_match W s (under dir patterns)), s,
     globbed_until_found W s (under dir patterns)).
Proof.
  unfold first_match.
  induction patterns as [| pattern rest IH]; simpl; [reflexivity |].
  destruct (glob_matches W s (path_join dir [pattern])) as [| first others];
    simpl.
  - rewrite IH. reflexivity.
  - reflexivity.
Qed.

Lemma run_locate_comparison (search_dir result_path : string)
    (patterns : list string) (s : state W) :
  run W (locate_comparison search_dir result_path patterns) s =
    let here := first_match W s (under search_dir patterns) in
    let there := first_match W s (under (dirname result_path) patterns) in
    if truthy_opt here then
      (Ok here, s, globbed_until_found W s (under search_dir patterns))
    else
      (Ok (match there with Some p => Some p | None => here end), s,
       (globbed_until_found W s (under search_dir patterns)
        ++ globbed_until_found W s (under (dirname result_path) patterns))%list).
Proof.
  unfold locate_comparison.
  rewrite run_bind, run_find_comparison. simpl.
  destruct (truthy_opt (first_match W s (under search_dir patterns))); simpl.
  - rewrite app_nil_r. reflexivity.
  - rewrite run_bind, run_find_comparison. simpl. rewrite app_nil_r.
    reflexivity.
Qed.

Lemma path_join2_truthy (a b : string) :
  truthy a = true -> truthy (path_join2 a b) = true.
Proof.
  intro nonempty. unfold path_join2.
  destruct (starts_with_slash b) eqn:absolute.
  - destruct b; [discriminate absolute | reflexivity].
  - destruct a; [discriminate nonempty |].
    destruct (negb (truthy (String a a0)) || last_is_slash (String a a0));
      reflexivity.
Qed.

Lemma under_truthy (dir : string) (names : list string) (p : string) :
  truthy dir = true -> In p (under dir names) -> truthy p = true.
Proof.
  intros nonempty listed. unfold under in listed.
  apply in_map_iff in listed. destruct listed as [name [<- _]].
  now apply path_join2_truthy.
Qed.

End Locators.

(** ** detect_faces and reenact_face *)

Arguments find_annotated : simpl never.
Arguments locate_comparison : simpl never.
Arguments possible_names : simpl never.
Arguments comparison_patterns : simpl never.

(** Runs a program through its binds and its existence queries. *)
Ltac run_through :=
  repeat first
    [ rewrite run_bind
    | rewrite run_os_path_exists
    | progress cbn [run app fst snd negb] ].

Section Operations.
Variable W : World.

(** The output folder of a detection is not the empty path. *)
Lemma detection_folder_truthy (detection_model : string) :
  truthy (path_join output_dir ["face_detection"; detection_model]) = true.
Proof. apply path_join2_truthy. reflexivity. Qed.

(** A detection that succeeds answers with the first expected annotated
    name that exists once the detector ran, the JSON path if it exists, and
    the text of the faces. *)
Lemma detect_faces_success (image_path detection_model : string)
    (detector : handle) (detections : list Detection) (s s1 s2 : state W) :
  let output_folder :=
    path_join output_dir ["face_detection"; detection_model] in
  let json_path := path_join output_folder ["detections.json"] in
  let name := fst (splitext (basename image_path)) in
  let ext := snd (splitext (basename image_path)) in
  let candidates := under output_folder (possible_names name ext) in
  truthy image_path = true ->
  path_exists W s image_path = true ->
  answer W (FaceDetector_create detection_model) s = (Ok detector, s1) ->
  answer W (detector_detect detector image_path true json_path true
              output_folder) s1 = (Ok detections, s2) ->
  run W (detect_faces image_path detection_model) s =
    (Ok (find (path_exists W s2) candidates,
         if path_exists W s2 json_path then Some json_path else None,
         faces_text detections),
     s2,
     (EvExists image_path true
      :: EvCall (FaceDetector_create detection_model) (RHandle detector)
      :: EvCall (detector_detect detector image_path true json_path true
                   output_folder) (RDetections detections)
      :: asked_until_found W s2 candidates
      ++ match find (path_exists W s2) candidates with
         | Some p => [EvExists p true]
         | None => []
         end
      ++ [EvExists json_path (path_exists W s2 json_path)])%list).
Proof.
  intros output_folder json_path name ext candidates nonempty there created
    detected.
  unfold detect_faces, detect_faces_body.
  rewrite run_try_except_ret, nonempty. cbn [negb].
  rewrite run_bind, run_os_path_exists, there. cbn [negb run].
  rewrite created. fold output_folder. fold json_path.
  rewrite run_bind, run_detect, detected. cbn [fst snd returned_of].
  subst candidates name ext.
  destruct (splitext (basename image_path)) as [name ext]. cbn [fst snd].
  rewrite run_bind, run_find_annotated.
  destruct (find (path_exists W s2)
              (under output_folder (possible_names name ext)))
    as [p |] eqn:found.
  - apply find_some in found. destruct found as [listed still].
    apply under_truthy in listed; [| apply detection_folder_truthy].
    rewrite listed. run_through. rewrite still. run_through.
    rewrite ?app_nil_r. reflexivity.
  - run_through. rewrite ?app_nil_r. reflexivity.
Qed.

(** A reenactment that succeeds answers with the result path and with the
    first match of the patterns in the output path or, failing that, in the
    directory of the result path, once the reenactor ran. *)
Lemma reenact_face_success (source_image driving_video reenactor_model : string)
    (resize_to_image_resolution : bool) (reenactor : handle)
    (result_path : string) (s s1 s2 s3 : state W) :
  let output_folder :=
    path_join output_dir ["face_reenactment"; reenactor_model] in
  let source_name := fst (splitext (basename source_image)) in
  let driving_name := fst (splitext (basename driving_video)) in
  let output_path := path_join output_folder [source_name ++ "_reenacted"] in
  let patterns := comparison_patterns source_name driving_name in
  let here := first_match W s3 (under output_path patterns) in
  let there := first_match W s3 (under (dirname result_path) patterns) in
  answer W (FaceReenactor_create reenactor_model) s = (Ok reenactor, s1) ->
  answer W (os_makedirs output_folder) s1 = (Ok tt, s2) ->
  answer W (reenact_from_video reenactor source_image driving_video
              output_path true resize_to_image_resolution) s2
    = (Ok result_path, s3) ->
  run W (reenact_face source_image driving_video reenactor_model
           resize_to_image_resolution) s =
    (Ok (Some result_path,
         if truthy_opt here then here
         else match there with Some p => Some p | None => here end),
     s3,
     (EvCall (FaceReenactor_create reenactor_model) (RHandle reenactor)
      :: EvCall (os_makedirs output_folder) RNone
      :: EvCall (reenact_from_video reenactor source_image driving_video
                   output_path true resize_to_image_resolution)
           (RPath result_path)
      :: globbed_until_found W s3 (under output_path patterns)
      ++ (if truthy_opt here then []
          else globbed_until_found W s3
                 (under (dirname result_path) patterns)))%list).
Proof.
  intros output_folder source_name driving_name output_path patterns here
    there created made reenacted.
  unfold reenact_face, reenact_face_body.
  rewrite run_try_except_ret, run_bind, run_create_reenactor, created.
  cbn [fst snd]. fold output_folder.
  rewrite run_bind, run_makedirs, made. cbn [fst snd].
  fold source_name. fold output_path.
  rewrite run_bind, run_reenact, reenacted. cbn [fst snd].
  fold driving_name. fold patterns.
  rewrite run_bind, run_locate_comparison. cbv zeta.
  fold here. fold there.
  destruct (truthy_opt here); cbn [run app returned_of];
    rewrite ?app_nil_r; reflexivity.
Qed.

(** C6, as the code has it.  Each of the two searches tries its candidates
    in their order, stops at the first that matches and returns it, and
    returns absent, without raising, when none matches.  detect_faces checks
    whether [name_annotated.ext], [name_detected.ext], [name_detection.ext]
    exist in the output folder, and asks for no glob and no other
    directory.  reenact_face globs the exact name, the name with any driving
    video and [comparison_*.mp4] in the output path and, when that finds
    nothing, the same three patterns in the directory of the result path. *)
Theorem artifact_searches_return_the_first_match :
  (forall s output_folder names,
     run W (find_annotated output_folder names) s =
       (Ok (find (path_exists W s) (under output_folder names)), s,
        asked_until_found W s (under output_folder names)))
  /\ (forall s dir patterns,
        run W (find_comparison dir patterns) s =
          (Ok (first_match W s (under dir patterns)), s,
           globbed_until_found W s (under dir patterns)))
  /\ (forall image_path detection_model detector detections s s1 s2,
        let output_folder :=
          path_join output_dir ["face_detection"; detection_model] in
        let json_path := path_join output_folder ["detections.json"] in
        let name := fst (splitext (basename image_path)) in
        let ext := snd (splitext (basename image_path)) in
        let candidates :=
          under output_folder
            [name ++ "_annotated" ++ ext; name ++ "_detected" ++ ext;
             name ++ "_detection" ++ ext] in
        truthy image_path = true ->
        path_exists W s image_path = true ->
        answer W (FaceDetector_create detection_model) s
          = (Ok detector, s1) ->
        answer W (detector_detect detector image_path true json_path true
                    output_folder) s1 = (Ok detections, s2) ->
        run W (detect_faces image_path detection_model) s =
          (Ok (find (path_exists W s2) candidates,
               if path_exists W s2 json_path then Some json_path else None,
               faces_text detections),
           s2,
           (EvExists image_path true
            :: EvCall (FaceDetector_create detection_model) (RHandle detector)
            :: EvCall (detector_detect detector image_path true json_path
                         true output_folder) (RDetections detections)
            :: asked_until_found W s2 candidates
            ++ match find (path_exists W s2) candidates with
               | Some p => [EvExists p true]
               | None => []
               end
            ++ [EvExists json_path (path_exists W s2 json_path)])%list))
  /\ (forall source_image driving_video reenactor_model
             resize_to_image_resolution reenactor result_path s s1 s2 s3,
        let output_folder :=
          path_join output_dir ["face_reenactment"; reenactor_model] in
        let source_name := fst (splitext (basename source_image)) in
        let driving_name := fst (splitext (basename driving_video)) in
        let output_path :=
          path_join output_folder [source_name ++ "_reenacted"] in
        let patterns :=
          [ "comparison_" ++ source_name ++ "_by_" ++ driving_name ++ ".mp4";
            "comparison_" ++ source_name ++ "_by_*.mp4";
            "comparison_*.mp4" ] in
        let here := first_match W s3 (under output_path patterns) in
        let there :=
          first_match W s3 (under (dirname result_path) patterns) in
        answer W (FaceReenactor_create reenactor_model) s
          = (Ok reenactor, s1) ->
        answer W (os_makedirs output_folder) s1 = (Ok tt, s2) ->
        answer W (reenact_from_video reenactor source_image driving_video
                    output_path true resize_to_image_resolution) s2
          = (Ok result_path, s3) ->
        run W (reenact_face source_image driving_video reenactor_model
                 resize_to_image_resolution) s =
          (Ok (Some result_path,
               if truthy_opt here then here
               else match there with Some p => Some p | None => here end),
           s3,
           (EvCall (FaceReenactor_create reenactor_model) (RHandle reenactor)
            :: EvCall (os_makedirs output_folder) RNone
            :: EvCall (reenact_from_video reenactor source_image
                         driving_video output_path true
                         resize_to_image_resolution) (RPath result_path)
            :: globbed_until_found W s3 (under output_path patterns)
            ++ (if truthy_opt here then []
                else globbed_until_found W s3
                       (under (dirname result_path) patterns)))%list)).
Proof.
  split; [| split; [| split]].
  - intros. apply run_find_annotated.
  - intros. apply run_find_comparison.
  - intros. eapply detect_faces_success; eassumption.
  - intros. eapply reenact_face_success; eassumption.
Qed.

End Operations.

(** ** The risk tier *)

Section RiskTier.
Local Open Scope float_scope.

Lemma SFcompare_swap (a b : spec_float) :
  SFcompare b a = option_map CompOpp (SFcompare a b).
Proof.
  destruct a as [sa | sa | | sa ma ea], b as [sb | sb | | sb mb eb];
    simpl; try reflexivity;
    try (destruct sa; reflexivity); try (destruct sb; reflexivity);
    try (destruct sa, sb; reflexivity).
  destruct sa, sb; simpl; try reflexivity;
    rewrite (Z.compare_antisym ea eb);
    destruct (ea ?= eb)%Z; simpl; try reflexivity;
    change (Pos.compare_cont Eq mb ma) with (mb ?= ma)%positive;
    change (Pos.compare_cont Eq ma mb) with (ma ?= mb)%positive;
    rewrite (Pos.compare_antisym ma mb);
    destruct (ma ?= mb)%positive; reflexivity.
Qed.

(** A float below another is not at or above it. *)
Lemma below_is_not_at_least (x y : float) :
  (x <? y) = true -> (y <=? x) = false.
Proof.
  rewrite ltb_spec, leb_spec. unfold SFltb, SFleb.
  rewrite (SFcompare_swap (Prim2SF x) (Prim2SF y)).
  destruct (SFcompare (Prim2SF x) (Prim2SF y)) as [[| |] |]; simpl;
    intro below; (discriminate below || reflexivity).
Qed.

(** The tier [get_risk_level] computes from a confidence: the highest from
    0.8 on, the medium from 0.6 up to 0.8, the low one otherwise, under the
    labels of the verdict. *)
Lemma get_risk_level_cutoffs (confidence : float) (is_deepfake : bool) :
  ((0.8 <=? confidence) = true ->
   get_risk_level confidence is_deepfake =
     if is_deepfake then "🔴 **HIGH RISK**" else "🟢 **VERY CONFIDENT**")
  /\ ((0.6 <=? confidence) = true -> (confidence <? 0.8) = true ->
      get_risk_level confidence is_deepfake =
        if is_deepfake then "🟡 **MEDIUM RISK**" else "🟡 **CONFIDENT**")
  /\ ((0.8 <=? confidence) = false -> (0.6 <=? confidence) = false ->
      get_risk_level confidence is_deepfake =
        if is_deepfake then "🟠 **LOW RISK**" else "🟠 **UNCERTAIN**").
Proof.
  unfold get_risk_level. repeat split.
  - intros ->. destruct is_deepfake; reflexivity.
  - intros medium below. apply below_is_not_at_least in below.
    rewrite below, medium. destruct is_deepfake; reflexivity.
  - intros -> ->. destruct is_deepfake; reflexivity.
Qed.

(** C7, on the code.  [get_risk_level] computes the tier the claim
    describes, the highest one at confidence 0.8 with a deepfake verdict,
    but the report of that very job (threshold 0.8, verdict deepfake) shows
    none of the six tier labels: the function is never called. *)
Theorem risk_tier_is_computed_but_not_shown :
  (forall confidence is_deepfake,
     ((0.8 <=? confidence) = true ->
      get_risk_level confidence is_deepfake =
        if is_deepfake then "🔴 **HIGH RISK**" else "🟢 **VERY CONFIDENT**")
     /\ ((0.6 <=? confidence) = true -> (confidence <? 0.8) = true ->
         get_risk_level confidence is_deepfake =
           if is_deepfake then "🟡 **MEDIUM RISK**" else "🟡 **CONFIDENT**")
     /\ ((0.8 <=? confidence) = false -> (0.6 <=? confidence) = false ->
         get_risk_level confidence is_deepfake =
           if is_deepfake then "🟠 **LOW RISK**" else "🟠 **UNCERTAIN**"))
  /\ get_risk_level (avg_confidence 0.8 true) true = "🔴 **HIGH RISK**"
  /\ exists text,
       result Worlds.image_only
         (detect_deepfakes Worlds.repr_one_decimal (Some "face.jpg") None
            ["resnet_inception"] 0.8 11) tt = Ok (None, text)
       /\ forallb (fun label => negb (occurs label text)) risk_labels = true
       /\ occurs "[████████████████░░░░] 80.0%" text = true.
Proof.
  split; [exact get_risk_level_cutoffs | split; [reflexivity |]].
  eexists. split; [vm_compute; reflexivity |].
  split; vm_compute; reflexivity.
Qed.

End RiskTier.

(** ** Runs in the sample worlds *)

Section Samples.
Import Worlds.

(** A selection of an unknown model on an existing image. *)
Lemma no_model_selected_is_reported_before_division_witness :
  run image_only
    (detect_deepfakes repr_one_decimal (Some "face.jpg") None ["xception"]
       0.5%float 11) tt
  = (Ok (None, error_no_models), tt, [EvExists "face.jpg" true]).
Proof.
  destruct (@no_model_selected_is_reported_before_division repr_one_decimal
              image_only tt (Some "face.jpg") None ["xception"] 0.5%float 11%Z
              "face.jpg" image) as [shown _];
    [reflexivity | reflexivity | reflexivity |].
  exact shown.
Defined.

(** C2 as stated fails: a request with no registered model and no media is
    answered with the message about the media, not the one about models. *)
Lemma no_media_is_reported_before_no_model :
  result nothing_uploaded
    (detect_deepfakes repr_one_decimal None None [] 0.5%float 11) tt
  = Ok (None, error_no_media)
  /\ result nothing_uploaded
       (detect_deepfakes repr_one_decimal (Some "face.jpg") None ["xception"]
          0.5%float 11) tt
     = Ok (None, error_no_media)
  /\ error_no_media <> error_no_models.
Proof.
  split; [reflexivity | split; [reflexivity |]].
  apply String.eqb_neq. reflexivity.
Qed.

(** The verdict of the sample pipeline on the image, at threshold 0.8. *)
Lemma confidence_is_synthesized_from_threshold_witness :
  exists text,
    result image_only
      (detect_deepfakes repr_one_decimal (Some "face.jpg") None
         ["efficientnet"] 0.8%float 11) tt = Ok (None, text)
    /\ within ("**Pipeline Result**: " ++ "[████████████████░░░░] 80.0%" ++ nl)
         text.
Proof.
  destruct (@confidence_is_synthesized_from_threshold repr_one_decimal
              image_only tt (Some "face.jpg") None ["efficientnet"] 0.8%float 11%Z)
    as [shown _].
  exact (shown 3%nat "face.jpg" "gradio_output/deepfake_detection" true 11%Z
           true (or_intror (or_intror (or_introl eq_refl)))).
Defined.

(** C4 as stated fails: a request that supplies both an image and a video
    is processed, on the image. *)
Lemma both_media_inputs_are_processed :
  exists text,
    run both_media
      (detect_deepfakes repr_one_decimal (Some "face.jpg") (Some "clip.mp4")
         ["resnet_inception"] 0.5%float 11) tt
    = (Ok (None, text), tt,
       [EvExists "face.jpg" true;
        EvCall (PipelineDeepfakeDetection [("resnet_inception", 1.0%float)] None 0.5%float)
          (RHandle 3);
        EvCall (pipeline_detect 3 "face.jpg" "gradio_output/deepfake_detection"
                  true 11) (RBool false)])
    /\ String.prefix "# 🎬 **Image Analysis Results**" text = true
    /\ occurs "Please upload either an image or video file" text = false.
Proof.
  eexists. split; [vm_compute; reflexivity |].
  split; vm_compute; reflexivity.
Qed.

Lemma media_is_validated_for_presence_only_witness :
  exists weights r,
    In (EvCall (PipelineDeepfakeDetection weights None 0.5%float) r)
       (trace both_media
          (detect_deepfakes repr_one_decimal (Some "face.jpg")
             (Some "clip.mp4") ["resnet_inception"] 0.5%float 11) tt)
    /\ forall pipeline,
         r = RHandle pipeline ->
         exists answered,
           In (EvCall (pipeline_detect pipeline "face.jpg"
                         "gradio_output/deepfake_detection" true 11) answered)
              (trace both_media
                 (detect_deepfakes repr_one_decimal (Some "face.jpg")
                    (Some "clip.mp4") ["resnet_inception"] 0.5%float 11) tt).
Proof.
  destruct (@media_is_validated_for_presence_only repr_one_decimal both_media
              tt (Some "face.jpg") (Some "clip.mp4") ["resnet_inception"]
              0.5%float 11%Z) as [_ [_ processed]].
  exact (processed "face.jpg" image eq_refl eq_refl).
Defined.

(** Two jobs on the same image with the same verdict, one of them given a
    video too, in two worlds. *)
Lemma report_is_deterministic_witness :
  exists text,
    result both_media
      (detect_deepfakes repr_one_decimal (Some "face.jpg") (Some "clip.mp4")
         ["resnet_inception"; "efficientnet"] 0.5%float 11) tt = Ok (None, text)
    /\ result image_authentic
         (detect_deepfakes repr_one_decimal (Some "face.jpg") None
            ["resnet_inception"; "efficientnet"] 0.5%float 11) tt = Ok (None, text).
Proof.
  apply (@report_is_deterministic repr_one_decimal both_media image_authentic
           tt tt (Some "face.jpg") (Some "clip.mp4") (Some "face.jpg") None
           ["resnet_inception"; "efficientnet"] 0.5%float 11%Z "face.jpg" image
           false 3%nat 3%nat "gradio_output/deepfake_detection"
           "gradio_output/deepfake_detection" true true 11%Z 11%Z);
    try reflexivity;
    right; right; left; reflexivity.
Defined.

(** The detector wrote [face_detection.jpg] and [face_detected.jpg]: the
    second expected name is found before the third. *)
Lemma artifact_searches_return_the_first_match_witness :
  result two_annotations (detect_faces "face.jpg" "blazeface") tt
  = Ok (Some "gradio_output/face_detection/blazeface/face_detected.jpg",
        None, "Found 0 face(s)" ++ nl ++ nl).
Proof.
  destruct (@artifact_searches_return_the_first_match two_annotations)
    as [_ [_ [faces _]]].
  exact (f_equal (fun r => fst (fst r))
           (faces "face.jpg" "blazeface" 1%nat [] tt tt tt eq_refl eq_refl
              eq_refl eq_refl)).
Defined.

(** C6 as stated fails.  detect_faces asks for no glob: an annotated image
    under another name, which any pattern would match, is not found.
    reenact_face looks a second time in the directory of the result path,
    here the output path again, with all three patterns: a comparison video
    one directory above the output path is not found, and one next to a
    result in that directory is found by its exact name. *)
Lemma artifact_searches_are_not_the_four_steps :
  run renamed_annotation (detect_faces "face.jpg" "blazeface") tt
  = (Ok (None, None, "Found 0 face(s)" ++ nl ++ nl), tt,
     [EvExists "face.jpg" true;
      EvCall (FaceDetector_create "blazeface") (RHandle 1);
      EvCall (detector_detect 1 "face.jpg" true
                "gradio_output/face_detection/blazeface/detections.json" true
                "gradio_output/face_detection/blazeface") (RDetections []);
      EvExists "gradio_output/face_detection/blazeface/face_annotated.jpg"
        false;
      EvExists "gradio_output/face_detection/blazeface/face_detected.jpg"
        false;
      EvExists "gradio_output/face_detection/blazeface/face_detection.jpg"
        false;
      EvExists "gradio_output/face_detection/blazeface/detections.json"
        false])
  /\ glob_matches renamed_annotation tt
       "gradio_output/face_detection/blazeface/*"
     = ["gradio_output/face_detection/blazeface/face_boxes.jpg"]
  /\ run comparison_above (reenact_face "face.jpg" "drive.mp4" "tps" false) tt
     = (Ok (Some "gradio_output/face_reenactment/tps/face_reenacted/result.mp4",
            None), tt,
        [EvCall (FaceReenactor_create "tps") (RHandle 2);
         EvCall (os_makedirs "gradio_output/face_reenactment/tps") RNone;
         EvCall (reenact_from_video 2 "face.jpg" "drive.mp4"
                   "gradio_output/face_reenactment/tps/face_reenacted" true
                   false)
           (RPath "gradio_output/face_reenactment/tps/face_reenacted/result.mp4");
         EvGlob "gradio_output/face_reenactment/tps/face_reenacted/comparison_face_by_drive.mp4" [];
         EvGlob "gradio_output/face_reenactment/tps/face_reenacted/comparison_face_by_*.mp4" [];
         EvGlob "gradio_output/face_reenactment/tps/face_reenacted/comparison_*.mp4" [];
         EvGlob "gradio_output/face_reenactment/tps/face_reenacted/comparison_face_by_drive.mp4" [];
         EvGlob "gradio_output/face_reenactment/tps/face_reenacted/comparison_face_by_*.mp4" [];
         EvGlob "gradio_output/face_reenactment/tps/face_reenacted/comparison_*.mp4" []])
  /\ glob_matches comparison_above tt
       "gradio_output/face_reenactment/tps/comparison_face_by_drive.mp4"
     = ["gradio_output/face_reenactment/tps/comparison_face_by_drive.mp4"]
  /\ run comparison_beside (reenact_face "face.jpg" "drive.mp4" "tps" false) tt
     = (Ok (Some "gradio_output/face_reenactment/tps/face_reenacted.mp4",
            Some "gradio_output/face_reenactment/tps/comparison_face_by_drive.mp4"),
        tt,
        [EvCall (FaceReenactor_create "tps") (RHandle 2);
         EvCall (os_makedirs "gradio_output/face_reenactment/tps") RNone;
         EvCall (reenact_from_video 2 "face.jpg" "drive.mp4"
                   "gradio_output/face_reenactment/tps/face_reenacted" true
                   false)
           (RPath "gradio_output/face_reenactment/tps/face_reenacted.mp4");
         EvGlob "gradio_output/face_reenactment/tps/face_reenacted/comparison_face_by_drive.mp4" [];
         EvGlob "gradio_output/face_reenactment/tps/face_reenacted/comparison_face_by_*.mp4" [];
         EvGlob "gradio_output/face_reenactment/tps/face_reenacted/comparison_*.mp4" [];
         EvGlob "gradio_output/face_reenactment/tps/comparison_face_by_drive.mp4"
           ["gradio_output/face_reenactment/tps/comparison_face_by_drive.mp4"]]).
Proof. repeat split. Qed.

(** A confidence of 0.7 is in the medium tier. *)
Lemma risk_tier_is_computed_but_not_shown_witness :
  get_risk_level 0.7%float true = "🟡 **MEDIUM RISK**"
  /\ get_risk_level 0.7%float false = "🟡 **CONFIDENT**".
Proof.
  destruct risk_tier_is_computed_but_not_shown as [cutoffs _].
  split.
  - exact (proj1 (proj2 (cutoffs 0.7%float true)) eq_refl eq_refl).
  - exact (proj1 (proj2 (cutoffs 0.7%float false)) eq_refl eq_refl).
Defined.

End Samples.

(** ** Every run of detect_faces *)

Section FaceRuns.
Variable W : World.

(** Every run of detect_faces is one of the five. *)
Lemma detect_faces_is_a_faces_run (image_path detection_model : string)
    (s : state W) :
  faces_run W s image_path detection_model
    (run W (detect_faces image_path detection_model) s).
Proof.
  destruct (truthy image_path) eqn:nonempty.
  2:{ unfold detect_faces, detect_faces_body.
      rewrite run_try_except_ret, nonempty. cbn [negb run].
      now apply faces_no_image. }
  destruct (path_exists W s image_path) eqn:there.
  2:{ unfold detect_faces, detect_faces_body.
      rewrite run_try_except_ret, nonempty. cbn [negb].
      rewrite run_bind, run_os_path_exists, there. cbn [negb run app].
      now apply faces_not_found. }
  destruct (answer W (FaceDetector_create detection_model) s)
    as [[detector | e] s1] eqn:created.
  2:{ unfold detect_faces, detect_faces_body.
      rewrite run_try_except_ret, nonempty. cbn [negb].
      rewrite run_bind, run_os_path_exists, there. cbn [negb run].
      rewrite created. unfold returned_of.
      pose proof (@faces_no_detector W s image_path detection_model e s1
                    nonempty there created) as failed.
      revert failed. unfold detector_error, caught.
      destruct (is_Exception e) eqn:handled; cbn [run app];
        rewrite ?handled; intro failed; exact failed. }
  destruct (answer W (detector_detect detector image_path true
                        (detection_json detection_model) true
                        (detection_folder detection_model)) s1)
    as [[detections | e] s2] eqn:detected.
  - pose proof (@detect_faces_success W image_path detection_model detector
                  detections s s1 s2 nonempty there created detected) as ok.
    cbv zeta in ok. rewrite ok.
    eapply faces_detected; eassumption.
  - unfold detect_faces, detect_faces_body.
    rewrite run_try_except_ret, nonempty. cbn [negb].
    rewrite run_bind, run_os_path_exists, there. cbn [negb run].
    rewrite created.
    change (path_join output_dir ["face_detection"; detection_model])
      with (detection_folder detection_model).
    change (path_join (detection_folder detection_model) ["detections.json"])
      with (detection_json detection_model).
    rewrite run_bind, run_detect, detected. cbn [fst snd run app returned_of].
    eapply faces_detect_failure; eassumption.
Qed.

(** What gets out of detect_faces is not for [except Exception] and was
    raised by one of its two calls. *)
Lemma detect_faces_lets_through (image_path detection_model : string)
    (s : state W) (e : exn) :
  result W (detect_faces image_path detection_model) s = Raise e ->
  is_Exception e = false
  /\ exists c,
       In (EvCall c (RRaised e))
          (trace W (detect_faces image_path detection_model) s).
Proof.
  unfold result, trace.
  destruct (detect_faces_is_a_faces_run image_path detection_model s)
    as [empty | nonempty missing | e' s1 nonempty there failed
        | detector e' s1 s2 nonempty there created failed
        | detector detections s1 s2 nonempty there created detected];
    cbn [fst snd]; try discriminate;
    unfold detector_error, faces_error, caught;
    destruct (is_Exception e') eqn:handled; try discriminate;
    intro same; injection same as <-; (split; [exact handled |]);
    eexists.
  - right. now left.
  - right. right. now left.
Qed.

End FaceRuns.

(** ** What detect_faces calls and what it answers *)

Section FaceFacts.
Variable W : World.

Lemma asked_until_found_queries (s : state W) (paths : list string)
    (c : call) (r : returned) :
  ~ In (EvCall c r) (asked_until_found W s paths).
Proof.
  induction paths as [| p rest IH]; simpl; [tauto |].
  intros [impossible | inside]; [discriminate impossible |].
  destruct (path_exists W s p); [contradiction | now apply IH].
Qed.

(** X1.  Every call detect_faces makes is made for an image path that is
    not empty and exists: it creates the detector of the selected model, or
    it runs the detector that creation returned, on the image, asking for
    the JSON file and the annotated image in the model's folder under the
    output directory. *)
Theorem detect_faces_calls_only_its_detector (s : state W)
    (image_path detection_model : string) (c : call) (r : returned) :
  In (EvCall c r) (trace W (detect_faces image_path detection_model) s) ->
  let output_folder :=
    path_join output_dir ["face_detection"; detection_model] in
  truthy image_path = true
  /\ path_exists W s image_path = true
  /\ (c = FaceDetector_create detection_model
      \/ exists detector,
           c = detector_detect detector image_path true
                 (path_join output_folder ["detections.json"]) true
                 output_folder
           /\ In (EvCall (FaceDetector_create detection_model)
                    (RHandle detector))
                 (trace W (detect_faces image_path detection_model) s)).
Proof.
  unfold trace.
  destruct (detect_faces_is_a_faces_run W image_path detection_model s)
    as [empty | nonempty missing | e s1 nonempty there failed
        | detector e s1 s2 nonempty there created failed
        | detector detections s1 s2 nonempty there created detected];
    cbn [snd]; intros called.
  - contradiction.
  - destruct called as [called | []]. discriminate called.
  - destruct called as [called | [called | []]]; [discriminate called |].
    injection called as <- _. repeat split; trivial. now left.
  - destruct called as [called | [called | [called | []]]];
      [discriminate called | |]; injection called as <- _;
      repeat split; trivial; [now left |].
    right. exists detector. split; [reflexivity |]. right. now left.
  - destruct called as [called | [called | [called | called]]];
      [discriminate called | | |].
    + injection called as <- _. repeat split; trivial. now left.
    + injection called as <- _. repeat split; trivial.
      right. exists detector. split; [reflexivity |]. right. now left.
    + exfalso. apply in_app_or in called. destruct called as [called | called].
      * now apply asked_until_found_queries in called.
      * apply in_app_or in called. destruct called as [called | called].
        -- destruct (find (path_exists W s2)
                       (annotated_candidates image_path detection_model));
             [destruct called as [called | []]; discriminate called
             | contradiction].
        -- destruct called as [called | []]. discriminate called.
Qed.

Lemma prefix_append (a b : string) : String.prefix a (a ++ b) = true.
Proof.
  induction a as [| ch a IH]; simpl.
  - destruct b; reflexivity.
  - destruct (ascii_dec ch ch) as [_ | different]; [exact IH | congruence].
Qed.

(** X2.  Unless one of its two calls raised an exception that
    [except Exception] does not handle, which then reaches the caller,
    detect_faces answers, either with an error, which starts with [Error]
    and carries no path, or with the report of a detection, which starts
    with [Found].  In a report, an annotated image path is one of the three
    expected names in the model's folder and exists when the job ends, and
    a JSON path is [detections.json] in that folder and exists as well. *)
Theorem detect_faces_answers_with_paths_that_exist (s : state W)
    (image_path detection_model : string) :
  let output_folder :=
    path_join output_dir ["face_detection"; detection_model] in
  let name := fst (splitext (basename image_path)) in
  let ext := snd (splitext (basename image_path)) in
  (exists e c final events,
     run W (detect_faces image_path detection_model) s
       = (Raise e, final, events)
     /\ is_Exception e = false
     /\ In (EvCall c (RRaised e)) events)
  \/ exists annotated json text final events,
       run W (detect_faces image_path detection_model) s
         = (Ok (annotated, json, text), final, events)
       /\ ((annotated = None /\ json = None
            /\ String.prefix "Error" text = true)
           \/ (String.prefix "Found " text = true
               /\ (forall p, annotated = Some p ->
                     In p (map (fun n => path_join output_folder [n])
                             [name ++ "_annotated" ++ ext;
                              name ++ "_detected" ++ ext;
                              name ++ "_detection" ++ ext])
                     /\ path_exists W final p = true)
               /\ (forall q, json = Some q ->
                     q = path_join output_folder ["detections.json"]
                     /\ path_exists W final q = true))).
Proof.
  intros output_folder name ext.
  destruct (detect_faces_is_a_faces_run W image_path detection_model s)
    as [empty | nonempty missing | e s1 nonempty there failed
        | detector e s1 s2 nonempty there created failed
        | detector detections s1 s2 nonempty there created detected].
  - right. eexists _, _, _, _, _. split; [reflexivity |].
    left. repeat split; reflexivity.
  - right. eexists _, _, _, _, _. split; [reflexivity |].
    left. repeat split; reflexivity.
  - unfold detector_error, caught. destruct (is_Exception e) eqn:handled.
    + right. eexists _, _, _, _, _. split; [reflexivity |].
      left. repeat split; reflexivity.
    + left. eexists e, _, _, _. split; [reflexivity |].
      split; [exact handled | right; now left].
  - unfold faces_error, caught. destruct (is_Exception e) eqn:handled.
    + right. eexists _, _, _, _, _. split; [reflexivity |].
      left. repeat split; reflexivity.
    + left. eexists e, _, _, _. split; [reflexivity |].
      split; [exact handled | right; right; now left].
  - right. eexists _, _, _, _, _. split; [reflexivity |].
    right. split; [apply prefix_append |]. split.
    + intros p found. apply find_some in found. exact found.
    + intros q kept.
      destruct (path_exists W s2 (detection_json detection_model))
        eqn:written; [| discriminate kept].
      injection kept as <-. split; [reflexivity | exact written].
Qed.

End FaceFacts.

(** ** The text of a face detection *)

Section FaceText.

Lemma face_lines_cons (i : Z) (d : Detection) (rest : list Detection) :
  face_lines i (d :: rest) = face_block (i + 1) d ++ face_lines (i + 1) rest.
Proof.
  unfold face_block. cbn [face_lines]. now rewrite !append_assoc.
Qed.

Lemma face_lines_within (detections : list Detection) :
  forall (i : Z) (k : nat) (d : Detection),
    nth_error detections k = Some d ->
    within (face_block (i + Z.of_nat k + 1) d) (face_lines i detections).
Proof.
  induction detections as [| first rest IH]; intros i k d at_k.
  - destruct k; discriminate at_k.
  - rewrite face_lines_cons. destruct k as [| k].
    + injection at_k as ->.
      replace (i + Z.of_nat 0 + 1)%Z with (i + 1)%Z by lia.
      apply within_here.
    + apply within_after.
      replace (i + Z.of_nat (S k) + 1)%Z with (i + 1 + Z.of_nat k + 1)%Z
        by lia.
      now apply IH.
Qed.

(** X3.  The text of a detection starts with the number of faces found,
    also when there is none, and the face at position [k] of the detector's list, counted from zero, is
    reported as face [k + 1] with its own confidence, to three decimals, and
    its own bounding box. *)
Theorem faces_text_reports_each_face_under_its_number
    (detections : list Detection) :
  String.prefix
    ("Found " ++ str_of_int (Z.of_nat (List.length detections)) ++ " face(s)")
    (faces_text detections) = true
  /\ forall (k : nat) (d : Detection),
       nth_error detections k = Some d ->
       within
         ("Face " ++ str_of_int (Z.of_nat k + 1) ++ ":" ++ nl
          ++ "  Confidence: " ++ format_fixed 3 (confidence (bbox d)) ++ nl
          ++ "  Bounding Box: (" ++ str_of_int (x1 (bbox d)) ++ ", "
          ++ str_of_int (y1 (bbox d)) ++ ", " ++ str_of_int (x2 (bbox d))
          ++ ", " ++ str_of_int (y2 (bbox d)) ++ ")" ++ nl ++ nl)
         (faces_text detections).
Proof.
  split.
  - assert (faces_text detections
            = ("Found " ++ str_of_int (Z.of_nat (List.length detections))
               ++ " face(s)") ++ nl ++ nl ++ face_lines 0 detections) as ->
      by (unfold faces_text; now rewrite !append_assoc).
    apply prefix_append.
  - intros k d at_k. unfold faces_text. do 5 apply within_after.
    exact (face_lines_within detections 0 k at_k).
Qed.

End FaceText.

(** ** Where the output paths lie *)

Section Paths.

Lemma has_slash_append (a b : string) :
  has_slash (a ++ b) = has_slash a || has_slash b.
Proof.
  induction a as [| ch a IH]; simpl; [reflexivity |].
  rewrite IH. apply orb_assoc.
Qed.

Lemma basename_no_slash (p : string) : has_slash (basename p) = false.
Proof.
  induction p as [| ch r IH]; simpl; [reflexivity |].
  destruct (has_slash r) eqn:deeper; [exact IH |].
  destruct (is_slash ch) eqn:here; [exact deeper |].
  simpl. now rewrite here, deeper.
Qed.

Lemma basename_of_name (b : string) : has_slash b = false -> basename b = b.
Proof.
  destruct b as [| ch r]; simpl; [reflexivity |].
  intro plain. apply orb_false_elim in plain. destruct plain as [here deeper].
  now rewrite deeper, here.
Qed.

Lemma head_part_of_name (b : string) :
  has_slash b = false -> head_part b = EmptyString.
Proof.
  destruct b as [| ch r]; simpl; [reflexivity |].
  intro plain. apply orb_false_elim in plain. destruct plain as [here deeper].
  now rewrite deeper, here.
Qed.

Lemma split_last_dot_parts (b a e : string) :
  split_last_dot b = Some (a, e) -> b = a ++ e.
Proof.
  revert a e. induction b as [| ch r IH]; intros a e; simpl; [easy |].
  destruct (split_last_dot r) as [[a' e'] |].
  - intro at_dot. injection at_dot as <- <-. simpl. now rewrite (IH a' e').
  - destruct (is_dot ch); [| easy].
    intro at_dot. injection at_dot as <- <-. reflexivity.
Qed.

(** The stem and the extension of a file name hold no slash. *)
Lemma splitext_of_name (b : string) :
  has_slash b = false ->
  has_slash (fst (splitext b)) = false /\ has_slash (snd (splitext b)) = false.
Proof.
  intro plain. unfold splitext.
  rewrite (basename_of_name b plain), (head_part_of_name b plain).
  destruct (split_last_dot b) as [[a e] |] eqn:at_dot; [| now split].
  destruct (all_chars is_dot a); [now split |].
  apply split_last_dot_parts in at_dot. subst b.
  rewrite has_slash_append in plain. apply orb_false_elim in plain.
  exact plain.
Qed.

Lemma starts_with_slash_append (a b : string) :
  has_slash a = false -> starts_with_slash b = false ->
  starts_with_slash (a ++ b) = false.
Proof.
  destruct a as [| ch a]; simpl; [trivial |].
  intros plain _. apply orb_false_elim in plain. exact (proj1 plain).
Qed.

Lemma path_join2_prefix (a b : string) :
  starts_with_slash b = false -> String.prefix a (path_join2 a b) = true.
Proof.
  intro relative. unfold path_join2. rewrite relative.
  destruct (negb (truthy a) || last_is_slash a); apply prefix_append.
Qed.

(** X4.  Whatever the image, source and driving paths are, every path
    detect_faces checks lies in the model's detection folder, the output
    path of a reenactment lies in the model's reenactment folder, and every
    pattern reenact_face globs lies in the directory it searches.  For a
    model name that does not start with a slash these folders are
    [gradio_output/face_detection/<model>] and
    [gradio_output/face_reenactment/<model>]; a model name that starts with
    a slash is itself the folder, outside the output directory. *)
Theorem artifacts_are_sought_inside_their_folder :
  (forall image_path detection_model p,
     let output_folder :=
       path_join output_dir ["face_detection"; detection_model] in
     let name := fst (splitext (basename image_path)) in
     let ext := snd (splitext (basename image_path)) in
     In p (path_join output_folder ["detections.json"]
           :: map (fun n => path_join output_folder [n])
                (possible_names name ext)) ->
     String.prefix output_folder p = true)
  /\ (forall source_image reenactor_model,
        let output_folder :=
          path_join output_dir ["face_reenactment"; reenactor_model] in
        let source_name := fst (splitext (basename source_image)) in
        String.prefix output_folder
          (path_join output_folder [source_name ++ "_reenacted"]) = true)
  /\ (forall dir source_name driving_name q,
        In q (map (fun pattern => path_join dir [pattern])
                (comparison_patterns source_name driving_name)) ->
        String.prefix dir q = true)
  /\ (forall model,
        starts_with_slash model = false ->
        path_join output_dir ["face_detection"; model]
          = "gradio_output/face_detection/" ++ model
        /\ path_join output_dir ["face_reenactment"; model]
           = "gradio_output/face_reenactment/" ++ model)
  /\ (forall model,
        starts_with_slash model = true ->
        path_join output_dir ["face_detection"; model] = model
        /\ path_join output_dir ["face_reenactment"; model] = model).
Proof.
  repeat match goal with |- _ /\ _ => split end.
  - intros image_path detection_model p output_folder name ext listed.
    destruct (splitext_of_name (basename image_path)
                (basename_no_slash image_path)) as [plain_name plain_ext].
    fold name in plain_name.
    destruct listed as [<- | listed]; [now apply path_join2_prefix |].
    unfold possible_names in listed.
    destruct listed as [<- | [<- | [<- | []]]];
      apply path_join2_prefix; now apply starts_with_slash_append.
  - intros source_image reenactor_model output_folder source_name.
    destruct (splitext_of_name (basename source_image)
                (basename_no_slash source_image)) as [plain_name _].
    apply path_join2_prefix. now apply starts_with_slash_append.
  - intros dir source_name driving_name q listed.
    unfold comparison_patterns in listed.
    destruct listed as [<- | [<- | [<- | []]]];
      now apply path_join2_prefix.
  - intros model relative. unfold path_join, output_dir. simpl fold_left.
    unfold path_join2 at 1 3. rewrite relative. split; reflexivity.
  - intros model absolute. unfold path_join, output_dir. simpl fold_left.
    unfold path_join2 at 1 3. rewrite absolute. split; reflexivity.
Qed.

End Paths.

(** ** Every run of reenact_face *)

Section ReenactRuns.
Variable W : World.

Lemma globbed_until_found_globs (s : state W) (patterns : list string)
    (ev : event) :
  In ev (globbed_until_found W s patterns) ->
  exists q, In q patterns /\ ev = EvGlob q (glob_matches W s q).
Proof.
  induction patterns as [| p rest IH]; simpl; [tauto |].
  intros [<- | inside].
  - exists p. split; [now left | reflexivity].
  - destruct (glob_matches W s p); [| contradiction].
    destruct (IH inside) as [q [listed ->]]. exists q. split; [now right |].
    reflexivity.
Qed.

Lemma first_file_is_a_head (lists : list (list string)) (p : string) :
  first_file lists = Some p -> exists rest, In (p :: rest) lists.
Proof.
  induction lists as [| l lists IH]; simpl; [discriminate |].
  destruct l as [| f others].
  - intro found. destruct (IH found) as [rest listed]. exists rest. now right.
  - intro found. injection found as ->. exists others. now left.
Qed.

Lemma first_match_is_matched (s : state W) (patterns : list string)
    (p : string) :
  first_match W s patterns = Some p ->
  exists q rest, In q patterns /\ glob_matches W s q = p :: rest.
Proof.
  unfold first_match. intro found.
  apply first_file_is_a_head in found. destruct found as [rest listed].
  apply in_map_iff in listed. destruct listed as [q [matched listed]].
  now exists q, rest.
Qed.

Lemma run_reenact_face (source_image driving_video reenactor_model : string)
    (resize_to_image_resolution : bool) (s : state W) :
  run W (reenact_face source_image driving_video reenactor_model
           resize_to_image_resolution) s =
    match run W (reenact_face_body source_image driving_video
                   reenactor_model resize_to_image_resolution) s with
    | (Ok a, s1, t1) => (Ok a, s1, t1)
    | (Raise e, s1, t1) => (reenact_error e, s1, t1)
    end.
Proof.
  exact (@run_try_except_ret W reenact_response
           (reenact_face_body source_image driving_video reenactor_model
              resize_to_image_resolution)
           (fun _ => (None, None)) s).
Qed.

(** The four ways a reenactment goes. *)
Lemma reenact_face_cases (source_image driving_video reenactor_model : string)
    (resize_to_image_resolution : bool) (s : state W) :
  let create := FaceReenactor_create reenactor_model in
  let mkdir := os_makedirs (reenactment_folder reenactor_model) in
  let reenact_with reenactor :=
    reenact_from_video reenactor source_image driving_video
      (reenactment_output source_image reenactor_model) true
      resize_to_image_resolution in
  let patterns := reenactment_patterns source_image driving_video in
  let ran :=
    run W (reenact_face source_image driving_video reenactor_model
             resize_to_image_resolution) s in
  (exists e s1,
     answer W create s = (Raise e, s1)
     /\ ran = (reenact_error e, s1, [EvCall create (RRaised e)]))
  \/ (exists reenactor e s1 s2,
        answer W create s = (Ok reenactor, s1)
        /\ answer W mkdir s1 = (Raise e, s2)
        /\ ran = (reenact_error e, s2,
                  [EvCall create (RHandle reenactor);
                   EvCall mkdir (RRaised e)]))
  \/ (exists reenactor e s1 s2 s3,
        answer W create s = (Ok reenactor, s1)
        /\ answer W mkdir s1 = (Ok tt, s2)
        /\ answer W (reenact_with reenactor) s2 = (Raise e, s3)
        /\ ran = (reenact_error e, s3,
                  [EvCall create (RHandle reenactor); EvCall mkdir RNone;
                   EvCall (reenact_with reenactor) (RRaised e)]))
  \/ (exists reenactor result_path s1 s2 s3,
        let here :=
          first_match W s3
            (under (reenactment_output source_image reenactor_model)
               patterns) in
        let there :=
          first_match W s3 (under (dirname result_path) patterns) in
        answer W create s = (Ok reenactor, s1)
        /\ answer W mkdir s1 = (Ok tt, s2)
        /\ answer W (reenact_with reenactor) s2 = (Ok result_path, s3)
        /\ ran = (Ok (Some result_path,
                      if truthy_opt here then here
                      else match there with
                           | Some p => Some p
                           | None => here
                           end), s3,
                  (EvCall create (RHandle reenactor)
                   :: EvCall mkdir RNone
                   :: EvCall (reenact_with reenactor) (RPath result_path)
                   :: globbed_until_found W s3
                        (under (reenactment_output source_image
                                  reenactor_model) patterns)
                   ++ (if truthy_opt here then []
                       else globbed_until_found W s3
                              (under (dirname result_path) patterns)))%list)).
Proof.
  intros create mkdir reenact_with patterns ran.
  destruct (answer W create s) as [[reenactor | e] s1] eqn:created.
  2:{ left. exists e, s1. split; [(assumption || reflexivity) |].
      subst ran. rewrite run_reenact_face. unfold reenact_face_body.
      rewrite (@run_bind W), (@run_create_reenactor W).
      fold create. rewrite created. reflexivity. }
  destruct (answer W mkdir s1) as [[[] | e] s2] eqn:made.
  2:{ right. left. exists reenactor, e, s1, s2.
      split; [(assumption || reflexivity) | split; [(assumption || reflexivity) |]].
      subst ran. rewrite run_reenact_face. unfold reenact_face_body.
      rewrite (@run_bind W), (@run_create_reenactor W).
      fold create. rewrite created. cbn [fst snd].
      rewrite (@run_bind W), (@run_makedirs W).
      change (os_makedirs
                (path_join output_dir ["face_reenactment"; reenactor_model]))
        with mkdir.
      rewrite made. reflexivity. }
  destruct (answer W (reenact_with reenactor) s2)
    as [[result_path | e] s3] eqn:reenacted.
  - right. right. right. exists reenactor, result_path, s1, s2, s3.
    split; [(assumption || reflexivity) | split; [(assumption || reflexivity) | split; [(assumption || reflexivity) |]]].
    subst ran.
    exact (@reenact_face_success W source_image driving_video reenactor_model
             resize_to_image_resolution reenactor result_path s s1 s2 s3
             created made reenacted).
  - right. right. left. exists reenactor, e, s1, s2, s3.
    split; [(assumption || reflexivity) | split; [(assumption || reflexivity) | split; [(assumption || reflexivity) |]]].
    subst ran. rewrite run_reenact_face. unfold reenact_face_body.
    rewrite (@run_bind W), (@run_create_reenactor W).
    fold create. rewrite created. cbn [fst snd].
    rewrite (@run_bind W), (@run_makedirs W).
    change (os_makedirs
              (path_join output_dir ["face_reenactment"; reenactor_model]))
      with mkdir.
    rewrite made. cbn [fst snd].
    rewrite (@run_bind W), (@run_reenact W).
    change (reenact_from_video reenactor source_image driving_video _ true
              resize_to_image_resolution) with (reenact_with reenactor).
    rewrite reenacted. reflexivity.
Qed.

(** What gets out of reenact_face is not for [except Exception] and was
    raised by one of its three calls. *)
Lemma reenact_face_lets_through
    (source_image driving_video reenactor_model : string)
    (resize_to_image_resolution : bool) (s : state W) (e : exn) :
  result W (reenact_face source_image driving_video reenactor_model
              resize_to_image_resolution) s = Raise e ->
  is_Exception e = false
  /\ exists c,
       In (EvCall c (RRaised e))
          (trace W (reenact_face source_image driving_video reenactor_model
                      resize_to_image_resolution) s).
Proof.
  unfold result, trace.
  destruct (reenact_face_cases source_image driving_video reenactor_model
              resize_to_image_resolution s)
    as [[e' [s1 [created ->]]]
        | [[reenactor [e' [s1 [s2 [created [made ->]]]]]]
        | [[reenactor [e' [s1 [s2 [s3 [created [made [failed ->]]]]]]]]
        | [reenactor [result_path [s1 [s2 [s3 [created [made [done ->]]]]]]]]]]];
    cbn [fst snd]; try discriminate;
    unfold reenact_error, caught;
    destruct (is_Exception e') eqn:handled; try discriminate;
    intro same; injection same as <-; (split; [exact handled |]);
    eexists.
  - now left.
  - right. now left.
  - right. right. now left.
Qed.

End ReenactRuns.

(** ** What reenact_face calls and what it answers *)

Section ReenactFacts.
Variable W : World.

Lemma globbed_until_found_only_globs (s : state W) (patterns : list string)
    (ev : event) :
  In ev (globbed_until_found W s patterns) -> is_glob ev.
Proof.
  intro inside. apply globbed_until_found_globs in inside.
  destruct inside as [q [_ ->]]. exact I.
Qed.

(** The events after the three calls of a reenactment that succeeded. *)
Lemma searched_only_globs (s : state W) (first second : list string)
    (skip : bool) (ev : event) :
  In ev (globbed_until_found W s first
         ++ (if skip then [] else globbed_until_found W s second))%list ->
  is_glob ev.
Proof.
  intro inside. apply in_app_or in inside. destruct inside as [inside | inside].
  - now apply globbed_until_found_only_globs in inside.
  - destruct skip; [contradiction |].
    now apply globbed_until_found_only_globs in inside.
Qed.

(** X5.  reenact_face calls, in this order and each only after the one
    before returned: the creation of the reenactor of the selected model,
    the creation of the model's folder under the output directory, and the
    reenactment by the reenactor that was created, from the source image and
    the driving video as given, into [<folder>/<source stem>_reenacted],
    with the comparison video asked for.  It globs only after the
    reenactment returned a result path, and it never asks whether a file
    exists: its inputs are not checked. *)
Theorem reenact_face_calls_in_order (s : state W)
    (source_image driving_video reenactor_model : string)
    (resize_to_image_resolution : bool) :
  let output_folder :=
    path_join output_dir ["face_reenactment"; reenactor_model] in
  let output_path :=
    path_join output_folder
      [fst (splitext (basename source_image)) ++ "_reenacted"] in
  let events :=
    trace W (reenact_face source_image driving_video reenactor_model
               resize_to_image_resolution) s in
  (forall c r,
     In (EvCall c r) events ->
     c = FaceReenactor_create reenactor_model
     \/ (c = os_makedirs output_folder
         /\ exists reenactor,
              In (EvCall (FaceReenactor_create reenactor_model)
                    (RHandle reenactor)) events)
     \/ (exists reenactor,
           c = reenact_from_video reenactor source_image driving_video
                 output_path true resize_to_image_resolution
           /\ In (EvCall (FaceReenactor_create reenactor_model)
                    (RHandle reenactor)) events
           /\ In (EvCall (os_makedirs output_folder) RNone) events))
  /\ (forall pattern files,
        In (EvGlob pattern files) events ->
        exists reenactor result_path,
          In (EvCall (reenact_from_video reenactor source_image driving_video
                        output_path true resize_to_image_resolution)
                (RPath result_path)) events)
  /\ (forall path found, ~ In (EvExists path found) events).
Proof.
  intros output_folder output_path events. subst events. unfold trace.
  destruct (reenact_face_cases W source_image driving_video reenactor_model
              resize_to_image_resolution s)
    as [[e [s1 [created ->]]]
        | [[reenactor [e [s1 [s2 [created [made ->]]]]]]
        | [[reenactor [e [s1 [s2 [s3 [created [made [failed ->]]]]]]]]
        | [reenactor [result_path [s1 [s2 [s3 [created [made [done ->]]]]]]]]]]];
    cbn [snd]; (split; [| split]).
  - intros c r [called | []]. injection called as <- _. now left.
  - intros pattern files [impossible | []]. discriminate impossible.
  - intros path found [impossible | []]. discriminate impossible.
  - intros c r [called | [called | []]]; injection called as <- _.
    + now left.
    + right. left. split; [reflexivity |]. exists reenactor. now left.
  - intros pattern files [impossible | [impossible | []]];
      discriminate impossible.
  - intros path found [impossible | [impossible | []]];
      discriminate impossible.
  - intros c r [called | [called | [called | []]]]; injection called as <- _.
    + now left.
    + right. left. split; [reflexivity |]. exists reenactor. now left.
    + right. right. exists reenactor. split; [reflexivity |].
      split; [now left | right; now left].
  - intros pattern files [impossible | [impossible | [impossible | []]]];
      discriminate impossible.
  - intros path found [impossible | [impossible | [impossible | []]]];
      discriminate impossible.
  - intros c r [called | [called | [called | searched]]];
      try (injection called as <- _).
    + now left.
    + right. left. split; [reflexivity |]. exists reenactor. now left.
    + right. right. exists reenactor. split; [reflexivity |].
      split; [now left | right; now left].
    + apply searched_only_globs in searched. contradiction.
  - intros pattern files _. exists reenactor, result_path.
    right. right. now left.
  - intros path found [impossible | [impossible | [impossible | searched]]];
      try discriminate impossible.
    apply searched_only_globs in searched. contradiction.
Qed.

(** X6.  Unless one of its three calls raised an exception that
    [except Exception] does not handle, which then reaches the caller,
    reenact_face answers with no path at all, or with the result path the
    reenactor returned; a comparison path comes only with a result path
    and is the first file glob returned for one of the three patterns, in
    the output path or in the directory of the result path, when the job
    ended. *)
Theorem reenact_face_answers_with_matched_files (s : state W)
    (source_image driving_video reenactor_model : string)
    (resize_to_image_resolution : bool) :
  let output_folder :=
    path_join output_dir ["face_reenactment"; reenactor_model] in
  let source_name := fst (splitext (basename source_image)) in
  let driving_name := fst (splitext (basename driving_video)) in
  let output_path := path_join output_folder [source_name ++ "_reenacted"] in
  let patterns := comparison_patterns source_name driving_name in
  (exists e c final events,
     run W (reenact_face source_image driving_video reenactor_model
              resize_to_image_resolution) s
       = (Raise e, final, events)
     /\ is_Exception e = false
     /\ In (EvCall c (RRaised e)) events)
  \/ exists result comparison final events,
       run W (reenact_face source_image driving_video reenactor_model
                resize_to_image_resolution) s
         = (Ok (result, comparison), final, events)
       /\ ((result = None /\ comparison = None)
           \/ exists reenactor result_path,
                result = Some result_path
                /\ In (EvCall (reenact_from_video reenactor source_image
                                 driving_video output_path true
                                 resize_to_image_resolution)
                         (RPath result_path)) events
                /\ forall p,
                     comparison = Some p ->
                     exists q rest,
                       In q (map (fun pattern =>
                                    path_join output_path [pattern])
                               patterns
                             ++ map (fun pattern =>
                                       path_join (dirname result_path)
                                         [pattern])
                                  patterns)%list
                       /\ glob_matches W final q = p :: rest).
Proof.
  intros output_folder source_name driving_name output_path patterns.
  destruct (reenact_face_cases W source_image driving_video reenactor_model
              resize_to_image_resolution s)
    as [[e [s1 [created ->]]]
        | [[reenactor [e [s1 [s2 [created [made ->]]]]]]
        | [[reenactor [e [s1 [s2 [s3 [created [made [failed ->]]]]]]]]
        | [reenactor [result_path [s1 [s2 [s3 [created [made [done ->]]]]]]]]]]];
    try (unfold reenact_error, caught;
         destruct (is_Exception e) eqn:handled;
         [ right; eexists _, _, _, _; split; [reflexivity |];
           left; split; reflexivity
         | left; eexists e, _, _, _; split; [reflexivity |];
           split; [exact handled |];
           first [ now left | right; now left | right; right; now left ] ]).
  right. eexists _, _, _, _. split; [reflexivity |].
  right. exists reenactor, result_path.
  split; [reflexivity | split; [right; right; now left |]].
  intros p chosen.
  fold (under output_path patterns).
  fold (under (dirname result_path) patterns).
  change (reenactment_output source_image reenactor_model)
    with output_path in chosen.
  change (reenactment_patterns source_image driving_video)
    with patterns in chosen.
  destruct (first_match W s3 (under output_path patterns)) as [h |] eqn:here.
  - assert (from_here : forall x, Some h = Some x ->
              exists q rest,
                In q (under output_path patterns
                      ++ under (dirname result_path) patterns)%list
                /\ glob_matches W s3 q = x :: rest).
    { intros x same. injection same as <-.
      apply first_match_is_matched in here.
      destruct here as [q [rest [listed matched]]].
      exists q, rest. split; [apply in_or_app; now left | exact matched]. }
    destruct (truthy_opt (Some h)); [now apply from_here |].
    destruct (first_match W s3 (under (dirname result_path) patterns))
      as [t |] eqn:there; [| now apply from_here].
    injection chosen as <-. apply first_match_is_matched in there.
    destruct there as [q [rest [listed matched]]].
    exists q, rest. split; [apply in_or_app; now right | exact matched].
  - cbn [truthy_opt] in chosen.
    destruct (first_match W s3 (under (dirname result_path) patterns))
      as [t |] eqn:there; [| discriminate chosen].
    injection chosen as <-. apply first_match_is_matched in there.
    destruct there as [q [rest [listed matched]]].
    exists q, rest. split; [apply in_or_app; now right | exact matched].
Qed.

End ReenactFacts.

(** ** What detect_deepfakes hands to the pipeline *)

Section PipelineContract.
Variable float_repr : float -> string.
Variable W : World.
Local Open Scope float_scope.

(** The weights of a selection: the registered models selected, the ResNet
    one first, at 0.5 each when both are selected and at 1.0 when one is. *)
Lemma normalized_shape (models_to_use : list string) (weights : dict float) :
  normalize_weights (configure_models models_to_use) = Ok weights ->
  keys weights =
    filter (fun k => contains k models_to_use)
      ["resnet_inception"; "efficientnet"]
  /\ Forall (fun kv =>
               snd kv =
                 if contains "resnet_inception" models_to_use
                    && contains "efficientnet" models_to_use
                 then 0.5 else 1.0) weights
  /\ (dict_is_empty (configure_models models_to_use) = false ->
      sum (values weights) = 1.0).
Proof.
  rewrite configure_models_cases. simpl filter.
  destruct (contains "resnet_inception" models_to_use),
           (contains "efficientnet" models_to_use);
    vm_compute; intro normalized; injection normalized as <-;
    repeat split; repeat constructor; discriminate.
Qed.

(** X7.  Whatever the request and the world, a pipeline that
    detect_deepfakes constructs is given no device, the threshold of the
    request, and weights for exactly the registered models of the
    selection, the ResNet one first, 0.5 each when both are selected and 1.0
    when one is, so that they sum to 1.0: unknown identifiers, repetitions
    and the order of the selection never reach it.  A detection is run only
    by a pipeline so constructed, into [gradio_output/deepfake_detection],
    with the CSV file asked for and the frame count of the request, also for
    an image. *)
Theorem pipeline_is_given_normalized_registered_models (s : state W)
    (image_file video_file : option string) (models_to_use : list string)
    (confidence_threshold : float) (num_frames : Z) :
  let events :=
    trace W (detect_deepfakes float_repr image_file video_file models_to_use
               confidence_threshold num_frames) s in
  (forall model_configs device threshold r,
     In (EvCall (PipelineDeepfakeDetection model_configs device threshold) r)
        events ->
     device = None
     /\ threshold = confidence_threshold
     /\ keys model_configs =
          filter (fun k => contains k models_to_use)
            ["resnet_inception"; "efficientnet"]
     /\ Forall (fun kv =>
                  snd kv =
                    if contains "resnet_inception" models_to_use
                       && contains "efficientnet" models_to_use
                    then 0.5 else 1.0) model_configs
     /\ sum (values model_configs) = 1.0)
  /\ (forall pipeline media_path output_folder save_csv frames r,
        In (EvCall (pipeline_detect pipeline media_path output_folder
                      save_csv frames) r) events ->
        output_folder = "gradio_output/deepfake_detection"
        /\ save_csv = true
        /\ frames = num_frames
        /\ exists model_configs,
             In (EvCall (PipelineDeepfakeDetection model_configs None
                           confidence_threshold) (RHandle pipeline)) events).
Proof.
  intro events. subst events. unfold trace.
  destruct (detect_deepfakes_job float_repr W image_file video_file
              models_to_use confidence_threshold num_frames s)
    as [none | media_file media_type media empty
        | media_file media_type weights e s1 media filled normalized created
        | media_file media_type weights p e s1 s2 media filled normalized
            created detected
        | media_file media_type weights p v s1 s2 media filled normalized
            created detected];
    cbn [snd];
    (split;
     [ intros model_configs device threshold r called
     | intros pipeline media_path output_folder save_csv frames r called ]);
    try (now apply media_queries_no_call in called);
    apply in_after_media_queries in called; simpl in called;
    repeat (destruct called as [called | called]; try discriminate called);
    try contradiction;
    try (injection called as <- <- <- _;
         destruct (normalized_shape _ normalized) as [names [each total]];
         repeat split; trivial; now apply total);
    injection called as <- _ <- <- <- _;
    (repeat split; trivial; []); exists weights;
    apply in_or_app; right; now left.
Qed.

End PipelineContract.

(** ** What the report of a deepfake detection says *)

Lemma within_here4 (a b c d rest : string) :
  within (a ++ b ++ c ++ d) (a ++ b ++ c ++ d ++ rest).
Proof. exists "", rest. simpl. now rewrite !append_assoc. Qed.

Lemma prefix_extended (piece text back : string) :
  String.prefix piece text = true -> String.prefix piece (text ++ back) = true.
Proof.
  revert text. induction piece as [| ch piece IH]; intro text; simpl.
  - intros _. destruct (text ++ back); reflexivity.
  - destruct text as [| ch' text]; [discriminate |]. simpl.
    destruct (ascii_dec ch ch'); [apply IH | discriminate].
Qed.

(** Finds a piece of up to four parts in a text put together with [++]. *)
Ltac find_line :=
  first
    [ apply within_here
    | apply within_here3
    | apply within_here4
    | apply within_after; find_line
    | apply within_before; find_line ].

Lemma prefix_append3 (a b c rest : string) :
  String.prefix (a ++ b ++ c) (a ++ b ++ c ++ rest) = true.
Proof.
  replace (a ++ b ++ c ++ rest) with ((a ++ b ++ c) ++ rest)
    by now rewrite !append_assoc.
  apply prefix_append.
Qed.

Section ReportFacts.
Variable float_repr : float -> string.
Local Open Scope float_scope.

(** The lines of a report that name the file and the models. *)
Lemma rendered_names_file_and_models (media_file : string)
    (media_type : media_type) (models_to_use : list string)
    (weights : dict float) (confidence_threshold : float) (num_frames : Z)
    (verdict : bool) :
  match get_confidence_bar
          (if verdict then confidence_threshold
           else 1.0 - confidence_threshold) with
  | Ok _ =>
      exists text,
        rendered float_repr media_file media_type models_to_use weights
          confidence_threshold num_frames verdict = (None, text)
        /\ String.prefix
             ("# 🎬 **" ++ title media_type ++ " Analysis Results**") text
           = true
        /\ String.prefix "❌" text = false
        /\ within ("- **File**: `" ++ basename media_file ++ "`" ++ nl) text
        /\ within ("- **Models Used**: " ++ join ", " models_to_use ++ nl)
             text
        /\ within ("- **Pipeline Models**: " ++ join ", " (keys weights)
                   ++ nl) text
  | Raise e =>
      rendered float_repr media_file media_type models_to_use weights
        confidence_threshold num_frames verdict = (None, error_text e)
  end.
Proof.
  unfold rendered, results_text, avg_confidence.
  destruct (get_confidence_bar
              (if verdict then confidence_threshold
               else 1.0 - confidence_threshold)) as [bar | e];
    unfold obind; cbv beta iota zeta; [| reflexivity].
  eexists. split; [reflexivity |].
  destruct media_type; unfold media_type_eqb; cbv beta iota zeta;
    (split; [| split; [reflexivity | split; [| split]]]); try find_line;
    first
      [ do 4 apply prefix_extended; apply prefix_append3
      | do 3 apply prefix_extended; apply prefix_append3 ].
Qed.

(** X8.  In every job in which the pipeline gave its verdict, unless the
    confidence bar cannot be drawn, the report names the media file by its
    base name, without its directory, lists under "Models Used" the
    selection as it was requested, unknown identifiers and repetitions
    included, and under "Pipeline Models" only the registered models of the
    selection, the ResNet one first. *)
Theorem report_names_the_request_and_the_pipeline_models (W : World)
    (s : state W) (image_file video_file : option string)
    (models_to_use : list string) (confidence_threshold : float)
    (num_frames : Z) (pipeline : handle) (media_path output_folder : string)
    (save_csv : bool) (frames : Z) (verdict : bool) :
  In (EvCall (pipeline_detect pipeline media_path output_folder save_csv
                frames) (RBool verdict))
     (trace W (detect_deepfakes float_repr image_file video_file
                 models_to_use confidence_threshold num_frames) s) ->
  match get_confidence_bar
          (if verdict then confidence_threshold
           else 1.0 - confidence_threshold) with
  | Ok _ =>
      exists text,
        result W (detect_deepfakes float_repr image_file video_file
                    models_to_use confidence_threshold num_frames) s
          = Ok (None, text)
        /\ within ("- **File**: `" ++ basename media_path ++ "`" ++ nl) text
        /\ within ("- **Models Used**: " ++ join ", " models_to_use ++ nl)
             text
        /\ within ("- **Pipeline Models**: "
                   ++ join ", "
                        (filter (fun k => contains k models_to_use)
                           ["resnet_inception"; "efficientnet"])
                   ++ nl) text
  | Raise e =>
      result W (detect_deepfakes float_repr image_file video_file
                  models_to_use confidence_threshold num_frames) s
        = Ok (None, error_text e)
  end.
Proof.
  intro given. apply job_with_verdict in given.
  destruct given as [media_type [weights [_ [normalized [_ ->]]]]].
  pose proof (rendered_names_file_and_models media_path media_type
                models_to_use weights confidence_threshold num_frames verdict)
    as shown.
  destruct (normalized_shape _ normalized) as [names _].
  destruct (get_confidence_bar
              (if verdict then confidence_threshold
               else 1.0 - confidence_threshold)) as [bar | e].
  - destruct shown as [text [-> [_ [_ [file [used piped]]]]]].
    exists text. rewrite <- names. now repeat split.
  - now rewrite shown.
Qed.

(** X9.  Two jobs on an image, in any two worlds, with the same model
    selection and threshold, that selected the same image and whose
    pipelines gave the same verdict, answer with the same text whatever
    their frame counts are: the frame count does not show in the report of
    an image. *)
Theorem image_report_ignores_the_frame_count (W1 W2 : World)
    (s1 : state W1) (s2 : state W2)
    (image1 video1 image2 video2 : option string) (models_to_use : list string)
    (confidence_threshold : float) (frames1 frames2 : Z)
    (media_file : string) (verdict : bool)
    (pipeline1 pipeline2 : handle) (folder1 folder2 : string)
    (csv1 csv2 : bool) (given1 given2 : Z) :
  result W1 (select_media image1 video1) s1 = Ok (Some (media_file, image)) ->
  result W2 (select_media image2 video2) s2 = Ok (Some (media_file, image)) ->
  In (EvCall (pipeline_detect pipeline1 media_file folder1 csv1 given1)
        (RBool verdict))
     (trace W1 (detect_deepfakes float_repr image1 video1 models_to_use
                  confidence_threshold frames1) s1) ->
  In (EvCall (pipeline_detect pipeline2 media_file folder2 csv2 given2)
        (RBool verdict))
     (trace W2 (detect_deepfakes float_repr image2 video2 models_to_use
                  confidence_threshold frames2) s2) ->
  exists text,
    result W1 (detect_deepfakes float_repr image1 video1 models_to_use
                 confidence_threshold frames1) s1 = Ok (None, text)
    /\ result W2 (detect_deepfakes float_repr image2 video2 models_to_use
                    confidence_threshold frames2) s2 = Ok (None, text).
Proof.
  intros media1 media2 ran1 ran2.
  rewrite result_select_media in media1, media2.
  injection media1 as media1. injection media2 as media2.
  apply job_with_verdict in ran1, ran2.
  destruct ran1 as [type1 [weights1 [chosen1 [normalized1 [_ ->]]]]].
  destruct ran2 as [type2 [weights2 [chosen2 [normalized2 [_ ->]]]]].
  assert (type1 = image) as -> by congruence.
  assert (type2 = image) as -> by congruence.
  assert (weights2 = weights1) as -> by congruence.
  change (rendered float_repr media_file image models_to_use weights1
            confidence_threshold frames2 verdict)
    with (rendered float_repr media_file image models_to_use weights1
            confidence_threshold frames1 verdict).
  unfold rendered.
  destruct (results_text float_repr media_file image models_to_use weights1
              confidence_threshold frames1 verdict) as [text | e];
    eexists; split; reflexivity.
Qed.

(** X10.  Unless a collaborator raised an exception that
    [except Exception] does not handle, which then reaches the caller,
    detect_deepfakes answers with a text that is either an error message,
    which starts with the error mark and not with the header mark, or a
    report, which starts with the header naming the type of the selected
    media and not with the error mark; a report is answered only when the
    pipeline gave a verdict. *)
Theorem deepfake_answer_is_an_error_or_a_report (W : World) (s : state W)
    (image_file video_file : option string) (models_to_use : list string)
    (confidence_threshold : float) (num_frames : Z) :
  (exists e c,
     result W (detect_deepfakes float_repr image_file video_file
                 models_to_use confidence_threshold num_frames) s = Raise e
     /\ is_Exception e = false
     /\ In (EvCall c (RRaised e))
          (trace W (detect_deepfakes float_repr image_file video_file
                      models_to_use confidence_threshold num_frames) s))
  \/ exists text,
    result W (detect_deepfakes float_repr image_file video_file models_to_use
                confidence_threshold num_frames) s = Ok (None, text)
    /\ ((String.prefix "❌ **Error**: " text = true
         /\ String.prefix "#" text = false)
        \/ (String.prefix "❌" text = false
            /\ exists media_file media_type pipeline verdict,
                 result W (select_media image_file video_file) s
                   = Ok (Some (media_file, media_type))
                 /\ String.prefix
                      ("# 🎬 **" ++ title media_type ++ " Analysis Results**")
                      text = true
                 /\ In (EvCall (pipeline_detect pipeline media_file
                                  "gradio_output/deepfake_detection" true
                                  num_frames) (RBool verdict))
                       (trace W (detect_deepfakes float_repr image_file
                                   video_file models_to_use
                                   confidence_threshold num_frames) s))).
Proof.
  unfold result at 1 2, trace. rewrite result_select_media.
  destruct (detect_deepfakes_job float_repr W image_file video_file
              models_to_use confidence_threshold num_frames s)
    as [none | media_file media_type media empty
        | media_file media_type weights e s1 media filled normalized created
        | media_file media_type weights p e s1 s2 media filled normalized
            created detected
        | media_file media_type weights p v s1 s2 media filled normalized
            created detected];
    cbn [fst snd].
  - right. exists error_no_media. split; [reflexivity |]. left. now split.
  - right. exists error_no_models. split; [reflexivity |]. left. now split.
  - unfold job_error, caught. destruct (is_Exception e) eqn:handled.
    + right. exists (error_text e). split; [reflexivity |]. left.
      split; [apply prefix_append | reflexivity].
    + left. eexists e, _. split; [reflexivity | split; [exact handled |]].
      apply in_or_app. right. now left.
  - unfold job_error, caught. destruct (is_Exception e) eqn:handled.
    + right. exists (error_text e). split; [reflexivity |]. left.
      split; [apply prefix_append | reflexivity].
    + left. eexists e, _. split; [reflexivity | split; [exact handled |]].
      apply in_or_app. right. right. now left.
  - right.
    pose proof (rendered_names_file_and_models media_file media_type
                  models_to_use weights confidence_threshold num_frames v)
      as shown.
    destruct (get_confidence_bar
                (if v then confidence_threshold
                 else 1.0 - confidence_threshold)) as [bar | e].
    + destruct shown as [text [-> [header [unmarked _]]]].
      exists text. split; [reflexivity |]. right. split; [exact unmarked |].
      exists media_file, media_type, p, v. rewrite media.
      split; [reflexivity | split; [exact header |]].
      apply in_or_app. right. right. now left.
    + rewrite shown. exists (error_text e). split; [reflexivity |]. left.
      split; [apply prefix_append | reflexivity].
Qed.

End ReportFacts.

(** ** The image before the video *)

Section Precedence.
Variable float_repr : float -> string.
Variable W : World.
Local Open Scope float_scope.

(** The line of a report that names the type of the media. *)
Lemma rendered_shows_media_type (media_file : string)
    (media_type : media_type) (models_to_use : list string)
    (weights : dict float) (confidence_threshold : float) (num_frames : Z)
    (verdict : bool) (bar : string) :
  get_confidence_bar
    (if verdict then confidence_threshold else 1.0 - confidence_threshold)
    = Ok bar ->
  exists text,
    rendered float_repr media_file media_type models_to_use weights
      confidence_threshold num_frames verdict = (None, text)
    /\ within ("- **Media Type**: " ++ title media_type ++ nl) text.
Proof.
  intro drawn. unfold rendered, results_text, avg_confidence.
  rewrite drawn. unfold obind. cbv beta iota zeta.
  eexists. split; [reflexivity |].
  destruct media_type; unfold media_type_eqb; cbv beta iota zeta; find_line.
Qed.

(** The events of a job on an image that exists, with a registered model
    selected: the one query, the construction of the pipeline and, once it
    is constructed, its run on the image. *)
Lemma job_on_image (s : state W) (path : string)
    (video_file : option string) (models_to_use : list string)
    (confidence_threshold : float) (num_frames : Z) :
  truthy path = true -> path_exists W s path = true ->
  (contains "resnet_inception" models_to_use
   || contains "efficientnet" models_to_use) = true ->
  exists weights,
    normalize_weights (configure_models models_to_use) = Ok weights
    /\ ((exists e,
           trace W (detect_deepfakes float_repr (Some path) video_file
                      models_to_use confidence_threshold num_frames) s
           = [EvExists path true;
              EvCall (PipelineDeepfakeDetection weights None
                        confidence_threshold) (RRaised e)])
        \/ (exists pipeline r,
              trace W (detect_deepfakes float_repr (Some path) video_file
                         models_to_use confidence_threshold num_frames) s
              = [EvExists path true;
                 EvCall (PipelineDeepfakeDetection weights None
                           confidence_threshold) (RHandle pipeline);
                 EvCall (pipeline_detect pipeline path
                           "gradio_output/deepfake_detection" true
                           num_frames) r])).
Proof.
  intros nonempty there chosen.
  assert (selected W s (Some path) video_file = Some (path, image))
    as resolved by (unfold selected, present; now rewrite nonempty, there).
  assert (media_queries W s (Some path) video_file = [EvExists path true])
    as asked
    by (unfold media_queries, query_of, present;
        now rewrite nonempty, there).
  assert (dict_is_empty (configure_models models_to_use) = false) as filled
    by (rewrite configure_models_empty, chosen; reflexivity).
  unfold trace.
  destruct (detect_deepfakes_job float_repr W (Some path) video_file
              models_to_use confidence_threshold num_frames s)
    as [none | mf mt media empty
        | mf mt weights e s1 media _ normalized created
        | mf mt weights p e s1 s2 media _ normalized created detected
        | mf mt weights p v s1 s2 media _ normalized created detected];
    try congruence; cbn [snd]; rewrite asked;
    exists weights; (split; [exact normalized |]).
  - left. now exists e.
  - right. assert (mf = path) as -> by congruence. now eexists p, _.
  - right. assert (mf = path) as -> by congruence. now eexists p, _.
Qed.

(** C9.  When the image input is a path that exists, the job processes it
    as an image whatever the video input is.  The run is the run of the
    same request without a video; the one question the job asks the file
    system is whether the image exists, so the video is not looked at; with
    a registered model selected the pipeline is constructed and, once it
    is, run on the image; any media the pipeline is given is that image;
    and the report of a verdict is headed as the analysis of an image,
    names the image file and gives its type as Image.  A job that selects
    a video has an image input that is absent, empty or a path that does
    not exist, and a video input that exists. *)
Theorem image_input_takes_precedence (s : state W)
    (image_file video_file : option string) (models_to_use : list string)
    (confidence_threshold : float) (num_frames : Z) :
  (forall path,
     image_file = Some path -> truthy path = true ->
     path_exists W s path = true ->
     result W (select_media image_file video_file) s = Ok (Some (path, image))
     /\ run W (detect_deepfakes float_repr image_file video_file
                 models_to_use confidence_threshold num_frames) s
         = run W (detect_deepfakes float_repr image_file None models_to_use
                    confidence_threshold num_frames) s
     /\ (forall pipeline media_path output_folder save_csv frames r,
           In (EvCall (pipeline_detect pipeline media_path output_folder
                         save_csv frames) r)
              (trace W (detect_deepfakes float_repr image_file video_file
                          models_to_use confidence_threshold num_frames) s) ->
           media_path = path)
     /\ (forall queried found,
           In (EvExists queried found)
              (trace W (detect_deepfakes float_repr image_file video_file
                          models_to_use confidence_threshold num_frames) s) ->
           queried = path)
     /\ ((contains "resnet_inception" models_to_use
          || contains "efficientnet" models_to_use) = true ->
         exists weights,
           normalize_weights (configure_models models_to_use) = Ok weights
           /\ ((exists e,
                  trace W (detect_deepfakes float_repr image_file video_file
                             models_to_use confidence_threshold num_frames) s
                  = [EvExists path true;
                     EvCall (PipelineDeepfakeDetection weights None
                               confidence_threshold) (RRaised e)])
               \/ (exists pipeline r,
                     trace W (detect_deepfakes float_repr image_file
                                video_file models_to_use
                                confidence_threshold num_frames) s
                     = [EvExists path true;
                        EvCall (PipelineDeepfakeDetection weights None
                                  confidence_threshold) (RHandle pipeline);
                        EvCall (pipeline_detect pipeline path
                                  "gradio_output/deepfake_detection" true
                                  num_frames) r])))
     /\ (forall pipeline media_path output_folder save_csv frames verdict,
           In (EvCall (pipeline_detect pipeline media_path output_folder
                         save_csv frames) (RBool verdict))
              (trace W (detect_deepfakes float_repr image_file video_file
                          models_to_use confidence_threshold num_frames) s) ->
           match get_confidence_bar
                   (if verdict then confidence_threshold
                    else 1.0 - confidence_threshold) with
           | Ok _ =>
               exists text,
                 result W (detect_deepfakes float_repr image_file video_file
                             models_to_use confidence_threshold num_frames) s
                   = Ok (None, text)
                 /\ String.prefix "# 🎬 **Image Analysis Results**" text
                    = true
                 /\ within ("- **File**: `" ++ basename path ++ "`" ++ nl)
                      text
                 /\ within ("- **Media Type**: Image" ++ nl) text
           | Raise e =>
               result W (detect_deepfakes float_repr image_file video_file
                           models_to_use confidence_threshold num_frames) s
                 = Ok (None, error_text e)
           end))
  /\ (forall media_file,
        result W (select_media image_file video_file) s
          = Ok (Some (media_file, video)) ->
        (truthy_opt image_file = false
         \/ exists path, image_file = Some path
                         /\ path_exists W s path = false)
        /\ video_file = Some media_file
        /\ path_exists W s media_file = true).
Proof.
  split.
  - intros path -> nonempty there.
    assert (chosen : forall v, selected W s (Some path) v = Some (path, image)).
    { intro v. unfold selected, present. now rewrite nonempty, there. }
    assert (asked : forall v,
              media_queries W s (Some path) v = [EvExists path true]).
    { intro v. unfold media_queries, query_of, present.
      now rewrite nonempty, there. }
    split; [| split; [| split; [| split; [| split]]]].
    + rewrite result_select_media. now rewrite chosen.
    + unfold detect_deepfakes, detect_deepfakes_body.
      rewrite !run_try_except_ret, !run_bind, !run_select_media.
      rewrite !chosen, !asked. reflexivity.
    + intros pipeline media_path output_folder save_csv frames r given.
      apply job_with_detection in given. destruct given as [mt given].
      rewrite chosen in given. congruence.
    + intros queried found. unfold trace.
      destruct (detect_deepfakes_job float_repr W (Some path) video_file
                  models_to_use confidence_threshold num_frames s)
        as [none | mf mt media empty
            | mf mt weights e s1 media filled normalized created
            | mf mt weights p e s1 s2 media filled normalized created
                detected
            | mf mt weights p v s1 s2 media filled normalized created
                detected];
        cbn [snd]; rewrite asked; cbn [app];
        intro inside;
        repeat (destruct inside as [inside | inside];
                [first [ now injection inside | discriminate inside ] |]);
        contradiction.
    + now apply job_on_image.
    + intros pipeline media_path output_folder save_csv frames verdict given.
      apply job_with_verdict in given.
      destruct given as [media_type [weights [media [_ [_ ->]]]]].
      rewrite chosen in media. injection media as <- <-.
      pose proof (rendered_names_file_and_models float_repr path image
                    models_to_use weights confidence_threshold num_frames
                    verdict) as named.
      pose proof (@rendered_shows_media_type path image models_to_use
                    weights confidence_threshold num_frames verdict)
        as typed.
      destruct (get_confidence_bar
                  (if verdict then confidence_threshold
                   else 1.0 - confidence_threshold)) as [bar | e].
      * destruct named as [text [same [header [_ [file _]]]]].
        destruct (typed bar eq_refl) as [text' [same' line]].
        assert (text' = text) as -> by congruence.
        exists text. rewrite same. now repeat split.
      * now rewrite named.
  - intros media_file resolved.
    rewrite result_select_media in resolved. injection resolved as resolved.
    unfold selected, present in resolved.
    destruct image_file as [path |]; simpl.
    + destruct (truthy path) eqn:nonempty; simpl in resolved.
      * destruct (path_exists W s path) eqn:there; [discriminate resolved |].
        split; [right; now exists path |].
        destruct video_file as [v |]; [| discriminate resolved].
        destruct (truthy v && path_exists W s v) eqn:ok;
          [| discriminate resolved].
        injection resolved as ->. apply andb_prop in ok. now split.
      * split; [now left |].
        destruct video_file as [v |]; [| discriminate resolved].
        destruct (truthy v && path_exists W s v) eqn:ok;
          [| discriminate resolved].
        injection resolved as ->. apply andb_prop in ok. now split.
    + split; [now left |].
      destruct video_file as [v |]; [| discriminate resolved].
      destruct (truthy v && path_exists W s v) eqn:ok;
        [| discriminate resolved].
      injection resolved as ->. apply andb_prop in ok. now split.
Qed.

End Precedence.

(** ** Errors at the boundary of the three operations *)

Section Boundary.
Variable float_repr : float -> string.
Variable W : World.

(** What gets out of detect_deepfakes is not for [except Exception] and was
    raised by the construction of the pipeline or by its run. *)
Lemma detect_deepfakes_lets_through (image_file video_file : option string)
    (models_to_use : list string) (confidence_threshold : float)
    (num_frames : Z) (s : state W) (e : exn) :
  result W (detect_deepfakes float_repr image_file video_file models_to_use
              confidence_threshold num_frames) s = Raise e ->
  is_Exception e = false
  /\ exists c,
       In (EvCall c (RRaised e))
          (trace W (detect_deepfakes float_repr image_file video_file
                      models_to_use confidence_threshold num_frames) s).
Proof.
  unfold result, trace.
  destruct (detect_deepfakes_job float_repr W image_file video_file
              models_to_use confidence_threshold num_frames s)
    as [none | mf mt media empty
        | mf mt weights e' s1 media filled normalized created
        | mf mt weights p e' s1 s2 media filled normalized created detected
        | mf mt weights p v s1 s2 media filled normalized created detected];
    cbn [fst snd]; try discriminate;
    unfold job_error, caught;
    destruct (is_Exception e') eqn:handled; try discriminate;
    intro same; injection same as <-; (split; [exact handled |]);
    eexists; apply in_or_app; right.
  - now left.
  - right. now left.
Qed.

(** C5, as the code has it.  The three operations guard their work with
    [except Exception].  An exception of a class derived from [Exception]
    does not get out: detect_faces and detect_deepfakes answer it with a
    response whose text is an error prefix followed by the exception's
    message, detect_faces answers a missing image, a path that does not
    exist and a detector that cannot be created with a message of their
    own, and reenact_face answers it with two absent paths, and no text.
    An exception of a class outside [Exception], such as an interrupt from
    the keyboard, is not caught: it reaches the caller, and whatever reaches
    the caller is such an exception, raised by a collaborator. *)
Theorem errors_are_caught_at_the_boundary (s : state W) :
  (forall image_path detection_model,
     result W (detect_faces image_path detection_model) s =
       match result W (detect_faces_body image_path detection_model) s with
       | Ok response => Ok response
       | Raise e =>
           if is_Exception e
           then Ok (None, None, "Error: " ++ exn_str e)
           else Raise e
       end)
  /\ (forall image_file video_file models_to_use confidence_threshold
            num_frames,
        result W (detect_deepfakes float_repr image_file video_file
                    models_to_use confidence_threshold num_frames) s =
          match result W (detect_deepfakes_body float_repr image_file
                            video_file models_to_use confidence_threshold
                            num_frames) s with
          | Ok response => Ok response
          | Raise e =>
              if is_Exception e
              then Ok (None, "❌ **Error**: " ++ exn_str e)
              else Raise e
          end)
  /\ (forall source_image driving_video reenactor_model
            resize_to_image_resolution,
        result W (reenact_face source_image driving_video reenactor_model
                    resize_to_image_resolution) s =
          match result W (reenact_face_body source_image driving_video
                            reenactor_model resize_to_image_resolution) s with
          | Ok response => Ok response
          | Raise e => if is_Exception e then Ok (None, None) else Raise e
          end)
  /\ (forall detection_model,
        result W (detect_faces "" detection_model) s
          = Ok (None, None, "Error: No image provided"))
  /\ (forall image_path detection_model,
        truthy image_path = true ->
        path_exists W s image_path = false ->
        result W (detect_faces image_path detection_model) s
          = Ok (None, None, "Error: Image file not found: " ++ image_path))
  /\ (forall image_path detection_model e s1,
        truthy image_path = true ->
        path_exists W s image_path = true ->
        answer W (FaceDetector_create detection_model) s = (Raise e, s1) ->
        result W (detect_faces image_path detection_model) s
          = if is_Exception e
            then Ok (None, None,
                     "Error creating detector '" ++ detection_model ++ "': "
                     ++ exn_str e)
            else Raise e)
  /\ (forall image_path detection_model e,
        result W (detect_faces image_path detection_model) s = Raise e ->
        is_Exception e = false
        /\ exists c,
             In (EvCall c (RRaised e))
                (trace W (detect_faces image_path detection_model) s))
  /\ (forall image_file video_file models_to_use confidence_threshold
            num_frames e,
        result W (detect_deepfakes float_repr image_file video_file
                    models_to_use confidence_threshold num_frames) s
          = Raise e ->
        is_Exception e = false
        /\ exists c,
             In (EvCall c (RRaised e))
                (trace W (detect_deepfakes float_repr image_file video_file
                            models_to_use confidence_threshold num_frames) s))
  /\ (forall source_image driving_video reenactor_model
            resize_to_image_resolution e,
        result W (reenact_face source_image driving_video reenactor_model
                    resize_to_image_resolution) s = Raise e ->
        is_Exception e = false
        /\ exists c,
             In (EvCall c (RRaised e))
                (trace W (reenact_face source_image driving_video
                            reenactor_model resize_to_image_resolution) s)).
Proof.
  repeat match goal with |- _ /\ _ => split end.
  - intros. apply result_try_except_ret.
  - intros. apply result_try_except_ret.
  - intros. apply result_try_except_ret.
  - reflexivity.
  - intros image_path detection_model nonempty missing.
    unfold result, detect_faces, detect_faces_body.
    rewrite run_try_except_ret, nonempty. cbn [negb].
    rewrite run_bind, run_os_path_exists, missing. reflexivity.
  - intros image_path detection_model e s1 nonempty there failed.
    unfold result.
    destruct (detect_faces_is_a_faces_run W image_path detection_model s)
      as [empty | _ missing | e' s1' _ _ failed'
          | detector e' s1' s2 _ _ created _
          | detector detections s1' s2 _ _ created _];
      try congruence.
    assert (e' = e) as -> by congruence. reflexivity.
  - intros. now apply detect_faces_lets_through.
  - intros. now apply detect_deepfakes_lets_through.
  - intros. now apply reenact_face_lets_through.
Qed.

End Boundary.

(** ** More runs in the sample worlds *)

Section MoreSamples.
Import Worlds.

(** The detector that ran on [face.jpg] is the one created for blazeface. *)
Lemma detect_faces_calls_only_its_detector_witness :
  In (EvCall (FaceDetector_create "blazeface") (RHandle 1))
     (trace two_annotations (detect_faces "face.jpg" "blazeface") tt).
Proof.
  destruct (@detect_faces_calls_only_its_detector two_annotations tt
              "face.jpg" "blazeface"
              (detector_detect 1 "face.jpg" true
                 "gradio_output/face_detection/blazeface/detections.json"
                 true "gradio_output/face_detection/blazeface")
              (RDetections []))
    as [_ [_ [impossible | [detector [same created]]]]].
  - right. right. left. reflexivity.
  - discriminate impossible.
  - injection same as <-. exact created.
Defined.

(** The second of two faces is reported as face 2. *)
Lemma faces_text_reports_each_face_under_its_number_witness :
  within
    ("Face 2:" ++ nl ++ "  Confidence: 0.750" ++ nl
     ++ "  Bounding Box: (10, 20, 30, 40)" ++ nl ++ nl)
    (faces_text
       [ {| bbox := {| x1 := 1; y1 := 2; x2 := 3; y2 := 4;
                       confidence := 0.5%float |} |};
         {| bbox := {| x1 := 10; y1 := 20; x2 := 30; y2 := 40;
                       confidence := 0.75%float |} |} ]).
Proof.
  exact (proj2 (@faces_text_reports_each_face_under_its_number
                  [ {| bbox := {| x1 := 1; y1 := 2; x2 := 3; y2 := 4;
                                  confidence := 0.5%float |} |};
                    {| bbox := {| x1 := 10; y1 := 20; x2 := 30; y2 := 40;
                                  confidence := 0.75%float |} |} ])
           1%nat _ eq_refl).
Defined.

(** A selection with an unknown model and a repetition, on an image. *)
Lemma report_names_the_request_and_the_pipeline_models_witness :
  exists text,
    result (fixed ["uploads/face.jpg"] no_match (succeed "" true))
      (detect_deepfakes repr_one_decimal (Some "uploads/face.jpg") None
         ["xception"; "efficientnet"; "efficientnet"] 0.8%float 11) tt
    = Ok (None, text)
    /\ within ("- **File**: `face.jpg`" ++ nl) text
    /\ within ("- **Models Used**: xception, efficientnet, efficientnet" ++ nl)
         text
    /\ within ("- **Pipeline Models**: efficientnet" ++ nl) text.
Proof.
  exact (@report_names_the_request_and_the_pipeline_models repr_one_decimal
           (fixed ["uploads/face.jpg"] no_match (succeed "" true)) tt
           (Some "uploads/face.jpg") None
           ["xception"; "efficientnet"; "efficientnet"] 0.8%float 11%Z
           3%nat "uploads/face.jpg" "gradio_output/deepfake_detection" true
           11%Z true (or_intror (or_intror (or_introl eq_refl)))).
Defined.

(** The same image with 11 and with 30 frames asked for. *)
Lemma image_report_ignores_the_frame_count_witness :
  exists text,
    result both_media
      (detect_deepfakes repr_one_decimal (Some "face.jpg") (Some "clip.mp4")
         ["resnet_inception"] 0.5%float 11) tt = Ok (None, text)
    /\ result image_authentic
         (detect_deepfakes repr_one_decimal (Some "face.jpg") None
            ["resnet_inception"] 0.5%float 30) tt = Ok (None, text).
Proof.
  apply (@image_report_ignores_the_frame_count repr_one_decimal both_media
           image_authentic tt tt (Some "face.jpg") (Some "clip.mp4")
           (Some "face.jpg") None ["resnet_inception"] 0.5%float 11%Z 30%Z
           "face.jpg" false 3%nat 3%nat "gradio_output/deepfake_detection"
           "gradio_output/deepfake_detection" true true 11%Z 30%Z);
    try reflexivity;
    right; right; left; reflexivity.
Defined.

(** Both inputs are supplied and both exist: the run is the run without
    the video, and the pipeline is constructed and run on the image. *)
Lemma image_input_takes_precedence_witness :
  run both_media
    (detect_deepfakes repr_one_decimal (Some "face.jpg") (Some "clip.mp4")
       ["efficientnet"] 0.5%float 11) tt
  = run both_media
      (detect_deepfakes repr_one_decimal (Some "face.jpg") None
         ["efficientnet"] 0.5%float 11) tt
  /\ exists weights,
       normalize_weights (configure_models ["efficientnet"]) = Ok weights
       /\ ((exists e,
              trace both_media
                (detect_deepfakes repr_one_decimal (Some "face.jpg")
                   (Some "clip.mp4") ["efficientnet"] 0.5%float 11) tt
              = [EvExists "face.jpg" true;
                 EvCall (PipelineDeepfakeDetection weights None 0.5%float)
                   (RRaised e)])
           \/ (exists pipeline r,
                 trace both_media
                   (detect_deepfakes repr_one_decimal (Some "face.jpg")
                      (Some "clip.mp4") ["efficientnet"] 0.5%float 11) tt
                 = [EvExists "face.jpg" true;
                    EvCall (PipelineDeepfakeDetection weights None 0.5%float)
                      (RHandle pipeline);
                    EvCall (pipeline_detect pipeline "face.jpg"
                              "gradio_output/deepfake_detection" true 11)
                      r])).
Proof.
  destruct (@image_input_takes_precedence repr_one_decimal both_media tt
              (Some "face.jpg") (Some "clip.mp4") ["efficientnet"] 0.5%float
              11%Z) as [first _].
  destruct (first "face.jpg" eq_refl eq_refl eq_refl)
    as [_ [same [_ [_ [processed _]]]]].
  split; [exact same | exact (processed eq_refl)].
Defined.

(** A pipeline and a detector that cannot be constructed: the message
    reaches the text.  A detector interrupted from the keyboard: the
    interrupt reaches the caller. *)
Lemma errors_are_caught_at_the_boundary_witness :
  result (failing "weights not found")
    (detect_deepfakes repr_one_decimal (Some "face.jpg") None
       ["efficientnet"] 0.5%float 11) tt
  = Ok (None, "❌ **Error**: weights not found")
  /\ result (failing "weights not found") (detect_faces "face.jpg" "blazeface")
       tt
     = Ok (None, None, "Error creating detector 'blazeface': weights not found")
  /\ result interrupted (detect_faces "face.jpg" "blazeface") tt
     = Raise (BaseExn "KeyboardInterrupt" "").
Proof.
  destruct (@errors_are_caught_at_the_boundary repr_one_decimal
              (failing "weights not found") tt)
    as [_ [caught [_ [_ [_ [unknown _]]]]]].
  destruct (@errors_are_caught_at_the_boundary repr_one_decimal
              interrupted tt)
    as [_ [_ [_ [_ [_ [stopped _]]]]]].
  split; [| split].
  - exact (caught (Some "face.jpg") None ["efficientnet"] 0.5%float 11%Z).
  - exact (unknown "face.jpg" "blazeface"
             (Exn "RuntimeError" "weights not found") tt eq_refl eq_refl
             eq_refl).
  - exact (stopped "face.jpg" "blazeface"
             (BaseExn "KeyboardInterrupt" "") tt eq_refl eq_refl eq_refl).
Defined.

(** C5 as stated fails: reenact_face answers an exception it handles,
    whatever it is, with two absent paths; its response has no text to
    carry a message.  An interrupt from the keyboard that the reenactor
    raises is not handled at all: it reaches the caller of reenact_face. *)
Lemma reenact_face_reports_no_message :
  result (failing "weights not found")
    (reenact_face_body "face.jpg" "drive.mp4" "tps" false) tt
  = Raise (Exn "RuntimeError" "weights not found")
  /\ run (failing "weights not found")
       (reenact_face "face.jpg" "drive.mp4" "tps" false) tt
     = (Ok (None, None), tt,
        [EvCall (FaceReenactor_create "tps")
           (RRaised (Exn "RuntimeError" "weights not found"))])
  /\ result (failing "out of memory")
       (reenact_face "face.jpg" "drive.mp4" "tps" false) tt
     = Ok (None, None)
  /\ run interrupted (reenact_face "face.jpg" "drive.mp4" "tps" false) tt
     = (Raise (BaseExn "KeyboardInterrupt" ""), tt,
        [EvCall (FaceReenactor_create "tps")
           (RRaised (BaseExn "KeyboardInterrupt" ""))]).
Proof. repeat split. Qed.

End MoreSamples.

(** ** Shifts and rounding of mantissas *)

Section Shifts.
Local Open Scope Z_scope.

Lemma shr_1_keeps (M j : Z) (r : shr_record) :
  0 <= j -> keeps M j r -> keeps M (j + 1) (shr_1 r).
Proof.
  intros places [positive [below lost]].
  destruct r as [m r s]. cbn [shr_m shr_r shr_s] in *.
  unfold keeps. rewrite Z.pow_add_r, Z.pow_1_r by lia.
  assert (0 < 2 ^ j) as power by (apply Z.pow_pos_nonneg; lia).
  destruct m as [| [p | p |] | p]; cbn [shr_1 shr_m shr_r shr_s];
    try lia; (split; [lia | split; [nia |]]);
    cbn [orb]; intro flag; try specialize (lost flag); nia.
Qed.

Lemma iter_shr_1_keeps (p : positive) :
  forall (M j : Z) (r : shr_record),
    0 <= j -> keeps M j r -> keeps M (j + Zpos p) (iter_pos shr_1 p r).
Proof.
  induction p as [p rec | p rec |]; intros M j r places kept;
    cbn [iter_pos].
  - replace (j + Zpos p~1) with (((j + 1) + Zpos p) + Zpos p) by lia.
    apply rec; [lia |]. apply rec; [lia |]. now apply shr_1_keeps.
  - replace (j + Zpos p~0) with ((j + Zpos p) + Zpos p) by lia.
    apply rec; [lia |]. now apply rec.
  - now apply shr_1_keeps.
Qed.

(** A shift by [n] places, from a mantissa with nothing lost yet. *)
Lemma shr_keeps (M e n : Z) :
  0 <= M ->
  keeps M (Z.max 0 n) (fst (shr (shr_record_of_loc M loc_Exact) e n))
  /\ snd (shr (shr_record_of_loc M loc_Exact) e n) = e + Z.max 0 n.
Proof.
  intro positive.
  assert (keeps M 0 (shr_record_of_loc M loc_Exact)) as start
    by (unfold keeps; cbn; split; [lia | split; [lia | discriminate]]).
  destruct n as [| p | p]; cbn [shr fst snd].
  - split; [exact start | lia].
  - split; [| lia].
    replace (Z.max 0 (Zpos p)) with (0 + Zpos p) by lia.
    now apply iter_shr_1_keeps.
  - split; [exact start | lia].
Qed.

(** Rounding to nearest never passes a bound that is itself a multiple of
    the unit in the last place. *)
Lemma round_nearest_even_below (M j K : Z) (r : shr_record) :
  0 <= j -> keeps M j r -> M <= K * 2 ^ j ->
  0 <= round_nearest_even (shr_m r) (loc_of_shr_record r) <= K.
Proof.
  intros places [positive [below lost]] bound.
  assert (0 < 2 ^ j) as power by (apply Z.pow_pos_nonneg; lia).
  assert (shr_m r <= K) as floor by nia.
  destruct r as [m [|] [|]]; cbn [shr_m shr_r shr_s orb] in *;
    cbn [loc_of_shr_record round_nearest_even];
    try (destruct (Z.even m)); try lia;
    specialize (lost eq_refl); nia.
Qed.

(** A mantissa below [2^n] has at most [n] binary digits. *)
Lemma digits2_pos_above (p : positive) :
  2 ^ (Zpos (digits2_pos p) - 1) <= Zpos p.
Proof.
  induction p as [p rec | p rec |]; cbn [digits2_pos];
    try (rewrite Pos2Z.inj_succ;
         replace (Z.succ (Zpos (digits2_pos p)) - 1)
           with ((Zpos (digits2_pos p) - 1) + 1) by lia;
         rewrite Z.pow_add_r, Z.pow_1_r by lia; lia).
  cbn. lia.
Qed.

Lemma Zdigits2_below (m n : Z) : 0 <= m < 2 ^ n -> 0 <= n -> Zdigits2 m <= n.
Proof.
  intros [positive below] places.
  destruct m as [| p | p]; cbn [Zdigits2]; [lia | | lia].
  pose proof (digits2_pos_above p) as above.
  destruct (Z_le_gt_dec (Zpos (digits2_pos p)) n) as [fits | over];
    [exact fits |].
  assert (2 ^ n <= 2 ^ (Zpos (digits2_pos p) - 1))
    by (apply Z.pow_le_mono_r; lia).
  lia.
Qed.

(** Rounding a mantissa [M] at exponent [E] whose value [M * 2^E] is at most
    the integer [B], itself below [2^53]: the result is zero or a positive
    number that is still at most [B]. *)
Lemma binary_round_aux_below (M : positive) (E B b : Z) :
  E <= 0 -> 0 <= b <= 53 -> B < 2 ^ b -> Zpos M <= B * 2 ^ (- E) ->
  match binary_round_aux 53 1024 false (Zpos M) E loc_Exact with
  | S754_zero _ => True
  | S754_finite s m e => s = false /\ e <= 0 /\ Zpos m <= B * 2 ^ (- e)
  | _ => False
  end.
Proof.
  intros low digits small bound.
  assert (forall m e, e <= 0 -> 0 <= m <= B * 2 ^ (- e) ->
                      Zdigits2 m <= b - e) as counted.
  { intros m e nonpos [positive below].
    apply Zdigits2_below; [| lia].
    replace (b - e) with (b + - e) by lia.
    rewrite Z.pow_add_r by lia.
    assert (0 < 2 ^ (- e)) by (apply Z.pow_pos_nonneg; lia).
    split; [exact positive | nia]. }
  assert (forall e e', e <= e' -> e' <= 0 ->
                       2 ^ (- e) = 2 ^ (- e') * 2 ^ (e' - e)) as split_power.
  { intros e e' le nonpos. rewrite <- Z.pow_add_r by lia. f_equal. lia. }
  unfold binary_round_aux, shr_fexp.
  set (n1 := fexp 53 1024 (Zdigits2 (Zpos M) + E) - E).
  destruct (@shr_keeps (Zpos M) E n1) as [kept1 at1]; [lia |].
  destruct (shr (shr_record_of_loc (Zpos M) loc_Exact) E n1) as [r1 e1].
  cbn [fst snd] in kept1, at1.
  pose proof (counted (Zpos M) E low (conj (Pos2Z.is_nonneg M) bound))
    as digits1.
  assert (e1 <= 0) as low1 by (unfold n1, fexp, emin in at1; lia).
  pose proof (@round_nearest_even_below (Zpos M) (Z.max 0 n1)
                (B * 2 ^ (- e1)) r1) as rounded.
  set (m2 := round_nearest_even (shr_m r1) (loc_of_shr_record r1)) in *.
  assert (0 <= m2 <= B * 2 ^ (- e1)) as bound2.
  { apply rounded; [lia | exact kept1 |].
    rewrite (split_power E e1) in bound by lia.
    replace (Z.max 0 n1) with (e1 - E) by lia. lia. }
  clear rounded.
  set (n2 := fexp 53 1024 (Zdigits2 m2 + e1) - e1).
  destruct (@shr_keeps m2 e1 n2) as [kept2 at2]; [lia |].
  destruct (shr (shr_record_of_loc m2 loc_Exact) e1 n2) as [r2 e2].
  cbn [fst snd] in kept2, at2.
  pose proof (counted m2 e1 low1 bound2) as digits2.
  assert (e2 <= 0) as low2 by (unfold n2, fexp, emin in at2; lia).
  destruct kept2 as [positive2 [below2 _]].
  assert (shr_m r2 <= B * 2 ^ (- e2)) as bound3.
  { rewrite (split_power e1 e2) in bound2 by lia.
    replace (Z.max 0 n2) with (e2 - e1) in below2 by lia.
    assert (0 < 2 ^ (e2 - e1)) by (apply Z.pow_pos_nonneg; lia).
    nia. }
  destruct (shr_m r2) as [| m3 | m3]; [exact I | | lia].
  destruct (Z.leb_spec e2 (1024 - 53)) as [_ | over]; [| lia].
  now repeat split.
Qed.

End Shifts.

(** ** Confidences of the unit interval *)

Section Bar.
Local Open Scope Z_scope.

Lemma digits2_pos_below (p : positive) : Zpos p < 2 ^ Zpos (digits2_pos p).
Proof.
  induction p as [p rec | p rec |]; cbn [digits2_pos];
    try (rewrite Pos2Z.inj_succ, Z.pow_succ_r by lia; lia).
  cbn. lia.
Qed.

(** A float between zero and one, as the comparisons of the machine see it. *)
Lemma unit_interval (x : float) :
  (0 <=? x)%float = true -> (x <=? 1)%float = true -> at_most 1 (Prim2SF x).
Proof.
  rewrite !leb_spec. intros above below.
  pose proof (Prim2SF_valid x) as valid.
  change (Prim2SF 0) with (S754_zero false) in above.
  change (Prim2SF 1) with (S754_finite false 4503599627370496 (-52)) in below.
  destruct (Prim2SF x) as [s | [|] | | [|] m e]; try discriminate;
    cbn [at_most]; [exact I |].
  unfold SFleb, SFcompare in below.
  cbn [valid_binary] in valid. unfold bounded, canonical_mantissa in valid.
  apply andb_prop in valid. destruct valid as [canonical _].
  apply Z.eqb_eq in canonical.
  change (Z.max (Zpos (digits2_pos m) + e - 53) (-1074) = e) in canonical.
  pose proof (digits2_pos_below m) as digits.
  split; [reflexivity |].
  destruct (Z.compare_spec e (-52)) as [-> | lower | higher];
    [| | discriminate].
  - split; [lia |].
    pose proof (Z.compare_spec (Zpos m) 4503599627370496) as order.
    cbn [Z.compare] in order. unfold Pos.compare in order.
    change (2 ^ (- -52)) with 4503599627370496.
    destruct order as [same | less | more]; [| | discriminate below]; lia.
  - split; [lia |].
    assert (2 ^ Zpos (digits2_pos m) <= 2 ^ (- e))
      by (apply Z.pow_le_mono_r; lia).
    lia.
Qed.

(** The product of a float of the unit interval by a float that holds the
    integer [B] is at most [B]: the product is rounded, but never past
    [B]. *)
Lemma times_unit (x y : float) (B b : Z) (my : positive) (ey : Z) :
  Prim2SF y = S754_finite false my ey ->
  ey <= 0 -> Zpos my = B * 2 ^ (- ey) -> 0 <= b <= 53 -> B < 2 ^ b ->
  at_most 1 (Prim2SF x) -> at_most B (Prim2SF (x * y)%float).
Proof.
  intros held low whole digits small.
  rewrite mul_spec, held. unfold SF64mul, SFmul.
  destruct (Prim2SF x) as [s | s | | s m e]; cbn [at_most];
    [intros _; exact I | intros [] | intros [] |].
  intros [-> [low' bound]]. cbn [xorb].
  apply (@binary_round_aux_below (m * my) (e + ey) B b);
    [lia | lia | exact small |].
  replace (- (e + ey)) with (- e + - ey) by lia.
  rewrite Z.pow_add_r by lia.
  rewrite Pos2Z.inj_mul, whole.
  assert (0 < 2 ^ (- ey)) by (apply Z.pow_pos_nonneg; lia).
  assert (0 <= B) by nia.
  nia.
Qed.

Lemma twenty_times_unit (x : float) :
  at_most 1 (Prim2SF x) -> at_most 20 (Prim2SF (x * 20)%float).
Proof.
  apply (@times_unit x 20%float 20 5 5629499534213120 (-48));
    [reflexivity | lia | reflexivity | lia | reflexivity].
Qed.

Lemma hundred_times_unit (x : float) :
  at_most 1 (Prim2SF x) -> at_most 100 (Prim2SF (x * 100)%float).
Proof.
  apply (@times_unit x 100%float 100 7 7036874417766400 (-46));
    [reflexivity | lia | reflexivity | lia | reflexivity].
Qed.

(** Rounding to the nearest integer never passes an integer bound. *)
Lemma round_half_even_below (m e K : Z) :
  0 <= m -> e <= 0 -> m <= K * 2 ^ (- e) ->
  0 <= round_half_even m e <= K.
Proof.
  intros positive low bound. unfold round_half_even.
  destruct (Z.leb_spec 0 e) as [zero | negative].
  - replace e with 0 in * by lia. cbn in bound |- *. lia.
  - cbv zeta.
    assert (0 < 2 ^ (- e)) as scale by (apply Z.pow_pos_nonneg; lia).
    pose proof (Z.div_mod m (2 ^ (- e)) ltac:(lia)) as parts.
    pose proof (Z.mod_pos_bound m (2 ^ (- e)) scale) as rest.
    pose proof (Z.div_pos m (2 ^ (- e)) positive scale) as quotient.
    set (q := m / 2 ^ (- e)) in *. set (r := m mod 2 ^ (- e)) in *.
    set (den := 2 ^ (- e)) in *.
    destruct (Z.ltb_spec den (2 * r)).
    + split; [lia | nia].
    + destruct (Z.eqb_spec (2 * r) den); cbn [andb];
        [destruct (Z.odd q) |]; split; try lia; nia.
Qed.

(** [int(x)] of a float that is at most [B]. *)
Lemma int_of_float_below (B : Z) (x : float) :
  0 <= B -> at_most B (Prim2SF x) ->
  exists n, int_of_float x = Ok n /\ 0 <= n <= B.
Proof.
  intro positive. unfold int_of_float.
  destruct (Prim2SF x) as [s | s | | s m e]; cbn [at_most];
    [| intros [] | intros [] |].
  - intros _. exists 0. split; [reflexivity | lia].
  - intros [-> [low bound]]. eexists. split; [reflexivity |].
    unfold truncate.
    assert (0 < 2 ^ (- e)) by (apply Z.pow_pos_nonneg; lia).
    destruct (Z.leb_spec 0 e) as [zero | negative].
    + replace e with 0 in * by lia. cbn in bound |- *. lia.
    + split; [apply Z.div_pos; lia |].
      apply Z.div_le_upper_bound; lia.
Qed.

(** Aligning a mantissa to a lower exponent keeps its value. *)
Lemma shl_align_value (m : positive) (e e' : Z) :
  snd (shl_align m e e') <= e
  /\ snd (shl_align m e e') <= e'
  /\ Zpos (fst (shl_align m e e'))
     = Zpos m * 2 ^ (e - snd (shl_align m e e')).
Proof.
  unfold shl_align.
  destruct (e' - e) as [| d | d] eqn:gap; cbn [fst snd].
  - rewrite Z.sub_diag. cbn. lia.
  - rewrite Z.sub_diag. cbn. lia.
  - replace (e - e') with (Zpos d) by lia.
    change (Pos.iter xO m d) with (shift_pos d m).
    rewrite shift_pos_correct. change (Z.pow_pos 2 d) with (2 ^ Zpos d).
    lia.
Qed.

(** One minus a float of the unit interval is in the unit interval. *)
Lemma one_minus_unit (x : float) :
  at_most 1 (Prim2SF x) -> at_most 1 (Prim2SF (1 - x)%float).
Proof.
  rewrite sub_spec.
  change (Prim2SF 1) with (S754_finite false 4503599627370496 (-52)).
  unfold SF64sub, SFsub.
  destruct (Prim2SF x) as [s | s | | s m e]; cbn [at_most];
    [intros _ | intros [] | intros [] |].
  - split; [reflexivity | split; [lia |]]. vm_compute. discriminate.
  - intros [-> [low bound]]. cbn [cond_Zopp].
    set (ez := Z.min (-52) e).
    destruct (shl_align_value 4503599627370496 (-52) ez) as [_ [_ one]].
    destruct (shl_align_value m e ez) as [_ [_ other]].
    assert (snd (shl_align 4503599627370496 (-52) ez) = ez) as at_one.
    { unfold shl_align. destruct (ez - -52) eqn:gap; cbn [snd]; lia. }
    assert (snd (shl_align m e ez) = ez) as at_other.
    { unfold shl_align. destruct (ez - e) eqn:gap; cbn [snd]; lia. }
    rewrite at_one in one. rewrite at_other in other.
    rewrite one, other. clear one other at_one at_other.
    assert (2 ^ (- ez) = 4503599627370496 * 2 ^ (-52 - ez)) as whole.
    { change 4503599627370496 with (2 ^ 52).
      rewrite <- Z.pow_add_r by lia. f_equal. lia. }
    assert (2 ^ (- ez) = 2 ^ (- e) * 2 ^ (e - ez)) as part
      by (rewrite <- Z.pow_add_r by lia; f_equal; lia).
    assert (0 < 2 ^ (e - ez)) by (apply Z.pow_pos_nonneg; lia).
    set (difference := 4503599627370496 * 2 ^ (-52 - ez)
                       - Zpos m * 2 ^ (e - ez)).
    assert (0 <= difference <= 1 * 2 ^ (- ez)) as [positive below]
      by (unfold difference; nia).
    clearbody difference. clear whole part.
    destruct difference as [| M | M]; [exact I | | lia].
    cbn [binary_normalize]. unfold binary_round.
    destruct (shl_align_value M ez
                (fexp prec emax (Zpos (digits2_pos M) + ez)))
      as [lower [_ same]].
    destruct (shl_align M ez (fexp prec emax (Zpos (digits2_pos M) + ez)))
      as [mz ez'].
    cbn [fst snd] in lower, same.
    apply (@binary_round_aux_below mz ez' 1 1); [lia | lia | reflexivity |].
    rewrite same.
    replace (- ez') with (- ez + (ez - ez')) by lia.
    rewrite Z.pow_add_r by lia.
    assert (0 < 2 ^ (ez - ez')) by (apply Z.pow_pos_nonneg; lia).
    nia.
Qed.

(** The bar of a confidence of the unit interval. *)
Lemma bar_of_unit (confidence : float) :
  at_most 1 (Prim2SF confidence) ->
  exists filled : nat,
    (filled <= 20)%nat
    /\ get_confidence_bar confidence
       = Ok ("[" ++ (repeat_nat "█" filled ++ repeat_nat "░" (20 - filled))
             ++ "] " ++ format_percent1 confidence).
Proof.
  intro unit. apply twenty_times_unit in unit.
  apply int_of_float_below in unit; [| lia].
  destruct unit as [n [counted [positive below]]].
  exists (Z.to_nat n). split; [lia |].
  assert (forall (cell : string) (k : Z),
            0 <= k <= 20 -> str_mul cell k = Ok (repeat_nat cell (Z.to_nat k)))
    as copies.
  { intros cell k small. unfold str_mul, ssize_min, ssize_max.
    destruct (Z.leb_spec (-9223372036854775808) k); [| lia].
    destruct (Z.leb_spec k 9223372036854775807); [reflexivity | lia]. }
  unfold get_confidence_bar. rewrite counted. cbv zeta. cbn [obind].
  rewrite !copies by lia. cbn [obind].
  replace (Z.to_nat (20 - n)) with (20 - Z.to_nat n)%nat by lia.
  reflexivity.
Qed.

(** X11.  For every confidence between zero and one, the confidence bar is
    drawn, never raises, and has exactly twenty cells: at most twenty filled
    ones followed by the empty ones that make up the twenty, between square
    brackets and before the percentage. *)
Theorem confidence_bar_has_twenty_cells (confidence : float) :
  (0 <=? confidence)%float = true -> (confidence <=? 1)%float = true ->
  exists filled : nat,
    (filled <= 20)%nat
    /\ get_confidence_bar confidence
       = Ok ("[" ++ (repeat_nat "█" filled ++ repeat_nat "░" (20 - filled))
             ++ "] " ++ format_percent1 confidence).
Proof.
  intros above below. apply bar_of_unit. now apply unit_interval.
Qed.

(** One decimal digit, padded to one place, is the digit. *)
Lemma zero_pad_digit (d : Z) : 0 <= d <= 9 -> zero_pad 1 d = str_of_int d.
Proof.
  intro digit.
  assert (d = 0 \/ d = 1 \/ d = 2 \/ d = 3 \/ d = 4 \/ d = 5 \/ d = 6
          \/ d = 7 \/ d = 8 \/ d = 9) as cases by lia.
  repeat destruct cases as [-> | cases]; try reflexivity.
  now subst d.
Qed.

(** The percentage of a confidence of the unit interval. *)
Lemma percent_of_unit (x : float) :
  at_most 1 (Prim2SF x) ->
  exists (sign : string) (whole tenth : Z),
    format_percent1 x
    = (sign ++ str_of_int whole ++ "." ++ str_of_int tenth) ++ "%"
    /\ 0 <= whole <= 100 /\ 0 <= tenth <= 9 /\ (whole = 100 -> tenth = 0)
    /\ (sign = ""
        \/ sign = "-" /\ whole = 0 /\ tenth = 0
           /\ Prim2SF x = S754_zero true).
Proof.
  intro unit. pose proof (@hundred_times_unit x unit) as scaled.
  unfold format_percent1, format_fixed.
  rewrite mul_spec in *.
  change (Prim2SF 100) with (S754_finite false 7036874417766400 (-46)) in *.
  destruct (Prim2SF x) as [[|] | s | | s m e]; cbn [at_most] in unit;
    try contradiction.
  - exists "-", 0, 0. split; [reflexivity |].
    repeat split; try lia. right. now repeat split.
  - exists "", 0, 0. split; [reflexivity |].
    repeat split; try lia. now left.
  - destruct (SF64mul (S754_finite s m e)
                (S754_finite false 7036874417766400 (-46)))
      as [s' | s' | | s' m' e'] eqn:product; cbn [at_most] in scaled;
      try contradiction.
    + destruct unit as [-> _]. cbn in product.
      unfold binary_round_aux in product.
      destruct (shr_fexp prec emax
                  (Z.pos (m * 7036874417766400)) (e + -46) loc_Exact)
        as [r1 e1].
      destruct (shr_fexp prec emax
                  (round_nearest_even (shr_m r1) (loc_of_shr_record r1)) e1
                  loc_Exact) as [r2 e2].
      destruct (shr_m r2); [| destruct (e2 <=? emax - prec) |];
        try discriminate product.
      injection product as <-.
      exists "", 0, 0. split; [reflexivity |].
      repeat split; try lia. now left.
    + destruct scaled as [-> [low bound]].
      change (10 ^ Z.of_nat 1) with 10. cbv zeta.
      pose proof (@round_half_even_below (Zpos m' * 10) e' 1000) as rounded.
      set (n := round_half_even (Zpos m' * 10) e') in *.
      assert (0 <= n <= 1000) as [positive below]
        by (apply rounded; lia).
      assert (0 <= n mod 10 <= 9) as digit
        by (pose proof (Z.mod_pos_bound n 10); lia).
      exists "", (n / 10), (n mod 10).
      rewrite zero_pad_digit by exact digit.
      split; [reflexivity |].
      pose proof (Z.div_mod n 10 ltac:(lia)) as parts.
      split;
        [split; [apply Z.div_pos; lia | apply Z.div_le_upper_bound; lia] |].
      split; [exact digit |]. split; [lia | now left].
Qed.

(** X13.  A confidence between zero and one is shown as a percentage with
    one decimal between 0.0% and 100.0%: the product by one hundred and the
    rounding to one decimal never pass one hundred; the one sign that can
    show is the minus of a negative zero. *)
Theorem percentage_of_a_confidence_is_within_range (confidence : float) :
  (0 <=? confidence)%float = true -> (confidence <=? 1)%float = true ->
  exists (sign : string) (whole tenth : Z),
    format_percent1 confidence
    = (sign ++ str_of_int whole ++ "." ++ str_of_int tenth) ++ "%"
    /\ 0 <= whole <= 100 /\ 0 <= tenth <= 9 /\ (whole = 100 -> tenth = 0)
    /\ (sign = ""
        \/ sign = "-" /\ whole = 0 /\ tenth = 0
           /\ Prim2SF confidence = S754_zero true).
Proof.
  intros above below. apply percent_of_unit. now apply unit_interval.
Qed.

End Bar.

(** ** Thresholds of the slider *)

Section SliderRange.
Variable float_repr : float -> string.
Variable W : World.

(** X12.  With a threshold between zero and one, the range of the slider,
    every job in which the pipeline gave its verdict is answered with a
    report, whatever the verdict: the subtraction from one and the product
    by twenty are rounded but stay in range, so the bar is drawn with its
    twenty cells and the report shows it with the percentage of the
    synthesized confidence. *)
Theorem threshold_of_the_slider_always_gets_a_report (s : state W)
    (image_file video_file : option string) (models_to_use : list string)
    (confidence_threshold : float) (num_frames : Z) (pipeline : handle)
    (media_path output_folder : string) (save_csv : bool) (frames : Z)
    (verdict : bool) :
  (0 <=? confidence_threshold)%float = true ->
  (confidence_threshold <=? 1)%float = true ->
  In (EvCall (pipeline_detect pipeline media_path output_folder save_csv
                frames) (RBool verdict))
     (trace W (detect_deepfakes float_repr image_file video_file
                 models_to_use confidence_threshold num_frames) s) ->
  exists (text : string) (filled : nat),
    result W (detect_deepfakes float_repr image_file video_file
                models_to_use confidence_threshold num_frames) s
      = Ok (None, text)
    /\ String.prefix "❌" text = false
    /\ (filled <= 20)%nat
    /\ within ("**Pipeline Result**: "
               ++ ("[" ++ (repeat_nat "█" filled
                           ++ repeat_nat "░" (20 - filled))
                   ++ "] "
                   ++ format_percent1
                        (avg_confidence confidence_threshold verdict))
               ++ nl) text.
Proof.
  intros above below given.
  apply job_with_verdict in given.
  destruct given as [media_type [weights [_ [_ [_ ->]]]]].
  pose proof (@unit_interval _ above below) as unit.
  assert (at_most 1 (Prim2SF (avg_confidence confidence_threshold verdict)))
    as synthesized
    by (destruct verdict; [exact unit | now apply one_minus_unit]).
  destruct (@bar_of_unit _ synthesized) as [filled [counted drawn]].
  pose proof (rendered_shows_confidence float_repr media_path media_type
                models_to_use weights confidence_threshold num_frames verdict)
    as shown.
  pose proof (rendered_names_file_and_models float_repr media_path media_type
                models_to_use weights confidence_threshold num_frames verdict)
    as named.
  change (if verdict then confidence_threshold
          else (1.0 - confidence_threshold)%float)
    with (avg_confidence confidence_threshold verdict) in shown, named.
  rewrite drawn in shown, named.
  destruct shown as [text [same bar]].
  destruct named as [text' [same' [_ [unmarked _]]]].
  assert (text' = text) as -> by congruence.
  exists text, filled. rewrite same. now repeat split.
Qed.

End SliderRange.

(** ** Bars in the sample worlds *)

Section BarSamples.
Import Worlds.

(** A confidence of one half. *)
Lemma confidence_bar_has_twenty_cells_witness :
  exists filled : nat,
    (filled <= 20)%nat
    /\ get_confidence_bar 0.5%float
       = Ok ("[" ++ (repeat_nat "█" filled ++ repeat_nat "░" (20 - filled))
             ++ "] " ++ format_percent1 0.5%float).
Proof.
  exact (@confidence_bar_has_twenty_cells 0.5%float eq_refl eq_refl).
Defined.

(** The percentage of one half. *)
Lemma percentage_of_a_confidence_is_within_range_witness :
  exists (sign : string) (whole tenth : Z),
    format_percent1 0.5%float
    = (sign ++ str_of_int whole ++ "." ++ str_of_int tenth) ++ "%"
    /\ (0 <= whole <= 100)%Z /\ (0 <= tenth <= 9)%Z
    /\ (whole = 100%Z -> tenth = 0%Z)
    /\ (sign = ""
        \/ sign = "-" /\ whole = 0%Z /\ tenth = 0%Z
           /\ Prim2SF 0.5%float = S754_zero true).
Proof.
  exact (@percentage_of_a_confidence_is_within_range 0.5%float
           eq_refl eq_refl).
Defined.

(** An authentic image at threshold 0.8: the bar is drawn for 1.0 - 0.8. *)
Lemma threshold_of_the_slider_always_gets_a_report_witness :
  exists (text : string) (filled : nat),
    result image_authentic
      (detect_deepfakes repr_one_decimal (Some "face.jpg") None
         ["resnet_inception"] 0.8%float 30) tt = Ok (None, text)
    /\ String.prefix "❌" text = false
    /\ (filled <= 20)%nat
    /\ within ("**Pipeline Result**: "
               ++ ("[" ++ (repeat_nat "█" filled
                           ++ repeat_nat "░" (20 - filled))
                   ++ "] "
                   ++ format_percent1 (avg_confidence 0.8%float false))
               ++ nl) text.
Proof.
  exact (@threshold_of_the_slider_always_gets_a_report repr_one_decimal
           image_authentic tt (Some "face.jpg") None ["resnet_inception"]
           0.8%float 30%Z 3%nat "face.jpg" "gradio_output/deepfake_detection"
           true 30%Z false eq_refl eq_refl
           (or_intror (or_intror (or_introl eq_refl)))).
Defined.

End BarSamples.
